(** * EPiC Grasshopper: the material and volumetric-assembly components

    A shallow embedding of the two GhPython components of the plugin,
    [EPiC_Material_Component.py] and [EPiC_Assembly_Volumetric_Component.py],
    and of the arithmetic contract of the [epic] module they import.

    Conventions.
    - Python values are the type [pyval].  Numbers are exact rationals
      [Qc].  The scripts run under IronPython 2, where [/] between two
      integers is floor division; the coefficients of the database and the
      values of the sliders are taken to be floating-point numbers, so [/]
      is the division of the numbers, and their rounding is not modelled:
      an arithmetic statement about a run is about the exact value.  What
      rounding changes is told apart with [reduction_in_doubles] and
      [wastage_percent_in_doubles], the two arithmetic expressions of the
      material component on binary64 numbers.
    - A Python call that can raise returns a [result]; code that also
      changes the host (the component, the sticky dictionary, the document)
      is a function [W -> result (A * W)] on an explicit world [W].
    - The module [epic] is not part of the two source files.  Its functions
      are taken as the fields of an interface record, so that the embedding
      of each [RunScript] follows the source line by line and is settled for
      every implementation of the module. *)

From stdpp Require Import base option list gmap strings numbers pretty.
From Stdlib Require Import Ascii QArith Qcanon Qround Floats.

Local Set Warnings "-register-all".
Local Set Warnings "-inexact-float".
Local Open Scope string_scope.
Local Open Scope Qc_scope.

(** ** Exceptions and results *)

Inductive exn :=
| TypeError
| IndexError
| KeyError
| ValueError
| AttributeError
| OtherError (what : string).

Inductive result (A : Type) :=
| Ok (a : A)
| Raise (e : exn).
Arguments Ok {A} a.
Arguments Raise {A} e.

Global Instance result_ret : MRet result := λ A a, Ok a.
Global Instance result_bind : MBind result := λ A B f r,
  match r with
  | Ok a => f a
  | Raise e => Raise e
  end.
Global Instance result_fmap : FMap result := λ A B f r,
  match r with
  | Ok a => Ok (f a)
  | Raise e => Raise e
  end.

(** [mapM_result f l] evaluates [f] on the elements of [l] from left to right
    and stops at the first exception. *)
Fixpoint mapM_result {A B} (f : A → result B) (l : list A) : result (list B) :=
  match l with
  | [] => Ok []
  | x :: l' => y ← f x; ys ← mapM_result f l'; Ok (y :: ys)
  end.

(** The state-and-exception monad of a script run in a host world [W]. *)
Definition M (W A : Type) : Type := W → result (A * W).

Definition ret {W A} (a : A) : M W A := λ w, Ok (a, w).
Definition bind {W A B} (m : M W A) (k : A → M W B) : M W B := λ w,
  match m w with
  | Ok (a, w') => k a w'
  | Raise e => Raise e
  end.
Definition lift {W A} (r : result A) : M W A := λ w,
  match r with
  | Ok a => Ok (a, w)
  | Raise e => Raise e
  end.
Definition get {W} : M W W := λ w, Ok (w, w).
Definition modify {W} (f : W → W) : M W unit := λ w, Ok (tt, f w).
Definition raise {W A} (e : exn) : M W A := λ _, Raise e.
(** [run f] is a call of a host function that changes the world. *)
Definition run {W} (f : W → result W) : M W unit := λ w,
  match f w with
  | Ok w' => Ok (tt, w')
  | Raise e => Raise e
  end.
(** [try_except_TypeError m h]: [try: m  except TypeError: h], for a guarded
    block [m] that changes no state (the only [try] blocks of the sources
    guard database queries and a constructor call). *)
Definition try_except_TypeError {W A} (m : result A) (h : A) : M W A := λ w,
  match m with
  | Ok a => Ok (a, w)
  | Raise TypeError => Ok (h, w)
  | Raise e => Raise e
  end.

Global Instance M_ret {W} : MRet (M W) := λ A, ret.
Global Instance M_bind {W} : MBind (M W) := λ A B k m, bind m k.

(** ** Python values *)

Inductive pyval :=
| PyNone
| PyBool (b : bool)
| PyNum (q : Qc)
| PyStr (s : string)
| PyList (l : list pyval).

Definition num (z : Z) : pyval := PyNum (Qc_of_Z z).

(** [bool] is a subclass of [int]: [True] counts as 1 in arithmetic. *)
Definition as_num (v : pyval) : option Qc :=
  match v with
  | PyNum q => Some q
  | PyBool b => Some (if b then 1 else 0)
  | _ => None
  end.

(** Truth value of an object: [None], [False], zero, the empty string and
    the empty list are false. *)
Definition truthy (v : pyval) : bool :=
  match v with
  | PyNone => false
  | PyBool b => b
  | PyNum q => negb (bool_decide (q = 0))
  | PyStr s => negb (String.eqb s "")
  | PyList l => match l with [] => false | _ => true end
  end.

(** [a == b]. *)
Fixpoint py_eqb (a b : pyval) : bool :=
  match a, b with
  | PyNone, PyNone => true
  | PyStr s, PyStr t => String.eqb s t
  | PyList l, PyList m =>
      (fix go (l m : list pyval) : bool :=
         match l, m with
         | [], [] => true
         | x :: l', y :: m' => py_eqb x y && go l' m'
         | _, _ => false
         end) l m
  | _, _ =>
      match as_num a, as_num b with
      | Some p, Some q => bool_decide (p = q)
      | _, _ => false
      end
  end.

Definition Qc_abs (q : Qc) : Qc := if bool_decide (0 ≤ q) then q else - q.

(** Arithmetic is defined on numbers; any other operand raises [TypeError]
    (the sources only divide by the literal 100). *)
Definition arith (op : Qc → Qc → Qc) (a b : pyval) : result pyval :=
  match as_num a, as_num b with
  | Some p, Some q => Ok (PyNum (op p q))
  | _, _ => Raise TypeError
  end.
Definition py_sub := arith Qcminus.
Definition py_mul := arith Qcmult.
Definition py_div := arith Qcdiv.
Definition py_abs (a : pyval) : result pyval :=
  match as_num a with
  | Some p => Ok (PyNum (Qc_abs p))
  | None => Raise TypeError
  end.

(** [v > q] for a number [q], with the ordering of Python 2 on mixed types:
    [None] is below every number, strings and lists are above. *)
Definition py_gt_num (v : pyval) (q : Qc) : bool :=
  match as_num v with
  | Some p => bool_decide (q < p)
  | None => match v with PyNone => false | _ => true end
  end.

(** ** Strings *)

(** [contains sub s]: [sub in s]. *)
Fixpoint contains (sub s : string) : bool :=
  String.prefix sub s ||
  match s with
  | EmptyString => false
  | String _ s' => contains sub s'
  end.

(** [split sep s]: [s.split(sep)] for a non-empty separator; matches are
    taken from the left and do not overlap.  [skip] counts the characters of
    a matched separator still to be dropped, [cur] is the piece read so far. *)
Fixpoint split_go (sep : string) (skip : nat) (cur s : string) : list string :=
  match s with
  | EmptyString => [cur]
  | String c s' =>
      match skip with
      | S k => split_go sep k cur s'
      | O =>
          if String.prefix sep s
          then cur :: split_go sep (String.length sep - 1)%nat "" s'
          else split_go sep 0 (cur +:+ String c "") s'
      end
  end.
Definition split (sep s : string) : list string := split_go sep 0 "" s.

(** Strings of decimal digits. *)
Definition is_digit (c : ascii) : bool :=
  bool_decide (48 ≤ nat_of_ascii c ≤ 57)%nat.
Fixpoint digits (s : string) : bool :=
  match s with
  | EmptyString => true
  | String c s' => is_digit c && digits s'
  end.

(** [x in c]: substring test on a string, membership by [==] on a list. *)
Definition py_contains (x c : pyval) : result bool :=
  match c with
  | PyStr s => match x with PyStr sub => Ok (contains sub s) | _ => Raise TypeError end
  | PyList l => Ok (existsb (py_eqb x) l)
  | _ => Raise TypeError
  end.

(** [l[i]] on a list. *)
Definition index {A} (l : list A) (i : nat) : result A :=
  match l !! i with
  | Some x => Ok x
  | None => Raise IndexError
  end.

(** An optional number as the script receives it: [None] when nothing is
    connected to the input. *)
Definition optional (r : option Qc) : pyval :=
  match r with
  | Some q => PyNum q
  | None => PyNone
  end.

(** The coefficient [c] after a reduction factor of [r] percent, as the
    description of the material component states it: [c × (1 − r/100)], and
    [c] itself when no factor is supplied. *)
Definition reduced_by_percent (c : Qc) (r : option Qc) : Qc :=
  match r with
  | Some r => c * (1 - r / Qc_of_Z 100)
  | None => c
  end.

(** The same with the scaling [c / 100 × |100 − r|]. *)
Definition scaled (c : Qc) (r : option Qc) : Qc :=
  match r with
  | Some r => c / Qc_of_Z 100 * Qc_abs (Qc_of_Z 100 - r)
  | None => c
  end.

(** The same for a factor of at most 100 percent, where [abs] has no
    effect: [c / 100 × (100 − r)]. *)
Definition reduced_up_to_100 (c : Qc) (r : option Qc) : Qc :=
  match r with
  | Some r => c / Qc_of_Z 100 * (Qc_of_Z 100 - r)
  | None => c
  end.

(** *** The arithmetic of the material component in double precision

    The numbers of the scripts are binary64 floats.  The two arithmetic
    expressions of the material component are given here on such numbers,
    as the script evaluates them. *)

(** Lines 216-220: [c / 100 * abs(100 - r)]. *)
Definition reduction_in_doubles (c r : float) : float :=
  (c / 100 * abs (100 - r))%float.

(** Line 192: [(w - 1) * 100]. *)
Definition wastage_percent_in_doubles (w : float) : float :=
  ((w - 1) * 100)%float.

(** ** The classes of module [epic] the components exchange *)

(** Modelled from the spec: class [EPiCMaterial] of module [epic], which is
    not among the sources.  The material component's own description of its
    first output is followed: an object that holds the attributes (name,
    energy, water, ghg, functional_unit, doi, category, material_id, wastage,
    service_life, comments), that is, the keyword arguments of the
    constructor call in [RunScript], each stored as it was passed. *)
Module EPiCMaterial.
Record t := {
  name : pyval;
  water : pyval;
  ghg : pyval;
  energy : pyval;
  functional_unit : pyval;
  doi : pyval;
  category : pyval;
  material_id : pyval;
  wastage : pyval;
  service_life : pyval;
  comments : pyval;
  density : pyval;
  process_shares : list (string * pyval)
}.
End EPiCMaterial.

(** ** The host *)

(** [GH_RuntimeMessageLevel]. *)
Module RML.
Inductive t := Remark | Warning | Error.
End RML.

(** The slider of a [GH_NumberSlider]. *)
Record slider := { Maximum : pyval; Value : pyval }.

(** An object wired to an input of the component. *)
Inductive source :=
| GH_NumberSlider (Slider : slider)
| OtherSource.

(** [ghenv.Component], with the members the scripts read or write.
    [Params_Input] lists, for each input, its [Sources]. *)
Record Component := {
  Message : string;
  Name : string;
  NickName : string;
  RuntimeMessages : list (RML.t * string);
  InstanceGuid : string;
  Params_Input : list (list source)
}.

Definition AddRuntimeMessage (level : RML.t) (text : string) (c : Component) : Component :=
  {| Message := Message c; Name := Name c; NickName := NickName c;
     RuntimeMessages := RuntimeMessages c ++ [(level, text)];
     InstanceGuid := InstanceGuid c; Params_Input := Params_Input c |}.

(** An output of a component: a plain value or one of the objects of
    module [epic]. *)
Inductive output (Assembly Geometry : Type) :=
| OutVal (v : pyval)
| OutMaterial (m : EPiCMaterial.t)
| OutAssembly (a : Assembly)
| OutGeometry (g : list Geometry).
Arguments OutVal {Assembly Geometry} v.
Arguments OutMaterial {Assembly Geometry} m.
Arguments OutAssembly {Assembly Geometry} a.
Arguments OutGeometry {Assembly Geometry} g.

(** An object wired to a material input of the assembly component. *)
Inductive ghval :=
| GhVal (v : pyval)
| GhMaterial (m : EPiCMaterial.t).

(** The sticky dictionary [scriptcontext.sticky], as far as the scripts use
    it: the key ['epic_db'] holds the loaded database, the key of a
    component (its [InstanceGuid]) the material last selected in it. *)
Record sticky (DB : Type) := {
  st_epic_db : option DB;
  st_component : gmap string pyval
}.
Arguments st_epic_db {DB} s.
Arguments st_component {DB} s.

(** What a run can read and change. [webbrowser_opened] lists the pages
    opened with [webbrowser.open]. *)
Record World (DB : Type) := {
  ghenv_Component : Component;
  st : sticky DB;
  webbrowser_opened : list string
}.
Arguments ghenv_Component {DB} w.
Arguments st {DB} w.
Arguments webbrowser_opened {DB} w.

(** ** Module [epic], as the two scripts use it

    [DB] is the class [EPiCDatabase], [Assembly] the class [EPiCAssembly],
    [Entry] an element of the list [create_list_of_input_materials_and_qty]
    returns, [Geometry] an item of the geometry input, [Doc] the document
    [OnPingDocument] returns.  Every function may raise.  The functions
    that are handed [ghenv] or [ghenv.Component], the host calls and
    [calculate_flows] are given the world and may change it; the queries of
    the database and the constructor of [EPiCAssembly] return a value. *)

(** The constants of the module. *)
Class EpicInfo := {
  __author__ : string;
  __version__ : string;
  __message__ : string;
  version_mismatch : string → string;
  DISCLAIMER : string;
  DEFINED_FLOWS_keys : list string
}.

(** Class [EPiCDatabase], the static methods of class [EPiCMaterial] that
    edit the document, and the host calls of the material component. *)
Class EpicMaterials (DB Doc : Type) := {
  DefaultAssemblyFolder : string;
  EPiCDatabase : string → result DB;
  dict_of_categories : DB → gmap string (list pyval);
  _query_for_name_or_old_mat_id : DB → pyval → result pyval;
  query : DB → pyval → string → result pyval;
  query_list : DB → pyval → list string → result (list pyval);
  generate_material_and_category_dropdown_list :
    DB → option pyval → World DB → result (World DB);
  recreate_material_list :
    DB → source → pyval → option pyval → World DB → result (World DB);
  generate_slider_input : pyval → nat → World DB → result (World DB);
  OnPingDocument : World DB → result Doc;
  ScheduleSolution : Doc → nat → World DB → result (World DB)
}.

(** Class [EPiCAssembly]: the static method that sorts the inputs, the
    constructor (geometry, name, service life, wastage, comments, materials,
    units, category), [calculate_flows] and the attributes read back. *)
Class EpicAssemblies (DB Assembly Entry Geometry : Type) := {
  create_list_of_input_materials_and_qty :
    string → list ghval → World DB → result (list Entry * World DB);
  EPiCAssembly :
    list Geometry → pyval → pyval → pyval → pyval → list Entry → string → pyval →
    result Assembly;
  calculate_flows : Assembly → World DB → result (Assembly * World DB);
  flows : Assembly → gmap string (gmap string pyval);
  output_geometry : Assembly → list Geometry
}.

Section Components.
Context {DB Doc Assembly Entry Geometry : Type}.
Context {info : EpicInfo}.
Context {materials_api : EpicMaterials DB Doc}.
Context {assemblies_api : EpicAssemblies DB Assembly Entry Geometry}.

Abbreviation World := (World DB).
Abbreviation output := (output Assembly Geometry).

(** *** Access to the world *)

Definition set_Component (c : Component) (w : World) : World :=
  {| ghenv_Component := c; st := st w; webbrowser_opened := webbrowser_opened w |}.
Definition set_st (s : sticky DB) (w : World) : World :=
  {| ghenv_Component := ghenv_Component w; st := s; webbrowser_opened := webbrowser_opened w |}.

Definition on_Component (f : Component → Component) : M World unit :=
  modify (λ w, set_Component (f (ghenv_Component w)) w).

Definition set_Message (text : string) (c : Component) : Component :=
  {| Message := text; Name := Name c; NickName := NickName c;
     RuntimeMessages := RuntimeMessages c;
     InstanceGuid := InstanceGuid c; Params_Input := Params_Input c |}.
Definition set_Name (text : string) (c : Component) : Component :=
  {| Message := Message c; Name := text; NickName := NickName c;
     RuntimeMessages := RuntimeMessages c;
     InstanceGuid := InstanceGuid c; Params_Input := Params_Input c |}.
Definition set_NickName (text : string) (c : Component) : Component :=
  {| Message := Message c; Name := Name c; NickName := text;
     RuntimeMessages := RuntimeMessages c;
     InstanceGuid := InstanceGuid c; Params_Input := Params_Input c |}.
Definition set_Params_Input (inputs : list (list source)) (c : Component) : Component :=
  {| Message := Message c; Name := Name c; NickName := NickName c;
     RuntimeMessages := RuntimeMessages c;
     InstanceGuid := InstanceGuid c; Params_Input := inputs |}.

(** [st[key] = v] for the key of a component. *)
Definition st_set (key : string) (v : pyval) : M World unit :=
  modify (λ w,
    set_st {| st_epic_db := st_epic_db (st w);
              st_component := <[key := v]> (st_component (st w)) |} w).
(** [st[key]]. *)
Definition st_get (key : string) : M World pyval := λ w,
  match st_component (st w) !! key with
  | Some v => Ok (v, w)
  | None => Raise KeyError
  end.

Definition webbrowser_open (url : string) : M World unit :=
  modify (λ w,
    {| ghenv_Component := ghenv_Component w; st := st w;
       webbrowser_opened := webbrowser_opened w ++ [url] |}).

(** *** The header both scripts start with: component and version
    information *)
Definition version_header (version component_name : string) : M World unit :=
  (if String.eqb version __version__
   then on_Component (set_Message __message__)
   else
     on_Component (set_Message (version_mismatch version));;
     w ← get;
     on_Component (AddRuntimeMessage RML.Remark (Message (ghenv_Component w))));;
  on_Component (set_Name component_name);;
  on_Component (set_NickName component_name).

(** The world the header leaves: it cannot raise. *)
Definition header_world (version component_name : string) (w : World) : World :=
  let c := ghenv_Component w in
  let c :=
    if String.eqb version __version__ then set_Message __message__ c
    else AddRuntimeMessage RML.Remark (version_mismatch version)
           (set_Message (version_mismatch version) c) in
  set_Component (set_NickName component_name (set_Name component_name c)) w.

(** *** [EPiC_Material_Component.py] *)

(** Lines 140-142: the database is loaded once into the sticky dictionary. *)
Definition load_epic_db : M World DB := λ w,
  match st_epic_db (st w) with
  | Some db => Ok (db, w)
  | None =>
      db ← EPiCDatabase DefaultAssemblyFolder;
      Ok (db, set_st {| st_epic_db := Some db; st_component := st_component (st w) |} w)
  end.

(** Lines 144-148: the first element of a list is taken and the text up to
    [': '] is dropped.  The test is for [':'], the split is at [': ']. *)
Definition normalise_category (material_category : pyval) : result pyval :=
  if truthy material_category then
    material_category ←
      match material_category with
      | PyList l => index l 0
      | _ => Ok material_category
      end;
    has_colon ← py_contains (PyStr ":") material_category;
    if has_colon : bool then
      match material_category with
      | PyStr s => PyStr <$> index (split ": " s) 1
      | _ => Raise AttributeError
      end
    else Ok material_category
  else Ok material_category.

(** Lines 151-159: the dropdown lists are generated when the button is on
    and a selection is missing. *)
Definition generate_lists (connect_button material_id material_category : pyval)
    (epic_db : DB) (component_id : string) : M World unit :=
  if truthy connect_button then
    if negb (truthy material_id) || negb (truthy material_category) then
      (if truthy material_category
       then run (generate_material_and_category_dropdown_list epic_db (Some material_category))
       else run (generate_material_and_category_dropdown_list epic_db None));;
      st_set component_id PyNone
    else mret tt
  else mret tt.

(** [epic_db.dict_of_categories[material_category]]: a list is not hashable,
    a key that is not in the dictionary raises [KeyError]. *)
Definition materials_of_category (epic_db : DB) (material_category : pyval)
    : result (list pyval) :=
  match material_category with
  | PyStr s =>
      match dict_of_categories epic_db !! s with
      | Some ids => Ok ids
      | None => Raise KeyError
      end
  | PyList _ => Raise TypeError
  | _ => Raise KeyError
  end.

(** [ghenv.Component.Params.Input[i].Sources]. *)
Definition Sources (i : nat) : M World (list source) := λ w,
  srcs ← index (Params_Input (ghenv_Component w)) i;
  Ok (srcs, w).

(** Lines 167-178: a material that is not in the selected category is looked
    up among the legacy identifiers, and the material list is rebuilt.  The
    result is the identifier the queries below use. *)
Definition select_material (epic_db : DB) (material_category material_id : pyval)
    : M World pyval :=
  ids ← lift (materials_of_category epic_db material_category);
  if negb (existsb (py_eqb material_id) ids) then
    legacy_material ← lift (_query_for_name_or_old_mat_id epic_db material_id);
    if truthy legacy_material then
      srcs ← Sources 2;
      ghObject ← lift (index srcs 0);
      run (recreate_material_list epic_db ghObject material_category (Some legacy_material));;
      mret legacy_material
    else
      srcs ← Sources 2;
      ghObject ← lift (index srcs 0);
      run (recreate_material_list epic_db ghObject material_category None);;
      mret material_id
  else mret material_id.

(** The fields of lines 181-182, in the order they are unpacked. *)
Definition material_fields : list string :=
  ["Energy"; "Water"; "GHG"; "Functional Unit"; "name"; "DOI"; "Category"; "Density"].

(** The values of lines 180-182, as a record of the eight names. *)
Record db_values := {
  db_energy : pyval;
  db_water : pyval;
  db_ghg : pyval;
  db_functional_unit : pyval;
  db_name : pyval;
  db_doi : pyval;
  db_category : pyval;
  db_density : pyval
}.

(** Unpacking into eight names raises [ValueError] on any other length. *)
Definition unpack8 (l : list pyval) : result db_values :=
  match l with
  | [e; w; g; fu; n; d; c; dn] =>
      Ok {| db_energy := e; db_water := w; db_ghg := g; db_functional_unit := fu;
            db_name := n; db_doi := d; db_category := c; db_density := dn |}
  | _ => Raise ValueError
  end.

(** Lines 183-184. *)
Definition query_process_shares (epic_db : DB) (material_id : pyval)
    : result (list (string * pyval)) :=
  mapM_result
    (λ flow, v ← query epic_db material_id ("hybrid_process_proportion_" +:+ flow);
             Ok (flow, v))
    DEFINED_FLOWS_keys.

(** Lines 243-247. *)
Definition ScheduleCallback (obj : slider) (val : pyval) : slider :=
  if truthy val then
    let obj :=
      if py_gt_num val (Qc_of_Z 100)
      then {| Maximum := val; Value := Value obj |}
      else obj in
    {| Maximum := Maximum obj; Value := val |}
  else obj.

(** Lines 192-198: the default wastage (in the database 1 is 0%, 1.1 is 10%)
    and service life (-1 or nothing is no service life) of the material. *)
Definition db_wastage_and_service_life (epic_db : DB) (material_id : pyval)
    : M World (pyval * pyval) :=
  try_except_TypeError
    (w ← query epic_db material_id "Wastage";
     w1 ← py_sub w (num 1);
     epic_wastage ← py_mul w1 (num 100);
     epic_service_life ← query epic_db material_id "Service Life";
     Ok (epic_wastage,
         if py_eqb epic_service_life (num (-1)) || negb (truthy epic_service_life)
         then num 0 else epic_service_life))
    (num 0, num 0).

(** Lines 202-209, the body of the loop for one input. *)
Definition set_slider (i : nat) (val : pyval) : M World unit :=
  srcs ← Sources i;
  match srcs with
  | [] => run (generate_slider_input val i)
  | list_object :: _ =>
      match list_object with
      | GH_NumberSlider sl =>
          doc ← (λ w, d ← OnPingDocument w; Ok (d, w));
          inputs ← (λ w, Ok (Params_Input (ghenv_Component w), w));
          on_Component
            (set_Params_Input
               (<[i := <[0%nat := GH_NumberSlider (ScheduleCallback sl val)]> srcs]> inputs));;
          run (ScheduleSolution doc 5)
      | OtherSource => mret tt
      end
  end.

(** Lines 187-212: the sliders follow a change of the selected material. *)
Definition update_sliders (epic_db : DB) (material_id : pyval) (component_id : string)
    : M World unit :=
  last ← st_get component_id;
  if negb (py_eqb material_id last) then
    '(epic_wastage, epic_service_life) ← db_wastage_and_service_life epic_db material_id;
    set_slider 5 epic_wastage;;
    set_slider 6 epic_service_life;;
    st_set component_id material_id
  else mret tt.

(** Lines 216-220, for one flow:
    [c if not r and r != 0 else c / 100 * abs(100 - r)]. *)
Definition reduce (c r : pyval) : result pyval :=
  if negb (truthy r) && negb (py_eqb r (num 0)) then Ok c
  else
    c100 ← py_div c (num 100);
    d ← py_sub (num 100) r;
    a ← py_abs d;
    py_mul c100 a.

(** Lines 215-220: the coefficients (energy, water, ghg) after the reduction
    factors. *)
Definition include_reduction_factor (energy water ghg : pyval)
    (energy_reduction water_reduction ghg_reduction : pyval)
    : result (pyval * pyval * pyval) :=
  if truthy water && truthy ghg && truthy energy then
    energy ← reduce energy energy_reduction;
    water ← reduce water water_reduction;
    ghg ← reduce ghg ghg_reduction;
    Ok (energy, water, ghg)
  else Ok (energy, water, ghg).

Definition warning : string :=
  "Connect a button to the first input, and activate to generate a material & category list".

(** Lines 119-159: the header, the sticky entry of the component, the help
    page, the database, the category and the dropdown lists.  The result is
    the database, the category as the rest of the script uses it, and the
    key of the component in the sticky dictionary. *)
Definition prepare (connect_button material_category material_id epic_help : pyval)
    : M World (DB * pyval * string) :=
  version_header "1.02" "EPiC Material";;
  w ← get;
  let component_id := InstanceGuid (ghenv_Component w) in
  match st_component (st w) !! component_id with
  | None => st_set component_id material_id
  | Some _ => mret tt
  end;;
  (if truthy epic_help then webbrowser_open "https://bit.ly/EPiC_Database" else mret tt);;
  epic_db ← load_epic_db;
  material_category ← lift (normalise_category material_category);
  generate_lists connect_button material_id material_category epic_db component_id;;
  mret (epic_db, material_category, component_id).

(** Lines 167-212: the identifier the database is asked for, the values it
    returns, the process shares, and the update of the sliders. *)
Definition load_material (epic_db : DB) (material_category material_id : pyval)
    (component_id : string) : M World (pyval * db_values * list (string * pyval)) :=
  material_id ← select_material epic_db material_category material_id;
  l ← lift (query_list epic_db material_id material_fields);
  v ← lift (unpack8 l);
  process_shares ← lift (query_process_shares epic_db material_id);
  update_sliders epic_db material_id component_id;;
  mret (material_id, v, process_shares).

Definition RunScript_Material
    (connect_button material_category material_id comments _null
     wastage service_life _null2
     energy_reduction water_reduction ghg_reduction _null3 epic_help : pyval)
    : M World (list output) :=
  '(epic_db, material_category, component_id) ←
    prepare connect_button material_category material_id epic_help;
  if truthy material_id && truthy material_category then
    '(material_id, v, process_shares) ←
      load_material epic_db material_category material_id component_id;
    '(energy, water, ghg) ←
      lift (include_reduction_factor (db_energy v) (db_water v) (db_ghg v)
              energy_reduction water_reduction ghg_reduction);
    let output_epic_material :=
      {| EPiCMaterial.name := db_name v;
         EPiCMaterial.water := water;
         EPiCMaterial.ghg := ghg;
         EPiCMaterial.energy := energy;
         EPiCMaterial.functional_unit := db_functional_unit v;
         EPiCMaterial.doi := db_doi v;
         EPiCMaterial.category := db_category v;
         EPiCMaterial.material_id := material_id;
         EPiCMaterial.wastage := wastage;
         EPiCMaterial.service_life := service_life;
         EPiCMaterial.comments := comments;
         EPiCMaterial.density := db_density v;
         EPiCMaterial.process_shares := process_shares |} in
    mret [OutMaterial output_epic_material; OutVal PyNone;
          OutVal (EPiCMaterial.energy output_epic_material);
          OutVal (EPiCMaterial.water output_epic_material);
          OutVal (EPiCMaterial.ghg output_epic_material);
          OutVal PyNone;
          OutVal (EPiCMaterial.doi output_epic_material);
          OutVal (EPiCMaterial.density output_epic_material);
          OutVal (EPiCMaterial.functional_unit output_epic_material);
          OutVal wastage; OutVal service_life; OutVal (PyStr DISCLAIMER)]
  else
    on_Component (AddRuntimeMessage RML.Warning warning);;
    mret (replicate 11 (OutVal (PyStr warning)) ++ [OutVal (PyStr DISCLAIMER)])%list.

(** A run in which a material and a category are selected: [prepare]
    returns and leaves both true, [mid] is the identifier the script settles
    on, [l] is what [epic_db.query] returns for the eight fields, [shares]
    the process shares, and [w'] the world after the sliders were updated. *)
Definition selected (connect_button material_category material_id epic_help : pyval)
    (w : World) (epic_db : DB) (mid : pyval) (l : list pyval)
    (shares : list (string * pyval)) (w' : World) : Prop :=
  ∃ category component_id w1 w2,
    prepare connect_button material_category material_id epic_help w
      = Ok ((epic_db, category, component_id), w1) ∧
    truthy material_id && truthy category = true ∧
    select_material epic_db category material_id w1 = Ok (mid, w2) ∧
    query_list epic_db mid material_fields = Ok l ∧
    query_process_shares epic_db mid = Ok shares ∧
    update_sliders epic_db mid component_id w2 = Ok (tt, w').

(** The twelve outputs of a run with a selection, for the values [v] of the
    database, the coefficients after the reduction factors, and the inputs
    that are passed through. *)
Definition material_outputs (mid : pyval) (v : db_values) (shares : list (string * pyval))
    (energy water ghg wastage service_life comments : pyval) : list output :=
  [OutMaterial
     {| EPiCMaterial.name := db_name v;
        EPiCMaterial.water := water;
        EPiCMaterial.ghg := ghg;
        EPiCMaterial.energy := energy;
        EPiCMaterial.functional_unit := db_functional_unit v;
        EPiCMaterial.doi := db_doi v;
        EPiCMaterial.category := db_category v;
        EPiCMaterial.material_id := mid;
        EPiCMaterial.wastage := wastage;
        EPiCMaterial.service_life := service_life;
        EPiCMaterial.comments := comments;
        EPiCMaterial.density := db_density v;
        EPiCMaterial.process_shares := shares |};
   OutVal PyNone; OutVal energy; OutVal water; OutVal ghg; OutVal PyNone;
   OutVal (db_doi v); OutVal (db_density v); OutVal (db_functional_unit v);
   OutVal wastage; OutVal service_life; OutVal (PyStr DISCLAIMER)].

(** The module with other database queries: [q] for [query], [ql] for
    the query of a list of fields, [legacy] for
    [_query_for_name_or_old_mat_id]. *)
Definition with_queries
    (q : DB → pyval → string → result pyval)
    (ql : DB → pyval → list string → result (list pyval))
    (legacy : DB → pyval → result pyval) : EpicMaterials DB Doc :=
  {| DefaultAssemblyFolder := DefaultAssemblyFolder;
     EPiCDatabase := EPiCDatabase;
     dict_of_categories := dict_of_categories;
     _query_for_name_or_old_mat_id := legacy;
     query := q;
     query_list := ql;
     generate_material_and_category_dropdown_list :=
       generate_material_and_category_dropdown_list;
     recreate_material_list := recreate_material_list;
     generate_slider_input := generate_slider_input;
     OnPingDocument := OnPingDocument;
     ScheduleSolution := ScheduleSolution |}.

(** The world after lines 119-137, which cannot raise: the header, the
    sticky entry of the component, the help page. *)
Definition prepared_world (material_id epic_help : pyval) (w : World) : World :=
  let w := header_world "1.02" "EPiC Material" w in
  let component_id := InstanceGuid (ghenv_Component w) in
  let w :=
    match st_component (st w) !! component_id with
    | None =>
        set_st {| st_epic_db := st_epic_db (st w);
                  st_component := <[component_id := material_id]> (st_component (st w)) |} w
    | Some _ => w
    end in
  if truthy epic_help
  then {| ghenv_Component := ghenv_Component w; st := st w;
          webbrowser_opened := (webbrowser_opened w ++ ["https://bit.ly/EPiC_Database"])%list |}
  else w.

(** The module with another loader of the database. *)
Definition with_EPiCDatabase (load : string → result DB) : EpicMaterials DB Doc :=
  {| DefaultAssemblyFolder := DefaultAssemblyFolder;
     EPiCDatabase := load;
     dict_of_categories := dict_of_categories;
     _query_for_name_or_old_mat_id := _query_for_name_or_old_mat_id;
     query := query;
     query_list := query_list;
     generate_material_and_category_dropdown_list :=
       generate_material_and_category_dropdown_list;
     recreate_material_list := recreate_material_list;
     generate_slider_input := generate_slider_input;
     OnPingDocument := OnPingDocument;
     ScheduleSolution := ScheduleSolution |}.

(** *** [EPiC_Assembly_Volumetric_Component.py] *)

Definition units : string := "m³".
Definition component_name : string := "EPiC Assembly - Volumetric (m³)".
Definition geometry_warning : string :=
  "Surface/line/point input detected. Please input Brep geometry".

(** Lines 116-119: the two-digit number of a material input. *)
Definition material_number (num : nat) : string :=
  if bool_decide (num < 10)%nat then "0" +:+ pretty num else pretty num.

(** Line 120: the name of a material input. *)
Definition material_name (num : nat) : string :=
  "material_" +:+ material_number num.

(** The local variables [material_NN] and [material_NN_qty] of [RunScript],
    for the material inputs in the order of the signature (ten in the
    source; the host may add more). [n] is the number of the first one. *)
Fixpoint material_locals (n : nat) (inputs : list (ghval * ghval)) : gmap string ghval :=
  match inputs with
  | [] => ∅
  | (m, q) :: inputs' =>
      <[material_name n := m]>
        (<[material_name n +:+ "_qty" := q]> (material_locals (S n) inputs'))
  end.

(** [locals()[key]]. *)
Definition local (locals : gmap string ghval) (key : string) : result ghval :=
  match locals !! key with
  | Some v => Ok v
  | None => Raise KeyError
  end.

(** Lines 114-125: the loop over [nums], which stops at the first number
    that has no quantity variable. *)
Fixpoint get_materials (locals : gmap string ghval) (nums : list nat) : result (list ghval) :=
  match nums with
  | [] => Ok []
  | num :: nums' =>
      let key := material_name num in
      if negb (String.eqb key "") && bool_decide (is_Some (locals !! (key +:+ "_qty"))) then
        m ← local locals key;
        q ← local locals (key +:+ "_qty");
        rest ← get_materials locals nums';
        Ok (m :: q :: rest)
      else Ok []
  end.

(** The material inputs as the list [material, quantity, material, ...]. *)
Definition flatten_inputs (inputs : list (ghval * ghval)) : list ghval :=
  inputs ≫= λ '(m, q), [m; q].

(** [assembly.flows[period][flow]]. *)
Definition flow_of (assembly : Assembly) (period flow : string) : result pyval :=
  match flows assembly !! period with
  | Some d =>
      match d !! flow with
      | Some v => Ok v
      | None => Raise KeyError
      end
  | None => Raise KeyError
  end.

(** The geometry input is a list of items; an input with nothing connected
    is the empty list. *)
Definition RunScript_Volumetric
    (input_assembly_name input_assembly_category input_assembly_comments : pyval)
    (input_selected_geometry : list Geometry)
    (input_service_life_override input_wastage_override _null : pyval)
    (materials : list (ghval * ghval))
    : M World (list output) :=
  version_header "1.02" component_name;;
  material_list ← lift (get_materials (material_locals 1 materials) (seq 1 20));
  material_list ← create_list_of_input_materials_and_qty units material_list;
  match EPiCAssembly input_selected_geometry input_assembly_name
          input_service_life_override input_wastage_override
          input_assembly_comments material_list units input_assembly_category with
  | Raise TypeError =>
      on_Component (AddRuntimeMessage RML.Warning geometry_warning);;
      mret (replicate 5 (OutVal (PyStr geometry_warning)))
  | Raise e => raise e
  | Ok assembly =>
      (if bool_decide (input_selected_geometry = [])
       then on_Component
              (AddRuntimeMessage RML.Warning "No geometry is connected to the assembly")
       else mret tt);;
      (if bool_decide (length material_list < 1)%nat
       then on_Component
              (AddRuntimeMessage RML.Warning
                 "No input EPiC_Material inputs or material quantities have been found ")
       else mret tt);;
      assembly ← calculate_flows assembly;
      output_initial_energy ← lift (flow_of assembly "initial" "energy");
      output_initial_water ← lift (flow_of assembly "initial" "water");
      output_initial_ghg ← lift (flow_of assembly "initial" "ghg");
      mret [OutAssembly assembly; OutVal PyNone;
            OutVal output_initial_energy; OutVal output_initial_water;
            OutVal output_initial_ghg; OutVal PyNone;
            OutGeometry (output_geometry assembly)]
  end.

(** The world after the two tests of lines 139-145, which cannot raise. *)
Definition input_warnings (input_selected_geometry : list Geometry)
    (material_list : list Entry) (w : World) : World :=
  let w :=
    if bool_decide (input_selected_geometry = [])
    then set_Component
           (AddRuntimeMessage RML.Warning "No geometry is connected to the assembly"
              (ghenv_Component w)) w
    else w in
  if bool_decide (length material_list < 1)%nat
  then set_Component
         (AddRuntimeMessage RML.Warning
            "No input EPiC_Material inputs or material quantities have been found "
            (ghenv_Component w)) w
  else w.

(** The class [EPiCAssembly] with another [calculate_flows]. *)
Definition with_calculate_flows
    (cf : Assembly → World → result (Assembly * World))
    : EpicAssemblies DB Assembly Entry Geometry :=
  {| create_list_of_input_materials_and_qty := create_list_of_input_materials_and_qty;
     EPiCAssembly := EPiCAssembly;
     calculate_flows := cf;
     flows := flows;
     output_geometry := output_geometry |}.

End Components.

(** ** The arithmetic contract of [EPiCAssembly]

    Class [EPiCAssembly] is not among the sources; the definitions of this
    module follow the contract the specification gives for it. *)
Module Contract.

(** The flow types of the contract. *)
Definition flow_types : list string := ["energy"; "water"; "ghg"].

Definition Qc_sum (l : list Qc) : Qc := foldr Qcplus 0 l.

(** Modelled from the spec: an input tuple of the arithmetic core, (material
    coefficient triple {energy, water, ghg}, quantity, wastage fraction,
    service-life years, category).  The class [EPiCAssembly] whose material
    list holds them is missing.  A coefficient can be missing or not a
    number, the other numbers are given. *)
Module Entry.
Record t := {
  coefficient : gmap string pyval;
  quantity : Qc;
  wastage : Qc;
  service_life : Qc;
  category : pyval
}.
End Entry.

(** [coefficient_i[f]], if there is one and it is a number. *)
Definition coefficient_of (e : Entry.t) (f : string) : option Qc :=
  Entry.coefficient e !! f ≫= as_num.

(** The same as a number, for an entry that has it. *)
Definition coefficient_number (e : Entry.t) (f : string) : Qc :=
  default 0 (coefficient_of e f).

(** An entry is used when none of its three coefficients is missing or
    non-numeric. *)
Definition usable (e : Entry.t) : bool :=
  forallb (λ f, bool_decide (is_Some (coefficient_of e f))) flow_types.

(** Modelled from the spec: the missing class [EPiCAssembly].  The
    attributes are those the volumetric component lists for its first output
    and passes to the constructor; [service_life] and [wastage] are the
    optional assembly-level overrides ([None] when not supplied); [flows] is
    the dictionary [RunScript] reads. *)
Module Assembly.
Record t (Geometry : Type) := {
  selected_geometry : list Geometry;
  name : pyval;
  service_life : pyval;
  wastage : pyval;
  comments : pyval;
  epic_materials : list Entry.t;
  assembly_units : string;
  category : pyval;
  flows : gmap string (gmap string pyval)
}.
Arguments selected_geometry {Geometry} _.
Arguments name {Geometry} _.
Arguments service_life {Geometry} _.
Arguments wastage {Geometry} _.
Arguments comments {Geometry} _.
Arguments epic_materials {Geometry} _.
Arguments assembly_units {Geometry} _.
Arguments category {Geometry} _.
Arguments flows {Geometry} _.
End Assembly.

Section Model.
Context {DB Geometry : Type}.

(** What the contract leaves open: which geometry the constructor accepts
    (it raises [TypeError] on a surface, a line or a point), the text of
    the warning for a skipped entry, and how the raw inputs are sorted into
    the material list. *)
Variable accepted : Geometry → bool.
Variable skipped_warning : string.
Variable create_list :
  string → list ghval → World DB → result (list Entry.t * World DB).

Abbreviation assembly := (Assembly.t Geometry).

(** Modelled from the spec: the constructor of the missing class
    [EPiCAssembly], storing its arguments; the overrides are optional. *)
Definition init (geometry : list Geometry) (name service_life wastage comments : pyval)
    (material_list : list Entry.t) (units : string) (category : pyval)
    : result assembly :=
  if forallb accepted geometry then
    Ok {| Assembly.selected_geometry := geometry;
          Assembly.name := name;
          Assembly.service_life := service_life;
          Assembly.wastage := wastage;
          Assembly.comments := comments;
          Assembly.epic_materials := material_list;
          Assembly.assembly_units := units;
          Assembly.category := category;
          Assembly.flows := ∅ |}
  else Raise TypeError.

(** Modelled from the spec: the optional assembly-level override for
    wastage and service life, in the missing [calculate_flows].  A supplied
    override replaces the attribute of every material. *)
Definition effective (override : pyval) (own : Qc) : Qc :=
  match as_num override with
  | Some q => q
  | None => own
  end.
Definition wastage_of (a : assembly) (e : Entry.t) : Qc :=
  effective (Assembly.wastage a) (Entry.wastage e).
Definition service_life_of (a : assembly) (e : Entry.t) : Qc :=
  effective (Assembly.service_life a) (Entry.service_life e).

(** Modelled from the spec: the body of the missing [calculate_flows] for
    one material: each flow total grows by
    [coefficient[f] × quantity × (1 + wastage)]. *)
Definition add_material (a : assembly) (totals : gmap string Qc) (e : Entry.t)
    : gmap string Qc :=
  foldl
    (λ totals f,
       match coefficient_of e f with
       | Some c =>
           <[f := default 0 (totals !! f) + c * Entry.quantity e * (1 + wastage_of a e)]>
             totals
       | None => totals
       end)
    totals flow_types.

(** Modelled from the spec: the loop of the missing [calculate_flows] over
    the materials; an entry with a missing or non-numeric coefficient is
    skipped and a warning is recorded. *)
Fixpoint accumulate (a : assembly) (totals : gmap string Qc) (warnings : list string)
    (l : list Entry.t) : gmap string Qc * list string :=
  match l with
  | [] => (totals, warnings)
  | e :: l' =>
      if usable e
      then accumulate a (add_material a totals e) warnings l'
      else accumulate a totals (warnings ++ [skipped_warning]) l'
  end.

(** The dictionary that holds [g f] for each flow type [f]. *)
Definition totals_of (g : string → Qc) : gmap string Qc :=
  list_to_map ((λ f, (f, g f)) <$> flow_types).

Definition zero_flows : gmap string Qc := totals_of (λ _, 0).

Definition set_flows (a : assembly) (fl : gmap string (gmap string pyval)) : assembly :=
  {| Assembly.selected_geometry := Assembly.selected_geometry a;
     Assembly.name := Assembly.name a;
     Assembly.service_life := Assembly.service_life a;
     Assembly.wastage := Assembly.wastage a;
     Assembly.comments := Assembly.comments a;
     Assembly.epic_materials := Assembly.epic_materials a;
     Assembly.assembly_units := Assembly.assembly_units a;
     Assembly.category := Assembly.category a;
     Assembly.flows := fl |}.


(** The warnings reach the user as runtime messages of the component. *)
Definition emit (warnings : list string) (w : World DB) : World DB :=
  foldl
    (λ w text,
       {| ghenv_Component := AddRuntimeMessage RML.Warning text (ghenv_Component w);
          st := st w; webbrowser_opened := webbrowser_opened w |})
    w warnings.

(** Modelled from the spec: the missing method [calculate_flows], which
    leaves the initial flows in [flows['initial']]. *)
Definition calculate_flows (a : assembly) : M (World DB) assembly := λ w,
  let '(totals, warnings) := accumulate a zero_flows [] (Assembly.epic_materials a) in
  Ok (set_flows a (<["initial" := PyNum <$> totals]> (Assembly.flows a)),
      emit warnings w).

(** The initial flow totals [calculate_flows] computes for the materials
    [l] in the assembly [a]. *)
Definition initial_totals (a : assembly) (l : list Entry.t) : gmap string Qc :=
  (accumulate a zero_flows [] l).1.

(** Modelled from the spec: the flows of one material, which the missing
    module computes for a design life: the initial flow, the number of
    replacements [max(0, floor(design_life / service_life))] for a positive
    service life, and the recurring flow. *)
Definition initial_flow (a : assembly) (e : Entry.t) (f : string) : Qc :=
  match coefficient_of e f with
  | Some c => c * Entry.quantity e * (1 + wastage_of a e)
  | None => 0
  end.
Definition replacements (design_life service_life : Qc) : Z :=
  if bool_decide (0 < service_life)
  then Z.max 0 (Qfloor (design_life / service_life)%Qc)
  else 0%Z.
Definition recurring_flow (design_life : Qc) (a : assembly) (e : Entry.t) (f : string) : Qc :=
  initial_flow a e f * Qc_of_Z (replacements design_life (service_life_of a e)).

(** The class, as the volumetric component uses it. *)
Definition api : EpicAssemblies DB assembly Entry.t Geometry :=
  Build_EpicAssemblies DB assembly Entry.t Geometry
    create_list init calculate_flows Assembly.flows Assembly.selected_geometry.

End Model.
End Contract.

(** ** A small database and a host that leaves the document alone

    Concrete instances of the interfaces, on which the scripts are run. *)
Module Demo.

Definition info : EpicInfo :=
  {| __author__ := "EPiC Grasshopper";
     __version__ := "1.02";
     __message__ := "EPiC Plugin 1.02";
     version_mismatch := λ v, "Component version " +:+ v +:+ " does not match the plugin";
     DISCLAIMER := "Use at your own risk";
     DEFINED_FLOWS_keys := ["energy"; "water"; "ghg"] |}.

(** The database: for each material identifier, its fields. *)
Definition database : Type := gmap string (gmap string pyval).

Definition Q_ (n : Z) (d : positive) : Qc := Q2Qc (n # d).

Definition concrete : gmap string pyval :=
  list_to_map
    [("Energy", num 10); ("Water", num 4); ("GHG", num 2);
     ("Functional Unit", PyStr "m³"); ("name", PyStr "Concrete 20 MPa");
     ("DOI", PyStr "10.26188/concrete"); ("Category", PyStr "Concrete");
     ("Density", num 2400); ("Wastage", PyNum (Q_ 21 20)); ("Service Life", num (-1))].

(** A material without embodied water. *)
Definition membrane : gmap string pyval :=
  list_to_map
    [("Energy", num 10); ("Water", num 0); ("GHG", num 2);
     ("Functional Unit", PyStr "m²"); ("name", PyStr "Membrane");
     ("DOI", PyStr "10.26188/membrane"); ("Category", PyStr "Concrete");
     ("Density", PyNone)].

Definition the_database : database :=
  list_to_map [("concrete", concrete); ("membrane", membrane)].

(** A field that is not stored is [None], an unknown material raises. *)
Definition query_field (d : database) (id : pyval) (field : string) : result pyval :=
  match id with
  | PyStr s =>
      match d !! s with
      | Some fields => Ok (default PyNone (fields !! field))
      | None => Raise KeyError
      end
  | _ => Raise KeyError
  end.

Definition materials : EpicMaterials database unit :=
  {| DefaultAssemblyFolder := "Libraries";
     EPiCDatabase := λ _, Ok the_database;
     dict_of_categories := λ _, {[ "Concrete" := [PyStr "concrete"; PyStr "membrane"] ]};
     _query_for_name_or_old_mat_id := λ _ _, Ok PyNone;
     query := query_field;
     query_list := λ d id fields, mapM_result (query_field d id) fields;
     generate_material_and_category_dropdown_list := λ _ _ w, Ok w;
     recreate_material_list := λ _ _ _ _ w, Ok w;
     generate_slider_input := λ _ _ w, Ok w;
     OnPingDocument := λ _, Ok tt;
     ScheduleSolution := λ _ _ w, Ok w |}.

(** A component with seven inputs, none of them wired to a slider, in a
    session that has not run the script yet. *)
Definition world : World database :=
  {| ghenv_Component :=
       {| Message := ""; Name := ""; NickName := ""; RuntimeMessages := [];
          InstanceGuid := "7f3a"; Params_Input := replicate 7 [OtherSource] |};
     st := {| st_epic_db := None; st_component := ∅ |};
     webbrowser_opened := [] |}.

(** A run of the material component on the material [id] of the category
    "Concrete", with the three reduction factors. *)
Definition run_material (id : string) (energy_reduction water_reduction ghg_reduction : pyval)
    : result (list (output unit unit) * World database) :=
  RunScript_Material (info := info) (materials_api := materials)
    (PyBool true) (PyStr "01: Concrete") (PyStr id) PyNone PyNone PyNone PyNone PyNone
    energy_reduction water_reduction ghg_reduction PyNone PyNone world.

(** The world after lines 119-159 of such a run. *)
Definition world_prepared (id : string) : World database :=
  match prepare (info := info) (materials_api := materials)
          (PyBool true) (PyStr "01: Concrete") (PyStr id) PyNone world with
  | Ok (_, w) => w
  | Raise _ => world
  end.

(** The world such a run leaves. *)
Definition world_after (id : string) : World database :=
  match run_material id PyNone PyNone PyNone with
  | Ok (_, w) => w
  | Raise _ => world
  end.

Definition no_shares : list (string * pyval) :=
  [("energy", PyNone); ("water", PyNone); ("ghg", PyNone)].

(** The coefficient outputs of a run (energy, water, ghg) when they are
    numbers. *)
Definition coefficient_outputs {W} (r : result (list (output unit unit) * W))
    : option (Qc * Qc * Qc) :=
  match r with
  | Ok (outs, _) =>
      match outs !! 2%nat, outs !! 3%nat, outs !! 4%nat with
      | Some (OutVal (PyNum e)), Some (OutVal (PyNum w)), Some (OutVal (PyNum g)) =>
          Some (e, w, g)
      | _, _, _ => None
      end
  | Raise _ => None
  end.

(** Geometry of the host. *)
Inductive geometry := Brep | Surface | Line | Point.

Definition is_brep (g : geometry) : bool :=
  match g with
  | Brep => true
  | _ => false
  end.

(** The raw inputs [material, quantity, ...] as entries of the contract: a
    material with a numeric quantity becomes an entry, its wastage and
    service life taken as 0 when they are not numbers; other pairs are
    dropped. *)
Fixpoint entries_of (raw : list ghval) : list Contract.Entry.t :=
  match raw with
  | GhMaterial m :: GhVal (PyNum q) :: raw' =>
      {| Contract.Entry.coefficient :=
           {[ "energy" := EPiCMaterial.energy m; "water" := EPiCMaterial.water m;
              "ghg" := EPiCMaterial.ghg m ]};
         Contract.Entry.quantity := q;
         Contract.Entry.wastage := default 0 (as_num (EPiCMaterial.wastage m));
         Contract.Entry.service_life := default 0 (as_num (EPiCMaterial.service_life m));
         Contract.Entry.category := EPiCMaterial.category m |} :: entries_of raw'
  | _ :: _ :: raw' => entries_of raw'
  | _ => []
  end.

Definition assemblies
    : EpicAssemblies database (Contract.Assembly.t geometry) Contract.Entry.t geometry :=
  Contract.api is_brep "A material without numeric coefficients was skipped"
    (λ _ raw w, Ok (entries_of raw, w)).

(** Two materials as the material component outputs them (the second one
    without a GHG coefficient), with a wastage fraction, and the inputs of
    an assembly of 3 and 2 units of them. *)
Definition concrete_material : EPiCMaterial.t :=
  {| EPiCMaterial.name := PyStr "Concrete 20 MPa";
     EPiCMaterial.water := num 4; EPiCMaterial.ghg := num 2;
     EPiCMaterial.energy := num 10;
     EPiCMaterial.functional_unit := PyStr "m³";
     EPiCMaterial.doi := PyStr "10.26188/concrete";
     EPiCMaterial.category := PyStr "Concrete";
     EPiCMaterial.material_id := PyStr "concrete";
     EPiCMaterial.wastage := PyNum (Q_ 1 20);
     EPiCMaterial.service_life := num 25;
     EPiCMaterial.comments := PyNone;
     EPiCMaterial.density := num 2400;
     EPiCMaterial.process_shares := no_shares |}.

Definition timber_material : EPiCMaterial.t :=
  {| EPiCMaterial.name := PyStr "Timber";
     EPiCMaterial.water := num 7; EPiCMaterial.ghg := PyNone;
     EPiCMaterial.energy := num 5;
     EPiCMaterial.functional_unit := PyStr "m³";
     EPiCMaterial.doi := PyStr "10.26188/timber";
     EPiCMaterial.category := PyStr "Timber";
     EPiCMaterial.material_id := PyStr "timber";
     EPiCMaterial.wastage := PyNum (Q_ 1 10);
     EPiCMaterial.service_life := num 0;
     EPiCMaterial.comments := PyNone;
     EPiCMaterial.density := num 500;
     EPiCMaterial.process_shares := no_shares |}.

Definition material_inputs : list (ghval * ghval) :=
  [(GhMaterial concrete_material, GhVal (num 3));
   (GhMaterial concrete_material, GhVal (num 2))].

Definition raw_inputs : list ghval :=
  [GhMaterial concrete_material; GhVal (num 3);
   GhMaterial concrete_material; GhVal (num 2)].

Definition mixed_inputs : list (ghval * ghval) :=
  [(GhMaterial concrete_material, GhVal (num 3));
   (GhMaterial timber_material, GhVal (num 2))].

(** The runtime messages of the component after a run. *)
Definition messages {A} (r : result (A * World database)) : list (RML.t * string) :=
  match r with
  | Ok (_, w) => RuntimeMessages (ghenv_Component w)
  | Raise _ => []
  end.

(** The exception of a run that raises. *)
Definition raised {A} (r : result A) : option exn :=
  match r with
  | Ok _ => None
  | Raise e => Some e
  end.

(** An assembly of the contract for the entries [l], with the two
    overrides. *)
Definition assembly_of (service_life wastage : pyval) (l : list Contract.Entry.t)
    : Contract.Assembly.t geometry :=
  {| Contract.Assembly.selected_geometry := [Brep];
     Contract.Assembly.name := PyStr "Slab";
     Contract.Assembly.service_life := service_life;
     Contract.Assembly.wastage := wastage;
     Contract.Assembly.comments := PyNone;
     Contract.Assembly.epic_materials := l;
     Contract.Assembly.assembly_units := units;
     Contract.Assembly.category := PyNone;
     Contract.Assembly.flows := ∅ |}.

(** Entries of the contract: concrete (replaced every 25 years) and a
    timber without a GHG coefficient. *)
Definition concrete_entry : Contract.Entry.t :=
  {| Contract.Entry.coefficient :=
       {[ "energy" := num 10; "water" := num 4; "ghg" := num 2 ]};
     Contract.Entry.quantity := Qc_of_Z 3;
     Contract.Entry.wastage := Q_ 1 20;
     Contract.Entry.service_life := Qc_of_Z 25;
     Contract.Entry.category := PyStr "Concrete" |}.

Definition timber_entry : Contract.Entry.t :=
  {| Contract.Entry.coefficient :=
       {[ "energy" := num 5; "water" := num 7; "ghg" := PyNone ]};
     Contract.Entry.quantity := Qc_of_Z 2;
     Contract.Entry.wastage := Q_ 1 10;
     Contract.Entry.service_life := Qc_of_Z 0;
     Contract.Entry.category := PyStr "Timber" |}.

(** A session in which the database is loaded: the component with the given
    sources at its inputs, and the sticky entries [last]. *)
Definition session (inputs : list (list source)) (last : gmap string pyval)
    : World database :=
  {| ghenv_Component :=
       {| Message := ""; Name := ""; NickName := ""; RuntimeMessages := [];
          InstanceGuid := "7f3a"; Params_Input := inputs |};
     st := {| st_epic_db := Some the_database; st_component := last |};
     webbrowser_opened := [] |}.


(** The material object of "concrete" with no user values. *)
Definition legacy_material : EPiCMaterial.t :=
  {| EPiCMaterial.name := PyStr "Concrete 20 MPa";
     EPiCMaterial.water := num 4; EPiCMaterial.ghg := num 2;
     EPiCMaterial.energy := num 10;
     EPiCMaterial.functional_unit := PyStr "m³";
     EPiCMaterial.doi := PyStr "10.26188/concrete";
     EPiCMaterial.category := PyStr "Concrete";
     EPiCMaterial.material_id := PyStr "concrete";
     EPiCMaterial.wastage := PyNone;
     EPiCMaterial.service_life := PyNone;
     EPiCMaterial.comments := PyNone;
     EPiCMaterial.density := num 2400;
     EPiCMaterial.process_shares := no_shares |}.


(** Sliders at the wastage and service life inputs. *)
Definition wired : list (list source) :=
  (replicate 5 [OtherSource] ++
   [[GH_NumberSlider {| Maximum := num 100; Value := num 0 |}];
    [GH_NumberSlider {| Maximum := num 100; Value := num 0 |}]])%list.

(** The world [update_sliders] leaves for the material [id]. *)
Definition world_updated (id : string) (w : World database) : World database :=
  match update_sliders (materials_api := materials)
          the_database (PyStr id) "7f3a" w with
  | Ok (_, w') => w'
  | Raise _ => w
  end.

(** An assembly class that keeps only the flows: the constructor returns
    [made], and [calculate_flows] changes nothing. *)
Definition plain_assemblies (made : result (gmap string (gmap string pyval)))
    : EpicAssemblies database (gmap string (gmap string pyval)) ghval unit :=
  Build_EpicAssemblies database (gmap string (gmap string pyval)) ghval unit
    (λ _ raw w, Ok (raw, w))
    (λ _ _ _ _ _ _ _ _, made)
    (λ a w, Ok (a, w))
    (λ a, a)
    (λ _, []).

End Demo.

(** * Properties *)

Set Default Proof Using "Type".

(** ** The monad *)

Lemma bind_Ok {W A B} (m : M W A) (k : A → M W B) (w w' : W) (a : A) :
  m w = Ok (a, w') → (m ≫= k) w = k a w'.
Proof. intros H. unfold mbind, M_bind, bind. by rewrite H. Qed.

Lemma bind_Raise {W A B} (m : M W A) (k : A → M W B) (w : W) (e : exn) :
  m w = Raise e → (m ≫= k) w = Raise e.
Proof. intros H. unfold mbind, M_bind, bind. by rewrite H. Qed.

Lemma bind_inv {W A B} (m : M W A) (k : A → M W B) (w : W) (r : B * W) :
  (m ≫= k) w = Ok r → ∃ a w', m w = Ok (a, w') ∧ k a w' = Ok r.
Proof.
  unfold mbind, M_bind, bind. destruct (m w) as [[a w']|e]; [|done].
  intros H. by exists a, w'.
Qed.

Lemma lift_Ok {W A} (r : result A) (a : A) (w : W) :
  r = Ok a → lift r w = Ok (a, w).
Proof. by intros ->. Qed.

Lemma lift_inv {W A} (r : result A) (a : A) (w w' : W) :
  lift r w = Ok (a, w') → r = Ok a ∧ w' = w.
Proof. destruct r; simpl; [|done]. by intros [= -> ->]. Qed.

(** ** Strings and values *)

Example split_category : split ": " "01: Concrete" = ["01"; "Concrete"].
Proof. reflexivity. Qed.

Example split_without_space : split ": " "a:b" = ["a:b"].
Proof. reflexivity. Qed.

Example split_twice : split ": " "a: b: c" = ["a"; "b"; "c"].
Proof. reflexivity. Qed.

Example split_at_end : split ": " "a: " = ["a"; ""].
Proof. reflexivity. Qed.

Example contains_colon :
  contains ":" "01: Concrete" = true ∧ contains ":" "Concrete" = false.
Proof. by split. Qed.

Lemma Qc_abs_nonneg (q : Qc) : 0 ≤ Qc_abs q.
Proof.
  unfold Qc_abs. case_bool_decide as H; [done|].
  apply Qcnot_le_lt, Qclt_le_weak in H.
  apply Qcle_minus_iff in H. by rewrite Qcplus_0_l in H.
Qed.

(** ** The names of the material inputs

    The names [material_NN] and [material_NN_qty] are pairwise different,
    so the loop of lines 114-125 collects the inputs in their order. *)

Lemma pretty_N_char_digit (x : N) : is_digit (pretty_N_char x) = true.
Proof. unfold pretty_N_char. by repeat case_match. Qed.

Lemma pretty_N_go_digits (x : N) (s : string) :
  digits s = true → digits (pretty_N_go x s) = true.
Proof.
  revert s. induction (N.lt_wf_0 x) as [x _ IH]; intros s Hs.
  assert (x = 0 ∨ 0 < x)%N as [->|?] by lia.
  - by rewrite pretty_N_go_0.
  - rewrite pretty_N_go_step by done. apply IH; [by apply N.div_lt|].
    simpl. by rewrite pretty_N_char_digit.
Qed.

Lemma pretty_nat_digits (n : nat) : digits (pretty n) = true.
Proof.
  unfold pretty, pretty_nat, pretty, pretty_N.
  case_decide; [done|]. by apply pretty_N_go_digits.
Qed.

Lemma pretty_N_go_leading (x : N) (s s' : string) :
  (0 < x)%N → pretty_N_go x s ≠ String "0" s'.
Proof.
  revert s. induction (N.lt_wf_0 x) as [x _ IH]; intros s Hx.
  rewrite pretty_N_go_step by done.
  destruct (N.eq_0_gt_0_cases (x `div` 10)) as [Hd|Hd].
  - rewrite Hd, pretty_N_go_0.
    assert (x < 10)%N as Hsmall by (by apply N.div_small_iff in Hd).
    rewrite N.mod_small by done. intros [= Hchar _].
    apply (pretty_N_char_inj x 0) in Hchar; lia.
  - apply IH; [by apply N.div_lt|done].
Qed.

Lemma pretty_nat_leading (n : nat) (s' : string) :
  (0 < n)%nat → pretty n ≠ String "0" s'.
Proof.
  intros Hn. unfold pretty, pretty_nat, pretty, pretty_N.
  case_decide; [lia|]. apply pretty_N_go_leading. lia.
Qed.

Lemma material_number_inj (n m : nat) :
  material_number n = material_number m → n = m.
Proof.
  unfold material_number. repeat case_bool_decide.
  - intros [= Heq]. by apply (inj pretty).
  - intros Heq. symmetry in Heq. apply pretty_nat_leading in Heq; [done|lia].
  - intros Heq. apply pretty_nat_leading in Heq; [done|lia].
  - apply (inj pretty).
Qed.

Lemma digits_app (s t : string) : digits (s +:+ t) = digits s && digits t.
Proof. induction s as [|c s IH]; simpl; [done|]. by rewrite IH, andb_assoc. Qed.

Lemma material_number_digits (n : nat) : digits (material_number n) = true.
Proof.
  unfold material_number. case_bool_decide; [|apply pretty_nat_digits].
  by rewrite digits_app, pretty_nat_digits.
Qed.

Lemma digits_app_qty_inj (s t : string) :
  digits s = true → digits t = true → s +:+ "_qty" = t +:+ "_qty" → s = t.
Proof.
  revert t. induction s as [|c s IH]; intros [|d t] Hs Ht; simpl; intros Heq.
  - done.
  - injection Heq as <- _. by simpl in Ht.
  - injection Heq as -> _. by simpl in Hs.
  - injection Heq as -> Heq. f_equal.
    simpl in Hs, Ht. apply andb_true_iff in Hs as [_ Hs]. apply andb_true_iff in Ht as [_ Ht].
    by apply IH.
Qed.

Lemma string_app_assoc (s t u : string) : (s +:+ t) +:+ u = s +:+ (t +:+ u).
Proof.
  induction s as [|c s IH]; [done|].
  change (String c ((s +:+ t) +:+ u) = String c (s +:+ (t +:+ u))). by rewrite IH.
Qed.

Lemma material_name_inj (n m : nat) : material_name n = material_name m → n = m.
Proof.
  unfold material_name. intros Heq.
  by apply (inj (String.append "material_")), material_number_inj in Heq.
Qed.

Lemma material_name_ne_qty (n m : nat) : material_name n ≠ material_name m +:+ "_qty".
Proof.
  unfold material_name. rewrite string_app_assoc. intros Heq.
  apply (inj (String.append "material_")) in Heq.
  pose proof (material_number_digits n) as Hn.
  rewrite Heq, digits_app in Hn. by rewrite andb_comm in Hn.
Qed.

Lemma material_qty_inj (n m : nat) :
  material_name n +:+ "_qty" = material_name m +:+ "_qty" → n = m.
Proof.
  unfold material_name. rewrite !string_app_assoc. intros Heq.
  apply (inj (String.append "material_")) in Heq.
  apply material_number_inj, digits_app_qty_inj; auto using material_number_digits.
Qed.

Lemma material_locals_lookup (inputs : list (ghval * ghval)) (n k : nat) :
  (n ≤ k)%nat →
  material_locals n inputs !! material_name k = fst <$> inputs !! (k - n)%nat ∧
  material_locals n inputs !! (material_name k +:+ "_qty") = snd <$> inputs !! (k - n)%nat.
Proof.
  revert n. induction inputs as [|[m q] inputs IH]; intros n Hn.
  - done.
  - cbn [material_locals].
    destruct (decide (k = n)) as [->|Hne].
    + rewrite Nat.sub_diag. split.
      * by rewrite lookup_insert_eq.
      * rewrite lookup_insert_ne by apply material_name_ne_qty.
        by rewrite lookup_insert_eq.
    + destruct (IH (S n)) as [IH1 IH2]; [lia|].
      replace (k - n)%nat with (S (k - S n)) by lia. split.
      * rewrite lookup_insert_ne by (intros Heq; by apply material_name_inj in Heq).
        rewrite lookup_insert_ne by (intros Heq; symmetry in Heq; by apply material_name_ne_qty in Heq).
        done.
      * rewrite lookup_insert_ne by (intros Heq; by apply material_name_ne_qty in Heq).
        rewrite lookup_insert_ne by (intros Heq; by apply material_qty_inj in Heq).
        done.
Qed.

Lemma get_materials_seq (inputs : list (ghval * ghval)) (k len : nat) :
  (1 ≤ k)%nat →
  get_materials (material_locals 1 inputs) (seq k len)
  = Ok (flatten_inputs (take len (drop (k - 1) inputs))).
Proof.
  revert k. induction len as [|len IH]; intros k Hk; [done|].
  cbn [seq get_materials]. cbv zeta.
  destruct (material_locals_lookup inputs 1 k Hk) as [Hm Hq].
  assert (String.eqb (material_name k) "" = false) as -> by done.
  unfold local. rewrite Hm, Hq.
  destruct (inputs !! (k - 1)%nat) as [[m q]|] eqn:Hin; simpl.
  - rewrite IH by lia. replace (S k - 1)%nat with (S (k - 1)) by lia.
    by rewrite (drop_S _ _ _ Hin).
  - by rewrite drop_ge by (by apply lookup_ge_None).
Qed.

(** Lines 114-125 collect the first twenty material inputs in their
    order. *)
Lemma get_materials_inputs (inputs : list (ghval * ghval)) :
  get_materials (material_locals 1 inputs) (seq 1 20)
  = Ok (flatten_inputs (take 20 inputs)).
Proof. by rewrite get_materials_seq. Qed.

Section ComponentFacts.
Context {DB Doc Assembly Entry Geometry : Type}.
Context {info : EpicInfo}.
Context {materials_api : EpicMaterials DB Doc}.
Context {assemblies_api : EpicAssemblies DB Assembly Entry Geometry}.

Lemma version_header_Ok (version component_name : string) (w : World DB) :
  version_header version component_name w
  = Ok (tt, header_world version component_name w).
Proof.
  unfold version_header, header_world.
  destruct (String.eqb version __version__); reflexivity.
Qed.

(** *** The material component *)

(** A run with a selection returns the twelve outputs, built from the
    values of the database and the coefficients after the reduction
    factors. *)
Lemma RunScript_Material_selected
    (connect_button material_category material_id comments _null
     wastage service_life _null2
     energy_reduction water_reduction ghg_reduction _null3 epic_help : pyval)
    (w w' : World DB) (epic_db : DB) (mid : pyval) (l : list pyval)
    (shares : list (string * pyval)) (v : db_values) (energy water ghg : pyval) :
  selected connect_button material_category material_id epic_help w epic_db mid l shares w' →
  unpack8 l = Ok v →
  include_reduction_factor (db_energy v) (db_water v) (db_ghg v)
    energy_reduction water_reduction ghg_reduction = Ok (energy, water, ghg) →
  RunScript_Material (Assembly := Assembly) (Geometry := Geometry)
    connect_button material_category material_id comments _null
    wastage service_life _null2 energy_reduction water_reduction ghg_reduction
    _null3 epic_help w
  = Ok (material_outputs mid v shares energy water ghg wastage service_life comments, w').
Proof.
  intros (cat & cid & w1 & w2 & Hprep & Htrue & Hsel & Hq & Hsh & Hsl) Hv Hred.
  unfold RunScript_Material, load_material, mbind, M_bind, bind, lift, mret, M_ret, ret.
  rewrite Hprep; cbv beta iota. rewrite Htrue, Hsel; cbv beta iota.
  rewrite Hq, Hv, Hsh; cbv beta iota. rewrite Hsl; cbv beta iota.
  rewrite Hred. reflexivity.
Qed.

End ComponentFacts.

(** *** The reduction factors *)

Lemma Qc_of_Z_0 : Qc_of_Z 0 = 0.
Proof. by apply Qc_is_canon. Qed.

Lemma Qc_of_Z_100_neq_0 : Qc_of_Z 100 ≠ 0.
Proof. by intros [=]. Qed.

Lemma reduce_optional (c : Qc) (r : option Qc) :
  reduce (PyNum c) (optional r) = Ok (PyNum (scaled c r)).
Proof.
  destruct r as [r|]; [|reflexivity].
  unfold reduce. simpl. rewrite Qc_of_Z_0.
  by destruct (bool_decide (r = 0)).
Qed.

Lemma reduce_not_supplied (c : pyval) : reduce c PyNone = Ok c.
Proof. reflexivity. Qed.

Lemma include_reduction_factor_closed (energy water ghg re rw rg : pyval) :
  truthy water && truthy ghg && truthy energy = false →
  include_reduction_factor energy water ghg re rw rg = Ok (energy, water, ghg).
Proof. intros H. unfold include_reduction_factor. by rewrite H. Qed.

Lemma include_reduction_factor_not_supplied (energy water ghg : pyval) :
  include_reduction_factor energy water ghg PyNone PyNone PyNone
  = Ok (energy, water, ghg).
Proof.
  unfold include_reduction_factor.
  by destruct (truthy water && truthy ghg && truthy energy).
Qed.

Lemma include_reduction_factor_numbers (ce cw cg : Qc) (re rw rg : option Qc) :
  ce ≠ 0 → cw ≠ 0 → cg ≠ 0 →
  include_reduction_factor (PyNum ce) (PyNum cw) (PyNum cg)
    (optional re) (optional rw) (optional rg)
  = Ok (PyNum (scaled ce re), PyNum (scaled cw rw), PyNum (scaled cg rg)).
Proof.
  intros He Hw Hg. unfold include_reduction_factor. simpl.
  rewrite !bool_decide_eq_false_2 by done. simpl.
  by rewrite !reduce_optional.
Qed.

Lemma scaled_nonneg (c : Qc) (r : option Qc) : 0 ≤ c → 0 ≤ scaled c r.
Proof.
  intros Hc. destruct r as [r|]; [|done]. simpl.
  apply Qcmult_nonneg_nonneg; [|apply Qc_abs_nonneg].
  apply Qcmult_nonneg_nonneg; [done|].
  apply Qclt_le_weak, Qcinv_pos. done.
Qed.

Lemma scaled_up_to_100 (c : Qc) (r : option Qc) :
  (∀ q, r = Some q → q ≤ Qc_of_Z 100) → scaled c r = reduced_by_percent c r.
Proof.
  intros Hr. destruct r as [r|]; [|done]. simpl.
  unfold Qc_abs. rewrite bool_decide_eq_true_2.
  - field. apply Qc_of_Z_100_neq_0.
  - apply (proj1 (Qcle_minus_iff r (Qc_of_Z 100))). by apply Hr.
Qed.

Lemma scaled_above_100 (c r : Qc) :
  Qc_of_Z 100 < r → scaled c (Some r) = c * ((r - Qc_of_Z 100) / Qc_of_Z 100).
Proof.
  intros Hr. simpl. unfold Qc_abs. rewrite bool_decide_eq_false_2.
  - field. apply Qc_of_Z_100_neq_0.
  - intros H. apply (proj2 (Qcle_minus_iff r (Qc_of_Z 100))) in H.
    by apply Qcle_not_lt in H.
Qed.

Lemma scaled_reduced_up_to_100 (c : Qc) (r : option Qc) :
  (∀ q, r = Some q → q ≤ Qc_of_Z 100) → scaled c r = reduced_up_to_100 c r.
Proof.
  intros Hr. destruct r as [r|]; [|done]. simpl.
  unfold Qc_abs. rewrite bool_decide_eq_true_2; [done|].
  apply (proj1 (Qcle_minus_iff r (Qc_of_Z 100))). by apply Hr.
Qed.

(** In exact arithmetic [c / 100 × (100 − r)] is [c × (1 − r/100)]. *)
Lemma reduced_up_to_100_exact (c : Qc) (r : option Qc) :
  reduced_up_to_100 c r = reduced_by_percent c r.
Proof.
  destruct r as [r|]; [|done]. simpl. field. apply Qc_of_Z_100_neq_0.
Qed.

(** *** The reduction in double precision *)

(** Rounding keeps the sign it is given. *)
Lemma SFabs_binary_round_aux (m : Z) (e : Z) (l : location) :
  SFabs (binary_round_aux prec emax false m e l) = binary_round_aux prec emax false m e l.
Proof.
  unfold binary_round_aux.
  destruct (shr_fexp prec emax m e l) as [mrs' e'].
  destruct (shr_fexp prec emax _ e' loc_Exact) as [mrs'' e''].
  destruct (shr_m mrs'') as [|p|p]; [done| |done].
  by destruct (e'' <=? emax - prec)%Z.
Qed.

Lemma SFabs_binary_normalize (m e : Z) :
  (0 ≤ m)%Z →
  SFabs (binary_normalize prec emax m e false) = binary_normalize prec emax m e false.
Proof.
  intros Hm. destruct m as [|p|p]; [done| |done].
  unfold binary_normalize, binary_round.
  destruct (shl_align _ _ _) as [mz ez]. apply SFabs_binary_round_aux.
Qed.

Lemma digits2_pos_size (m : positive) : digits2_pos m = Pos.size m.
Proof. induction m as [m IH|m IH|]; simpl; by rewrite ?IH. Qed.

(** The mantissa of a double has at most 53 bits. *)
Lemma valid_binary_mantissa (s : bool) (m : positive) (e : Z) :
  valid_binary (S754_finite s m e) = true → (Z.pos m < 9007199254740992)%Z.
Proof.
  unfold valid_binary, SpecFloat.valid_binary, bounded, canonical_mantissa, fexp.
  intros [Hcanon _]%andb_prop. apply Z.eqb_eq in Hcanon.
  rewrite digits2_pos_size in Hcanon.
  assert (Z.pos (Pos.size m) ≤ 53)%Z as Hsize by (unfold prec in Hcanon; lia).
  pose proof (Pos.size_gt m) as Hgt.
  assert (Z.pos m < 2 ^ Z.pos (Pos.size m))%Z as Hlt
    by (change 2%Z with (Z.pos 2); rewrite <- Pos2Z.inj_pow; lia).
  assert (2 ^ Z.pos (Pos.size m) ≤ 2 ^ 53)%Z as Hpow
    by (apply Z.pow_le_mono_r; lia).
  change (2 ^ 53)%Z with 9007199254740992%Z in Hpow. lia.
Qed.

Lemma iter_xO_double (m d : positive) : (2 * Z.pos m ≤ Z.pos (Pos.iter xO m d))%Z.
Proof.
  induction d as [|d IH] using Pos.peano_ind.
  - simpl. lia.
  - rewrite Pos.iter_succ. lia.
Qed.

Lemma Prim2SF_100 : Prim2SF 100 = S754_finite false 7036874417766400 (-46).
Proof. vm_compute. reflexivity. Qed.

Lemma shl_align_same (m : positive) (e : Z) : shl_align m e e = (m, e).
Proof. unfold shl_align. by rewrite Z.sub_diag. Qed.

Lemma shl_align_down (m : positive) (e e' : Z) :
  (e' < e)%Z → (2 * Z.pos m ≤ Z.pos (shl_align m e e').1)%Z.
Proof.
  intros He. unfold shl_align.
  destruct (e' - e)%Z as [|d|d] eqn:Hd; [lia|lia|]. apply iter_xO_double.
Qed.

Lemma compare_cont_le (p q : positive) :
  match Pos.compare_cont Eq p q with Gt => false | _ => true end = true →
  (Z.pos p ≤ Z.pos q)%Z.
Proof.
  rewrite Pos.compare_cont_spec. unfold Pos.switch_Eq.
  destruct (Pos.compare_spec p q) as [Hm|Hm|Hm]; [lia|lia|done].
Qed.

(** The difference of the aligned mantissas of two positive doubles in
    order is not negative. *)
Lemma aligned_sub (s : bool) (m k : positive) (e f : Z) :
  (Z.pos m < 9007199254740992)%Z → (9007199254740992 ≤ 2 * Z.pos k)%Z →
  SFleb (S754_finite s m e) (S754_finite false k f) = true →
  (0 ≤ Z.pos (shl_align k f (Z.min f e)).1
       - cond_Zopp s (Z.pos (shl_align m e (Z.min f e)).1))%Z.
Proof.
  intros Hvalid Hk Hle.
  unfold SFleb, SFcompare in Hle. unfold cond_Zopp.
  destruct s; [lia|].
  destruct (e ?= f)%Z eqn:He; [| |done].
  - apply Z.compare_eq in He. subst e. rewrite Z.min_id, !shl_align_same.
    cbn [fst]. apply compare_cont_le in Hle. lia.
  - apply (proj1 (Z.compare_lt_iff _ _)) in He.
    rewrite (Z.min_r f e) by lia. rewrite shl_align_same. cbn [fst].
    pose proof (shl_align_down k f e He). lia.
Qed.

(** [abs] has no effect on [100 - r] for a factor of at most 100. *)
Lemma abs_100_sub (r : float) :
  (r <=? 100)%float = true → abs (100 - r) = (100 - r)%float.
Proof.
  intros Hle. apply Prim2SF_inj. rewrite abs_spec, sub_spec.
  rewrite leb_spec in Hle. pose proof (Prim2SF_valid r) as Hvalid.
  rewrite Prim2SF_100 in *.
  destruct (Prim2SF r) as [s|s| |s m e].
  - by destruct s.
  - by destruct s.
  - done.
  - unfold SF64sub, SFsub. apply SFabs_binary_normalize.
    apply aligned_sub; [|done|done]. by apply valid_binary_mantissa in Hvalid.
Qed.

Lemma reduction_in_doubles_up_to_100 (c r : float) :
  (r <=? 100)%float = true → reduction_in_doubles c r = (c / 100 * (100 - r))%float.
Proof. intros Hr. unfold reduction_in_doubles. by rewrite abs_100_sub. Qed.

(** A factor of 100 gives zero for every coefficient whose hundredth is a
    finite double. *)
Lemma reduction_in_doubles_100 (c : float) :
  is_finite (c / 100) = true → is_zero (reduction_in_doubles c 100) = true.
Proof.
  unfold reduction_in_doubles.
  change (abs (100 - 100))%float with 0%float.
  generalize (c / 100)%float. intros x.
  unfold is_finite, is_nan, is_infinity, is_zero.
  rewrite !FloatAxioms.eqb_spec, abs_spec, mul_spec.
  change (Prim2SF 0) with (S754_zero false).
  change (Prim2SF infinity) with (S754_infinity false).
  destruct (Prim2SF x) as [sx|sx| |sx m e]; simpl; try done; by destruct sx.
Qed.

(** Two doubles that [=?] tells apart are different. *)
Lemma float_eqb_false_neq (x y : float) :
  (x =? y)%float = false → is_nan x = false → x ≠ y.
Proof.
  intros Hxy Hx <-. unfold is_nan in Hx. rewrite Hxy in Hx. done.
Qed.

(** Factors of 0 and 50 percent give the coefficient and its half only up
    to rounding. *)
Example reduction_in_doubles_rounds :
  reduction_in_doubles 3.3 0 = 3.3000000000000003%float ∧
  reduction_in_doubles 3.3 0 ≠ 3.3%float ∧
  reduction_in_doubles 3257.97 50 = 1628.9849999999997%float ∧
  reduction_in_doubles 3257.97 50 ≠ (3257.97 / 2)%float.
Proof.
  split; [reflexivity|]. split; [by apply float_eqb_false_neq|].
  split; [reflexivity|]. by apply float_eqb_false_neq.
Qed.

Section MaterialComponent.
Context {DB Doc Assembly Entry Geometry : Type}.
Context {info : EpicInfo}.
Context {materials_api : EpicMaterials DB Doc}.

Abbreviation RunScript_Material' :=
  (RunScript_Material (DB := DB) (Doc := Doc) (Assembly := Assembly) (Geometry := Geometry)).

Lemma normalise_category_unselected (material_category : pyval) :
  truthy material_category = false →
  normalise_category material_category = Ok material_category.
Proof. intros H. unfold normalise_category. by rewrite H. Qed.

(** What [prepare] returns as the category is the input after
    [normalise_category]. *)
Lemma prepare_category
    (connect_button material_category material_id epic_help category : pyval)
    (w w1 : World DB) (epic_db : DB) (component_id : string) :
  prepare connect_button material_category material_id epic_help w
    = Ok ((epic_db, category, component_id), w1) →
  normalise_category material_category = Ok category.
Proof.
  unfold prepare. intros H.
  apply bind_inv in H as (? & ? & _ & H).
  apply bind_inv in H as (? & ? & _ & H).
  apply bind_inv in H as (? & ? & _ & H).
  apply bind_inv in H as (? & ? & _ & H).
  apply bind_inv in H as (? & ? & _ & H).
  apply bind_inv in H as (c & ? & Hc & H).
  apply lift_inv in Hc as [Hc _].
  apply bind_inv in H as (? & ? & _ & H).
  by injection H as <- <- <- <-.
Qed.

(** Without a selection the script warns and returns the warning eleven
    times, then the disclaimer. *)
Lemma RunScript_Material_unselected
    (connect_button material_category material_id comments _null
     wastage service_life _null2
     energy_reduction water_reduction ghg_reduction _null3 epic_help category : pyval)
    (w w1 : World DB) (epic_db : DB) (component_id : string) :
  truthy material_id = false ∨ truthy material_category = false →
  prepare connect_button material_category material_id epic_help w
    = Ok ((epic_db, category, component_id), w1) →
  RunScript_Material' connect_button material_category material_id comments _null
    wastage service_life _null2 energy_reduction water_reduction ghg_reduction
    _null3 epic_help w
  = Ok ((replicate 11 (OutVal (PyStr warning)) ++ [OutVal (PyStr DISCLAIMER)])%list,
        set_Component (AddRuntimeMessage RML.Warning warning (ghenv_Component w1)) w1).
Proof.
  intros Hunsel Hprep.
  assert (truthy material_id && truthy category = false) as Hfalse.
  { destruct Hunsel as [->|Hcat]; [done|].
    apply prepare_category in Hprep.
    rewrite (normalise_category_unselected _ Hcat) in Hprep.
    injection Hprep as <-. rewrite Hcat. apply andb_false_r. }
  unfold RunScript_Material, mbind, M_bind, bind.
  rewrite Hprep; cbv beta iota. rewrite Hfalse. reflexivity.
Qed.

(** C3, as amended.  For a selected material whose three database
    coefficients are non-zero numbers, each flow is reduced on its own,
    whatever the factors of the other two flows are.  For a flow with
    coefficient [c] and a supplied reduction factor [r] of at most 100
    percent the component outputs [c / 100 × (100 − r)], and [c] when no
    factor is supplied for the flow; with no factor supplied at all the
    database coefficients are output unchanged, whatever they are.  A
    factor of 100 makes the coefficient zero.  In exact arithmetic
    [c / 100 × (100 − r)] is [c × (1 − r/100)], which is [c] for a factor of
    0 and [c / 2] for a factor of 50.  The script evaluates the expression
    on doubles: there too [abs] has no effect for a factor of at most 100,
    and a factor of 100 gives zero for every coefficient whose hundredth
    is finite, but a factor of 0 or 50 gives [c] or [c / 2] only up to
    rounding ([c = 3.3] and [r = 0.0] give 3.3000000000000003). *)
Theorem C3_reduction_up_to_100
    (connect_button material_category material_id comments _null
     wastage service_life _null2 _null3 epic_help : pyval)
    (w w' : World DB) (epic_db : DB) (mid : pyval) (shares : list (string * pyval))
    (e wa g fu n d c dn : pyval) :
  selected connect_button material_category material_id epic_help w epic_db mid
    [e; wa; g; fu; n; d; c; dn] shares w' →
  let v := {| db_energy := e; db_water := wa; db_ghg := g; db_functional_unit := fu;
              db_name := n; db_doi := d; db_category := c; db_density := dn |} in
  (∀ (ce cw cg : Qc) (re rw rg : option Qc),
     e = PyNum ce → wa = PyNum cw → g = PyNum cg →
     ce ≠ 0 → cw ≠ 0 → cg ≠ 0 →
     RunScript_Material' connect_button material_category material_id comments _null
       wastage service_life _null2 (optional re) (optional rw) (optional rg)
       _null3 epic_help w
     = Ok (material_outputs mid v shares
             (PyNum (scaled ce re)) (PyNum (scaled cw rw)) (PyNum (scaled cg rg))
             wastage service_life comments, w') ∧
     ((∀ r, re = Some r → r ≤ Qc_of_Z 100) →
      scaled ce re = reduced_up_to_100 ce re ∧ scaled ce re = reduced_by_percent ce re) ∧
     ((∀ r, rw = Some r → r ≤ Qc_of_Z 100) →
      scaled cw rw = reduced_up_to_100 cw rw ∧ scaled cw rw = reduced_by_percent cw rw) ∧
     ((∀ r, rg = Some r → r ≤ Qc_of_Z 100) →
      scaled cg rg = reduced_up_to_100 cg rg ∧ scaled cg rg = reduced_by_percent cg rg)) ∧
  RunScript_Material' connect_button material_category material_id comments _null
    wastage service_life _null2 PyNone PyNone PyNone _null3 epic_help w
  = Ok (material_outputs mid v shares e wa g wastage service_life comments, w') ∧
  (∀ x : Qc,
     reduced_up_to_100 x (Some (Qc_of_Z 100)) = 0 ∧
     reduced_by_percent x (Some (Qc_of_Z 0)) = x ∧
     reduced_by_percent x (Some (Qc_of_Z 50)) = x / Qc_of_Z 2 ∧
     reduced_by_percent x (Some (Qc_of_Z 100)) = 0) ∧
  (∀ x r : float,
     (r <=? 100)%float = true →
     reduction_in_doubles x r = (x / 100 * (100 - r))%float) ∧
  (∀ x : float,
     is_finite (x / 100) = true → is_zero (reduction_in_doubles x 100) = true) ∧
  reduction_in_doubles 3.3 0 = 3.3000000000000003%float ∧
  reduction_in_doubles 3.3 0 ≠ 3.3%float.
Proof.
  intros Hsel v. split; [|split; [|split; [|split; [|split; [|split]]]]].
  - intros ce cw cg re rw rg -> -> -> He Hw Hg.
    split; [|split; [|split]].
    + eapply RunScript_Material_selected; [exact Hsel|reflexivity|].
      by apply include_reduction_factor_numbers.
    + intros Hr. rewrite <- reduced_up_to_100_exact.
      split; by apply scaled_reduced_up_to_100.
    + intros Hr. rewrite <- reduced_up_to_100_exact.
      split; by apply scaled_reduced_up_to_100.
    + intros Hr. rewrite <- reduced_up_to_100_exact.
      split; by apply scaled_reduced_up_to_100.
  - eapply RunScript_Material_selected; [exact Hsel|reflexivity|].
    apply include_reduction_factor_not_supplied.
  - intros x. rewrite <- !reduced_up_to_100_exact.
    unfold reduced_up_to_100. split; [|split; [|split]].
    + field. by intros [=].
    + rewrite Qc_of_Z_0. field. by intros [=].
    + replace (Qc_of_Z 100) with (Qc_of_Z 50 * (1 + 1)) by by apply Qc_is_canon.
      replace (Qc_of_Z 2) with (1 + 1) by by apply Qc_is_canon.
      field. split; by intros [=].
    + field. by intros [=].
  - apply reduction_in_doubles_up_to_100.
  - apply reduction_in_doubles_100.
  - reflexivity.
  - by apply float_eqb_false_neq.
Qed.

(** C7, as amended.  For a selected material the functional unit, the DOI
    and the density the component outputs, and the name and the category of
    the material object, are exactly the values [epic_db.query] returns for
    the identifier the script settles on (the given one, or its legacy
    replacement when it is not in the selected category).  The three
    coefficient outputs are the coefficients after the reduction factors;
    they are the values of the database when no reduction factor is supplied
    or when one of the three coefficients is zero or missing. *)
Theorem C7_database_values
    (connect_button material_category material_id comments _null
     wastage service_life _null2
     energy_reduction water_reduction ghg_reduction _null3 epic_help : pyval)
    (w w' : World DB) (epic_db : DB) (mid : pyval) (shares : list (string * pyval))
    (e wa g fu n d c dn e' wa' g' : pyval) :
  selected connect_button material_category material_id epic_help w epic_db mid
    [e; wa; g; fu; n; d; c; dn] shares w' →
  include_reduction_factor e wa g energy_reduction water_reduction ghg_reduction
    = Ok (e', wa', g') →
  (∃ m : EPiCMaterial.t,
     RunScript_Material' connect_button material_category material_id comments _null
       wastage service_life _null2 energy_reduction water_reduction ghg_reduction
       _null3 epic_help w
     = Ok ([OutMaterial m; OutVal PyNone; OutVal e'; OutVal wa'; OutVal g';
            OutVal PyNone; OutVal d; OutVal dn; OutVal fu;
            OutVal wastage; OutVal service_life; OutVal (PyStr DISCLAIMER)], w') ∧
     EPiCMaterial.energy m = e' ∧ EPiCMaterial.water m = wa' ∧
     EPiCMaterial.ghg m = g' ∧
     EPiCMaterial.functional_unit m = fu ∧ EPiCMaterial.doi m = d ∧
     EPiCMaterial.category m = c ∧ EPiCMaterial.density m = dn ∧
     EPiCMaterial.name m = n ∧ EPiCMaterial.material_id m = mid) ∧
  (((energy_reduction = PyNone ∧ water_reduction = PyNone ∧ ghg_reduction = PyNone) ∨
    truthy wa && truthy g && truthy e = false) →
   e' = e ∧ wa' = wa ∧ g' = g).
Proof.
  intros Hsel Hred. split.
  - pose proof (RunScript_Material_selected (Assembly := Assembly) (Geometry := Geometry)
        connect_button material_category material_id comments _null
        wastage service_life _null2 energy_reduction water_reduction ghg_reduction
        _null3 epic_help w w' epic_db mid _ shares _ e' wa' g' Hsel eq_refl Hred) as Hrun.
    eexists. split; [exact Hrun|]. by repeat split.
  - intros [(-> & -> & ->)|Hclosed].
    + rewrite include_reduction_factor_not_supplied in Hred.
      by injection Hred as <- <- <-.
    + rewrite (include_reduction_factor_closed _ _ _ _ _ _ Hclosed) in Hred.
      by injection Hred as <- <- <-.
Qed.

(** C8.  For a selected material whose three database coefficients are
    non-zero numbers, the coefficient output for each flow is
    [c / 100 × |100 − r|] for its reduction factor [r]; it is nonnegative
    for a nonnegative [c], and for [r] above 100 it is [c × (r − 100)/100].
    If one of the three coefficients is zero or missing, the three
    coefficients are output as the database has them, whatever reduction
    factors are supplied. *)
Theorem C8_reduction_scaling
    (connect_button material_category material_id comments _null
     wastage service_life _null2 _null3 epic_help : pyval)
    (w w' : World DB) (epic_db : DB) (mid : pyval) (shares : list (string * pyval))
    (e wa g fu n d c dn : pyval) :
  selected connect_button material_category material_id epic_help w epic_db mid
    [e; wa; g; fu; n; d; c; dn] shares w' →
  let v := {| db_energy := e; db_water := wa; db_ghg := g; db_functional_unit := fu;
              db_name := n; db_doi := d; db_category := c; db_density := dn |} in
  (∀ (ce cw cg : Qc) (re rw rg : option Qc),
     e = PyNum ce → wa = PyNum cw → g = PyNum cg →
     ce ≠ 0 → cw ≠ 0 → cg ≠ 0 →
     RunScript_Material' connect_button material_category material_id comments _null
       wastage service_life _null2 (optional re) (optional rw) (optional rg)
       _null3 epic_help w
     = Ok (material_outputs mid v shares
             (PyNum (scaled ce re)) (PyNum (scaled cw rw)) (PyNum (scaled cg rg))
             wastage service_life comments, w')) ∧
  (∀ (x : Qc) (r : option Qc), 0 ≤ x → 0 ≤ scaled x r) ∧
  (∀ x r : Qc,
     Qc_of_Z 100 < r → scaled x (Some r) = x * ((r - Qc_of_Z 100) / Qc_of_Z 100)) ∧
  (truthy wa && truthy g && truthy e = false →
   ∀ energy_reduction water_reduction ghg_reduction : pyval,
     RunScript_Material' connect_button material_category material_id comments _null
       wastage service_life _null2 energy_reduction water_reduction ghg_reduction
       _null3 epic_help w
     = Ok (material_outputs mid v shares e wa g wastage service_life comments, w')).
Proof.
  intros Hsel v. split; [|split; [|split]].
  - intros ce cw cg re rw rg -> -> -> He Hw Hg.
    eapply RunScript_Material_selected; [exact Hsel|reflexivity|].
    by apply include_reduction_factor_numbers.
  - apply scaled_nonneg.
  - apply scaled_above_100.
  - intros Hclosed er wr gr.
    eapply RunScript_Material_selected; [exact Hsel|reflexivity|].
    by apply include_reduction_factor_closed.
Qed.

(** C10, at a failing input.  With no material selected and the category
    text ["a:b"], the test of line 147 finds the [':'], the split of line
    148 at [': '] returns the one piece ["a:b"], and taking its second
    element raises [IndexError]: the script does not reach the warning.
    (When the database is not loaded yet and loading it fails, that
    exception is raised before.) *)
Theorem C10_category_without_space
    (connect_button comments _null wastage service_life _null2
     energy_reduction water_reduction ghg_reduction _null3 epic_help : pyval)
    (w : World DB) :
  RunScript_Material' connect_button (PyStr "a:b") PyNone comments _null
    wastage service_life _null2 energy_reduction water_reduction ghg_reduction
    _null3 epic_help w = Raise IndexError ∨
  ∃ e : exn,
    st_epic_db (st w) = None ∧ EPiCDatabase DefaultAssemblyFolder = Raise e ∧
    RunScript_Material' connect_button (PyStr "a:b") PyNone comments _null
      wastage service_life _null2 energy_reduction water_reduction ghg_reduction
      _null3 epic_help w = Raise e.
Proof.
  unfold RunScript_Material, prepare, mbind, M_bind, bind.
  rewrite version_header_Ok. cbv beta iota zeta.
  set (w0 := header_world "1.02" "EPiC Material" w).
  assert (st_epic_db (st w0) = st_epic_db (st w)) as Hdb.
  { unfold w0, header_world. by destruct (String.eqb _ _). }
  clearbody w0. unfold get. cbv beta iota zeta.
  destruct (st_component (st w0) !! InstanceGuid (ghenv_Component w0));
    destruct (truthy epic_help); simpl; unfold load_epic_db; simpl;
    rewrite Hdb; (destruct (st_epic_db (st w)) as [db|]; simpl; [by left|]);
    (destruct (EPiCDatabase DefaultAssemblyFolder) as [db|e] eqn:Hload; simpl;
       [by left|right; by exists e]).
Qed.

End MaterialComponent.

(** Without a selection the script asks the database nothing: the run is
    the same whatever the queries would return. *)
Lemma RunScript_Material_unselected_no_query
    {DB Doc Assembly Geometry : Type} {info : EpicInfo}
    {materials_api : EpicMaterials DB Doc}
    (connect_button material_category material_id comments _null
     wastage service_life _null2
     energy_reduction water_reduction ghg_reduction _null3 epic_help : pyval)
    (w : World DB)
    (q : DB → pyval → string → result pyval)
    (ql : DB → pyval → list string → result (list pyval))
    (legacy : DB → pyval → result pyval) :
  truthy material_id = false ∨ truthy material_category = false →
  RunScript_Material (Assembly := Assembly) (Geometry := Geometry)
    (materials_api := with_queries q ql legacy)
    connect_button material_category material_id comments _null
    wastage service_life _null2 energy_reduction water_reduction ghg_reduction
    _null3 epic_help w
  = RunScript_Material (Assembly := Assembly) (Geometry := Geometry)
      connect_button material_category material_id comments _null
      wastage service_life _null2 energy_reduction water_reduction ghg_reduction
      _null3 epic_help w.
Proof.
  intros Hunsel.
  destruct (prepare connect_button material_category material_id epic_help w)
    as [[[[db cat] cid] w1]|e] eqn:Hprep.
  - assert (prepare (materials_api := with_queries q ql legacy)
              connect_button material_category material_id epic_help w
            = Ok ((db, cat, cid), w1)) as Hsame by exact Hprep.
    rewrite (RunScript_Material_unselected _ _ _ _ _ _ _ _ _ _ _ _ _ _ _ _ _ _
               Hunsel Hprep).
    by rewrite (RunScript_Material_unselected (materials_api := with_queries q ql legacy)
                  _ _ _ _ _ _ _ _ _ _ _ _ _ _ _ _ _ _ Hunsel Hsame).
  - assert (prepare (materials_api := with_queries q ql legacy)
              connect_button material_category material_id epic_help w
            = Raise e) as Hsame by exact Hprep.
    unfold RunScript_Material, mbind, M_bind, bind. by rewrite Hsame, Hprep.
Qed.

(** ** The volumetric component *)

Section VolumetricComponent.
Context {DB Assembly Entry Geometry : Type}.
Context {info : EpicInfo}.
Context {assemblies_api : EpicAssemblies DB Assembly Entry Geometry}.

(** A run in which the constructor returns: the flows are calculated and
    the seven outputs are returned. *)
Lemma RunScript_Volumetric_success
    (name category comments : pyval) (geometry : list Geometry)
    (service_life_override wastage_override _null : pyval)
    (materials : list (ghval * ghval))
    (w w1 w2 : World DB) (entries : list Entry)
    (a a' : Assembly) (e wa g : pyval) :
  create_list_of_input_materials_and_qty units (flatten_inputs (take 20 materials))
    (header_world "1.02" component_name w) = Ok (entries, w1) →
  EPiCAssembly geometry name service_life_override wastage_override comments
    entries units category = Ok a →
  calculate_flows a (input_warnings geometry entries w1) = Ok (a', w2) →
  flow_of a' "initial" "energy" = Ok e →
  flow_of a' "initial" "water" = Ok wa →
  flow_of a' "initial" "ghg" = Ok g →
  RunScript_Volumetric name category comments geometry
    service_life_override wastage_override _null materials w
  = Ok ([OutAssembly a'; OutVal PyNone; OutVal e; OutVal wa; OutVal g; OutVal PyNone;
         OutGeometry (output_geometry a')], w2).
Proof.
  intros Hcreate Hinit Hcalc He Hwa Hg.
  unfold RunScript_Volumetric, mbind, M_bind, bind, lift.
  rewrite version_header_Ok; cbv beta iota.
  rewrite get_materials_inputs, Hcreate; cbv beta iota.
  rewrite Hinit. unfold input_warnings in Hcalc.
  unfold on_Component, modify, mret, M_ret, ret.
  destruct (bool_decide (geometry = [])); destruct (bool_decide (length entries < 1)%nat);
    cbv beta iota; cbv beta iota zeta in Hcalc; rewrite Hcalc; cbv beta iota;
    by rewrite He, Hwa, Hg.
Qed.

(** C9.  When the constructor of [EPiCAssembly] raises [TypeError], the
    component adds the geometry warning as a warning runtime message and
    returns a list of five copies of it; the result is the same whatever
    [calculate_flows] does, which is not called.  A run in which the
    constructor returns has seven outputs. *)
Theorem C9_geometry_type_error
    (name category comments : pyval) (geometry : list Geometry)
    (service_life_override wastage_override _null : pyval)
    (materials : list (ghval * ghval))
    (w w1 : World DB) (entries : list Entry) :
  create_list_of_input_materials_and_qty units (flatten_inputs (take 20 materials))
    (header_world "1.02" component_name w) = Ok (entries, w1) →
  EPiCAssembly geometry name service_life_override wastage_override comments
    entries units category = Raise TypeError →
  let warned :=
    set_Component (AddRuntimeMessage RML.Warning geometry_warning (ghenv_Component w1)) w1 in
  let failure : list (output Assembly Geometry) :=
    replicate 5 (OutVal (PyStr geometry_warning)) in
  RunScript_Volumetric name category comments geometry
    service_life_override wastage_override _null materials w = Ok (failure, warned) ∧
  length failure = 5%nat ∧
  RuntimeMessages (ghenv_Component warned)
    = (RuntimeMessages (ghenv_Component w1) ++ [(RML.Warning, geometry_warning)])%list ∧
  (∀ cf,
     RunScript_Volumetric (assemblies_api := with_calculate_flows cf)
       name category comments geometry
       service_life_override wastage_override _null materials w = Ok (failure, warned)) ∧
  (∀ geometry' a outs w',
     EPiCAssembly geometry' name service_life_override wastage_override comments
       entries units category = Ok a →
     RunScript_Volumetric name category comments geometry'
       service_life_override wastage_override _null materials w = Ok (outs, w') →
     length outs = 7%nat).
Proof.
  intros Hcreate Hinit warned failure.
  split; [|split; [done|split; [done|split]]].
  - unfold RunScript_Volumetric, mbind, M_bind, bind, lift.
    rewrite version_header_Ok; cbv beta iota.
    rewrite get_materials_inputs, Hcreate; cbv beta iota.
    by rewrite Hinit.
  - intros cf.
    unfold RunScript_Volumetric, mbind, M_bind, bind, lift.
    rewrite version_header_Ok; cbv beta iota.
    rewrite get_materials_inputs; cbv beta iota.
    cbn [create_list_of_input_materials_and_qty with_calculate_flows].
    rewrite Hcreate; cbv beta iota.
    cbn [EPiCAssembly with_calculate_flows]. by rewrite Hinit.
  - intros geometry' a outs w' Ha.
    unfold RunScript_Volumetric, mbind, M_bind, bind, lift.
    rewrite version_header_Ok; cbv beta iota.
    rewrite get_materials_inputs, Hcreate; cbv beta iota.
    rewrite Ha. unfold on_Component, modify, mret, M_ret, ret.
    destruct (bool_decide (geometry' = []));
      destruct (bool_decide (length entries < 1)%nat); cbv beta iota;
      (destruct (calculate_flows a _) as [[a' w2]|]; [|done]);
      (destruct (flow_of a' "initial" "energy"); [|done]);
      (destruct (flow_of a' "initial" "water"); [|done]);
      (destruct (flow_of a' "initial" "ghg"); [|done]);
      by intros [= <- _].
Qed.

End VolumetricComponent.

(** ** The arithmetic contract *)

Section ContractTotals.
Import Contract.
Context {Geometry : Type}.

Abbreviation assembly := (Assembly.t Geometry).



Lemma totals_of_lookup (g : string → Qc) (f : string) :
  totals_of g !! f = if bool_decide (f ∈ flow_types) then Some (g f) else None.
Proof.
  unfold totals_of, flow_types. simpl.
  destruct (decide (f = "energy")) as [->|?]; [by simplify_map_eq|].
  destruct (decide (f = "water")) as [->|?]; [by simplify_map_eq|].
  destruct (decide (f = "ghg")) as [->|?]; [by simplify_map_eq|].
  rewrite bool_decide_eq_false_2; [by simplify_map_eq|].
  rewrite !elem_of_cons, elem_of_nil. tauto.
Qed.

Lemma totals_of_ext (g g' : string → Qc) :
  (∀ f, f ∈ flow_types → g f = g' f) → totals_of g = totals_of g'.
Proof.
  intros H. apply map_eq. intros f. rewrite !totals_of_lookup.
  case_bool_decide; [|done]. by rewrite H.
Qed.

Lemma usable_coefficient (e : Entry.t) (f : string) :
  usable e = true → f ∈ flow_types → ∃ c, coefficient_of e f = Some c.
Proof.
  unfold usable. rewrite forallb_forall. intros H Hf.
  apply list_elem_of_In, H, bool_decide_eq_true in Hf. by destruct Hf as [c ->]; exists c.
Qed.

(** One usable material adds its initial flow to each total. *)
Lemma add_material_totals (a : assembly) (g : string → Qc) (e : Entry.t) :
  usable e = true →
  add_material a (totals_of g) e = totals_of (λ f, g f + initial_flow a e f).
Proof.
  intros Hu.
  destruct (usable_coefficient e "energy" Hu) as [ce He]; [set_solver|].
  destruct (usable_coefficient e "water" Hu) as [cw Hw]; [set_solver|].
  destruct (usable_coefficient e "ghg" Hu) as [cg Hg]; [set_solver|].
  unfold add_material, initial_flow, totals_of, flow_types. simpl.
  rewrite He, Hw, Hg. apply map_eq. intros f.
  destruct (decide (f = "energy")) as [->|?]; [by simplify_map_eq|].
  destruct (decide (f = "water")) as [->|?]; [by simplify_map_eq|].
  destruct (decide (f = "ghg")) as [->|?]; [by simplify_map_eq|].
  by simplify_map_eq.
Qed.

End ContractTotals.

Section ContractFacts.
Import Contract.
Context {DB Geometry : Type}.
Variable accepted : Geometry → bool.
Variable skipped_warning : string.
Variable create_list :
  string → list ghval → World DB → result (list Entry.t * World DB).

Abbreviation assembly := (Assembly.t Geometry).

(** The sum of the initial flows of the usable materials of [l]. *)
Lemma accumulate_totals (a : assembly) (g : string → Qc) (ws : list string)
    (l : list Entry.t) :
  (accumulate skipped_warning a (totals_of g) ws l).1
  = totals_of (λ f, g f + Qc_sum ((λ e, initial_flow a e f)
                                    <$> filter (λ e, usable e = true) l)).
Proof.
  revert g ws. induction l as [|e l IH]; intros g ws; simpl.
  - apply totals_of_ext. intros f _. by rewrite Qcplus_0_r.
  - destruct (usable e) eqn:Hu.
    + rewrite add_material_totals by done. rewrite IH.
      rewrite filter_cons_True by done.
      apply totals_of_ext. intros f _. rewrite fmap_cons.
      unfold Qc_sum at 2. rewrite foldr_cons. fold (Qc_sum).
      by rewrite Qcplus_assoc.
    + rewrite IH. by rewrite filter_cons_False by (by rewrite Hu).
Qed.

(** One warning for each material that is skipped. *)
Lemma accumulate_warnings (a : assembly) (totals : gmap string Qc) (ws : list string)
    (l : list Entry.t) :
  (accumulate skipped_warning a totals ws l).2
  = (ws ++ replicate (length (filter (λ e, usable e = false) l)) skipped_warning)%list.
Proof.
  revert totals ws. induction l as [|e l IH]; intros totals ws; simpl.
  - by rewrite app_nil_r.
  - destruct (usable e) eqn:Hu.
    + rewrite IH. by rewrite filter_cons_False by (by rewrite Hu).
    + rewrite IH. rewrite filter_cons_True by done. simpl.
      by rewrite <- app_assoc.
Qed.

Lemma initial_totals_closed (a : assembly) (l : list Entry.t) :
  initial_totals skipped_warning a l
  = totals_of (λ f, Qc_sum ((λ e, initial_flow a e f)
                              <$> filter (λ e, usable e = true) l)).
Proof.
  unfold initial_totals, zero_flows. rewrite accumulate_totals.
  apply totals_of_ext. intros f _. by rewrite Qcplus_0_l.
Qed.

Lemma initial_totals_lookup (a : assembly) (l : list Entry.t) (f : string) :
  f ∈ flow_types →
  initial_totals skipped_warning a l !! f
  = Some (Qc_sum ((λ e, initial_flow a e f) <$> filter (λ e, usable e = true) l)).
Proof.
  intros Hf. unfold initial_totals, zero_flows.
  rewrite accumulate_totals, totals_of_lookup.
  rewrite bool_decide_eq_true_2 by done. by rewrite Qcplus_0_l.
Qed.

Lemma emit_messages (ws : list string) (w : World DB) :
  RuntimeMessages (ghenv_Component (emit ws w))
  = (RuntimeMessages (ghenv_Component w) ++ ((λ text, (RML.Warning, text)) <$> ws))%list.
Proof.
  revert w. induction ws as [|text ws IH]; intros w.
  - simpl. by rewrite app_nil_r.
  - change (emit (text :: ws) w)
      with (emit ws {| ghenv_Component :=
                         AddRuntimeMessage RML.Warning text (ghenv_Component w);
                       st := st w; webbrowser_opened := webbrowser_opened w |}).
    rewrite IH. simpl. by rewrite <- app_assoc.
Qed.

(** [calculate_flows] returns: it stores the totals and emits the warnings. *)
Lemma calculate_flows_Ok (a : assembly) (w : World DB) :
  calculate_flows skipped_warning a w
  = Ok (set_flows a
          (<["initial" :=
               PyNum <$> initial_totals skipped_warning a (Assembly.epic_materials a)]>
             (Assembly.flows a)),
        emit (replicate
                (length (filter (λ e, usable e = false) (Assembly.epic_materials a)))
                skipped_warning) w).
Proof.
  unfold calculate_flows, initial_totals.
  pose proof (accumulate_warnings a zero_flows [] (Assembly.epic_materials a)) as Hw.
  destruct (accumulate _ _ _ _ _) as [totals ws].
  cbn [fst snd app] in *. by subst ws.
Qed.

Lemma initial_flow_usable (a : assembly) (e : Entry.t) (f : string) :
  usable e = true → f ∈ flow_types →
  initial_flow a e f
  = coefficient_number e f * Entry.quantity e * (1 + wastage_of a e).
Proof.
  intros Hu Hf. destruct (usable_coefficient e f Hu Hf) as [c Hc].
  unfold initial_flow, coefficient_number. by rewrite Hc.
Qed.

Lemma sum_all_usable (a : assembly) (l : list Entry.t) (f : string) :
  Forall (λ e, usable e = true) l → f ∈ flow_types →
  Qc_sum ((λ e, initial_flow a e f) <$> filter (λ e, usable e = true) l)
  = Qc_sum ((λ e, coefficient_number e f * Entry.quantity e * (1 + wastage_of a e))
              <$> l).
Proof.
  intros Hl Hf. induction Hl as [|e l He _ IH]; [done|].
  rewrite filter_cons_True by done. rewrite !fmap_cons. simpl. rewrite IH.
  f_equal. by apply initial_flow_usable.
Qed.

Lemma none_skipped (l : list Entry.t) :
  Forall (λ e, usable e = true) l → filter (λ e, usable e = false) l = [].
Proof.
  induction 1 as [|e l He _ IH]; [done|].
  rewrite filter_cons_False; [done|]. by rewrite He.
Qed.

(** The flow the volumetric component reads back after [calculate_flows]. *)
Lemma flow_of_calculated (a : assembly) (f : string) :
  f ∈ flow_types →
  let a' :=
    set_flows a
      (<["initial" :=
           PyNum <$> initial_totals skipped_warning a (Assembly.epic_materials a)]>
         (Assembly.flows a)) in
  flow_of (assemblies_api := api (DB := DB) accepted skipped_warning create_list)
    a' "initial" f
  = Ok (PyNum (Qc_sum ((λ e, initial_flow a e f)
                         <$> filter (λ e, usable e = true) (Assembly.epic_materials a)))).
Proof.
  intros Hf a'. unfold flow_of, a', api, set_flows. cbn [flows Assembly.flows].
  rewrite lookup_insert_eq, lookup_fmap.
  by rewrite (initial_totals_lookup _ _ _ Hf).
Qed.

End ContractFacts.


Section ContractClaims.
Import Contract.
Context {DB Geometry : Type}.
Context {info : EpicInfo}.
Variable accepted : Geometry → bool.
Variable skipped_warning : string.
Variable create_list :
  string → list ghval → World DB → result (list Entry.t * World DB).

Abbreviation assembly' := (Assembly.t Geometry).
Abbreviation contract_api := (api (DB := DB) accepted skipped_warning create_list).

(** C1.  For materials that all have their coefficient triple, each initial
    flow the assembly computes is the sum over the materials of
    [coefficient[f] × quantity × (1 + wastage)], and the volumetric
    component returns these sums as its three initial embodied outputs
    after [calculate_flows] has run.  The wastage is the material's own
    wastage fraction, or the assembly-level override when one is supplied;
    with no override it is the material's own. *)
Theorem C1_initial_flows
    (name category comments : pyval) (geometry : list Geometry)
    (service_life_override wastage_override _null : pyval)
    (materials : list (ghval * ghval))
    (w w1 : World DB) (entries : list Entry.t) :
  create_list units (flatten_inputs (take 20 materials))
    (header_world "1.02" component_name w) = Ok (entries, w1) →
  forallb accepted geometry = true →
  Forall (λ e, usable e = true) entries →
  let total (f : string) : Qc :=
    Qc_sum ((λ e, coefficient_number e f * Entry.quantity e
                  * (1 + effective wastage_override (Entry.wastage e))) <$> entries) in
  (∃ a' : assembly',
     RunScript_Volumetric (assemblies_api := contract_api)
       name category comments geometry
       service_life_override wastage_override _null materials w
     = Ok ([OutAssembly a'; OutVal PyNone;
            OutVal (PyNum (total "energy")); OutVal (PyNum (total "water"));
            OutVal (PyNum (total "ghg")); OutVal PyNone; OutGeometry geometry],
           input_warnings geometry entries w1) ∧
     ∀ f, f ∈ flow_types →
       flow_of (assemblies_api := contract_api) a' "initial" f = Ok (PyNum (total f))) ∧
  (wastage_override = PyNone →
   ∀ e, effective wastage_override (Entry.wastage e) = Entry.wastage e).
Proof.
  intros Hcreate Hgeo Husable total. split; [|by intros ->].
  assert (init accepted geometry name service_life_override wastage_override
            comments entries units category
          = Ok {| Assembly.selected_geometry := geometry; Assembly.name := name;
                  Assembly.service_life := service_life_override;
                  Assembly.wastage := wastage_override;
                  Assembly.comments := comments; Assembly.epic_materials := entries;
                  Assembly.assembly_units := units; Assembly.category := category;
                  Assembly.flows := ∅ |}) as Hinit.
  { unfold init. by rewrite Hgeo. }
  set (a := {| Assembly.selected_geometry := geometry |}) in Hinit.
  assert (∀ f, f ∈ flow_types →
            Qc_sum ((λ e, initial_flow a e f) <$> filter (λ e, usable e = true) entries)
            = total f) as Htotal.
  { intros f Hf. by rewrite (sum_all_usable a entries f Husable Hf). }
  pose proof (none_skipped entries Husable) as Hnone.
  pose proof (calculate_flows_Ok skipped_warning a (input_warnings geometry entries w1))
    as Hcalc.
  cbn [Assembly.epic_materials a] in Hcalc. rewrite Hnone in Hcalc.
  cbn [length replicate emit foldl] in Hcalc.
  match type of Hcalc with _ = Ok (?x, _) => exists x end. split.
  - change geometry with (output_geometry (EpicAssemblies := contract_api)
      (set_flows a (<["initial" := PyNum <$> initial_totals skipped_warning a entries]>
                      (Assembly.flows a)))).
    eapply (RunScript_Volumetric_success (assemblies_api := contract_api));
      [exact Hcreate|exact Hinit|exact Hcalc|..].
    + rewrite <- (Htotal "energy") by set_solver.
      apply (flow_of_calculated accepted skipped_warning create_list a). set_solver.
    + rewrite <- (Htotal "water") by set_solver.
      apply (flow_of_calculated accepted skipped_warning create_list a). set_solver.
    + rewrite <- (Htotal "ghg") by set_solver.
      apply (flow_of_calculated accepted skipped_warning create_list a). set_solver.
  - intros f Hf. rewrite <- (Htotal f Hf).
    by apply (flow_of_calculated accepted skipped_warning create_list a).
Qed.

(** C2.  The recurring flow of a material for a flow type is its initial
    flow times [max(0, floor(design_life / service_life))] when its service
    life is greater than 0, and zero when it is not (a service life of 0:
    the material is never replaced).  The service life is the material's
    own when no assembly-level override is supplied. *)
Theorem C2_recurring_flow
    (design_life : Qc) (a : assembly') (e : Entry.t) (f : string) :
  let s := service_life_of a e in
  (0 < s →
   recurring_flow design_life a e f
   = initial_flow a e f * Qc_of_Z (Z.max 0 (Qfloor (design_life / s)%Qc))) ∧
  (¬ 0 < s → recurring_flow design_life a e f = 0) ∧
  (Assembly.service_life a = PyNone → s = Entry.service_life e).
Proof.
  intros s. unfold recurring_flow, replacements. fold s. split; [|split].
  - intros Hs. by rewrite bool_decide_eq_true_2.
  - intros Hs. rewrite bool_decide_eq_false_2 by done.
    rewrite Qc_of_Z_0. apply Qcmult_0_r.
  - intros Hnone. unfold s, service_life_of, effective. by rewrite Hnone.
Qed.


(** C5.  [calculate_flows] never raises.  It skips the entries that have a
    missing or non-numeric coefficient and emits one warning for each of
    them; every other entry contributes its full amount
    [coefficient[f] × quantity × (1 + wastage)] to each flow total, so the
    totals are those of the list without the skipped entries. *)
Theorem C5_skip_and_warn (a : assembly') (w : World DB) :
  let l := Assembly.epic_materials a in
  let used := filter (λ e, usable e = true) l in
  let skipped := filter (λ e, usable e = false) l in
  ∃ a' w',
    calculate_flows skipped_warning a w = Ok (a', w') ∧
    (∀ f, f ∈ flow_types →
       flow_of (assemblies_api := contract_api) a' "initial" f
       = Ok (PyNum (Qc_sum ((λ e, coefficient_number e f * Entry.quantity e
                                  * (1 + wastage_of a e)) <$> used)))) ∧
    Assembly.flows a'
      = <["initial" := PyNum <$> initial_totals skipped_warning a used]>
          (Assembly.flows a) ∧
    RuntimeMessages (ghenv_Component w')
      = (RuntimeMessages (ghenv_Component w)
         ++ replicate (length skipped) (RML.Warning, skipped_warning))%list.
Proof.
  intros l used skipped. eexists _, _.
  split; [apply calculate_flows_Ok|].
  assert (Forall (λ e, usable e = true) used) as Hused.
  { apply Forall_forall. intros e He. by apply list_elem_of_filter in He as [? _]. }
  assert (filter (λ e, usable e = true) used = used) as Hidem.
  { clear -Hused. induction Hused as [|e l' He _ IH]; [done|].
    rewrite filter_cons_True by done. by rewrite IH. }
  split; [|split].
  - intros f Hf.
    rewrite (flow_of_calculated accepted skipped_warning create_list a f Hf).
    fold l. fold used. rewrite <- Hidem at 1.
    by rewrite (sum_all_usable a used f Hused Hf).
  - cbn [set_flows Assembly.flows]. f_equal. f_equal.
    rewrite !initial_totals_closed. fold l. fold used. by rewrite Hidem.
  - rewrite emit_messages. f_equal. by rewrite fmap_replicate.
Qed.

(** C6.  An assembly-level override for wastage or service life that is
    supplied to the constructor replaces the attribute of every material in
    the flow computation; when it is absent each material's own attribute
    is used. *)
Theorem C6_assembly_override
    (geometry : list Geometry) (name service_life_override wastage_override comments : pyval)
    (entries : list Entry.t) (units' : string) (category : pyval) (a : assembly') :
  init accepted geometry name service_life_override wastage_override comments
    entries units' category = Ok a →
  (∀ q e, wastage_override = PyNum q → wastage_of a e = q) ∧
  (∀ e, wastage_override = PyNone → wastage_of a e = Entry.wastage e) ∧
  (∀ q e, service_life_override = PyNum q → service_life_of a e = q) ∧
  (∀ e, service_life_override = PyNone → service_life_of a e = Entry.service_life e) ∧
  (∀ f, f ∈ flow_types →
     initial_totals skipped_warning a (Assembly.epic_materials a) !! f
     = Some (Qc_sum
               ((λ e, coefficient_number e f * Entry.quantity e
                      * (1 + effective wastage_override (Entry.wastage e)))
                  <$> filter (λ e, usable e = true) entries))) ∧
  (∀ design_life e f,
     recurring_flow design_life a e f
     = initial_flow a e f
       * Qc_of_Z (replacements design_life
                    (effective service_life_override (Entry.service_life e)))).
Proof.
  unfold init. destruct (forallb accepted geometry); [|done].
  intros [= <-]. repeat split.
  - by intros q e ->.
  - by intros e ->.
  - by intros q e ->.
  - by intros e ->.
  - intros f Hf. rewrite initial_totals_lookup by done.
    cbn [Assembly.epic_materials]. f_equal.
    set (used := filter (λ e, usable e = true) entries).
    assert (Forall (λ e, usable e = true) used) as Hused.
    { apply Forall_forall. intros e He. by apply list_elem_of_filter in He as [? _]. }
    clearbody used. induction Hused as [|e l He _ IH]; [done|].
    rewrite !fmap_cons. simpl. rewrite IH. f_equal.
    by rewrite initial_flow_usable.
Qed.

End ContractClaims.

(** ** Runs of the material component on the small database *)

Lemma Demo_concrete_selected :
  selected (info := Demo.info) (materials_api := Demo.materials)
    (PyBool true) (PyStr "01: Concrete") (PyStr "concrete") PyNone Demo.world
    Demo.the_database (PyStr "concrete")
    [num 10; num 4; num 2; PyStr "m³"; PyStr "Concrete 20 MPa";
     PyStr "10.26188/concrete"; PyStr "Concrete"; num 2400]
    Demo.no_shares (Demo.world_after "concrete").
Proof.
  exists (PyStr "Concrete"), "7f3a", (Demo.world_prepared "concrete"),
    (Demo.world_prepared "concrete").
  repeat split; vm_compute; reflexivity.
Defined.

Lemma Demo_membrane_selected :
  selected (info := Demo.info) (materials_api := Demo.materials)
    (PyBool true) (PyStr "01: Concrete") (PyStr "membrane") PyNone Demo.world
    Demo.the_database (PyStr "membrane")
    [num 10; num 0; num 2; PyStr "m²"; PyStr "Membrane";
     PyStr "10.26188/membrane"; PyStr "Concrete"; PyNone]
    Demo.no_shares (Demo.world_after "membrane").
Proof.
  exists (PyStr "Concrete"), "7f3a", (Demo.world_prepared "membrane"),
    (Demo.world_prepared "membrane").
  repeat split; vm_compute; reflexivity.
Defined.

(** C3, counterexample.  For the material "concrete" (energy coefficient
    10, all three coefficients non-zero) and an energy reduction factor of
    150 percent the component outputs 5, not [10 × (1 − 150/100) = −5]; for
    the material "membrane" (energy coefficient 10, water coefficient 0) and
    an energy reduction factor of 50 percent it outputs 10, not 5. *)
Lemma C3_counterexample :
  (Demo.query_field Demo.the_database (PyStr "concrete") "Energy" = Ok (num 10) ∧
   ∃ e w g : Qc,
     Demo.coefficient_outputs (Demo.run_material "concrete" (num 150) PyNone PyNone)
       = Some (e, w, g) ∧
     e = Qc_of_Z 5 ∧
     e ≠ reduced_by_percent (Qc_of_Z 10) (Some (Qc_of_Z 150))) ∧
  (Demo.query_field Demo.the_database (PyStr "membrane") "Energy" = Ok (num 10) ∧
   ∃ e w g : Qc,
     Demo.coefficient_outputs (Demo.run_material "membrane" (num 50) PyNone PyNone)
       = Some (e, w, g) ∧
     e = Qc_of_Z 10 ∧
     e ≠ reduced_by_percent (Qc_of_Z 10) (Some (Qc_of_Z 50))).
Proof.
  split; (split; [reflexivity|]); eexists _, _, _;
    (split; [vm_compute; reflexivity|]);
    (split; [by apply Qc_is_canon|]);
    apply (bool_decide_unpack _); by vm_compute.
Qed.

(** C3, on the small database: an energy factor of 50 beside a water
    factor of 150, and no factor for greenhouse gases, on "concrete". *)
Lemma C3_reduction_up_to_100_witness :
  Demo.run_material "concrete" (PyNum (Qc_of_Z 50)) (PyNum (Qc_of_Z 150)) PyNone
  = Ok (material_outputs (info := Demo.info) (PyStr "concrete")
          {| db_energy := num 10; db_water := num 4; db_ghg := num 2;
             db_functional_unit := PyStr "m³"; db_name := PyStr "Concrete 20 MPa";
             db_doi := PyStr "10.26188/concrete"; db_category := PyStr "Concrete";
             db_density := num 2400 |}
          Demo.no_shares
          (PyNum (scaled (Qc_of_Z 10) (Some (Qc_of_Z 50))))
          (PyNum (scaled (Qc_of_Z 4) (Some (Qc_of_Z 150))))
          (PyNum (scaled (Qc_of_Z 2) None))
          PyNone PyNone PyNone,
        Demo.world_after "concrete") ∧
  scaled (Qc_of_Z 10) (Some (Qc_of_Z 50))
  = reduced_by_percent (Qc_of_Z 10) (Some (Qc_of_Z 50)) ∧
  scaled (Qc_of_Z 2) None = reduced_by_percent (Qc_of_Z 2) None.
Proof.
  destruct (proj1 (C3_reduction_up_to_100 (Assembly := unit) (Geometry := unit)
              _ _ _ PyNone PyNone PyNone PyNone PyNone PyNone _ _ _ _ _ _
              _ _ _ _ _ _ _ _ Demo_concrete_selected)
              (Qc_of_Z 10) (Qc_of_Z 4) (Qc_of_Z 2)
              (Some (Qc_of_Z 50)) (Some (Qc_of_Z 150)) None
              eq_refl eq_refl eq_refl
              ltac:(by intros [=]) ltac:(by intros [=]) ltac:(by intros [=]))
    as (Hrun & He & _ & Hg).
  split; [exact Hrun|]. split.
  - apply He. by intros r [= <-].
  - apply Hg. by intros r [=].
Defined.

(** C7, counterexample.  The database stores the energy coefficient 10 for
    "concrete"; with an energy reduction factor of 50 percent the energy
    coefficient the component outputs is 5. *)
Lemma C7_counterexample :
  Demo.query_field Demo.the_database (PyStr "concrete") "Energy" = Ok (num 10) ∧
  ∃ e w g : Qc,
    Demo.coefficient_outputs (Demo.run_material "concrete" (num 50) PyNone PyNone)
      = Some (e, w, g) ∧
    e = Qc_of_Z 5 ∧ e ≠ Qc_of_Z 10.
Proof.
  split; [reflexivity|]. eexists _, _, _.
  split; [vm_compute; reflexivity|].
  split; [by apply Qc_is_canon|].
  apply (bool_decide_unpack _). by vm_compute.
Qed.

(** C7, on the small database: "concrete" without reduction factors. *)
Lemma C7_database_values_witness :
  (∃ m : EPiCMaterial.t,
     Demo.run_material "concrete" PyNone PyNone PyNone
     = Ok ([OutMaterial m; OutVal PyNone; OutVal (num 10); OutVal (num 4);
            OutVal (num 2); OutVal PyNone; OutVal (PyStr "10.26188/concrete");
            OutVal (num 2400); OutVal (PyStr "m³"); OutVal PyNone; OutVal PyNone;
            OutVal (PyStr "Use at your own risk")], Demo.world_after "concrete") ∧
     EPiCMaterial.category m = PyStr "Concrete" ∧
     EPiCMaterial.name m = PyStr "Concrete 20 MPa").
Proof.
  destruct (C7_database_values (Assembly := unit) (Geometry := unit)
              (PyBool true) (PyStr "01: Concrete") (PyStr "concrete")
              PyNone PyNone PyNone PyNone PyNone PyNone PyNone PyNone PyNone PyNone
              _ _ _ _ _ _ _ _ _ _ _ _ _ (num 10) (num 4) (num 2)
              Demo_concrete_selected eq_refl)
    as [(m & Hrun & _ & _ & _ & _ & _ & Hcat & _ & Hname & _) _].
  exists m. split; [exact Hrun|]. split; [exact Hcat|exact Hname].
Defined.

(** C8, on the small database: a factor of 150 percent on the energy
    coefficient 10 of "concrete" gives [10 / 100 × |100 − 150|]. *)
Lemma C8_reduction_scaling_witness :
  Demo.run_material "concrete" (PyNum (Qc_of_Z 150)) PyNone (PyNum (Qc_of_Z 50))
  = Ok (material_outputs (info := Demo.info) (PyStr "concrete")
          {| db_energy := num 10; db_water := num 4; db_ghg := num 2;
             db_functional_unit := PyStr "m³"; db_name := PyStr "Concrete 20 MPa";
             db_doi := PyStr "10.26188/concrete"; db_category := PyStr "Concrete";
             db_density := num 2400 |}
          Demo.no_shares
          (PyNum (scaled (Qc_of_Z 10) (Some (Qc_of_Z 150))))
          (PyNum (scaled (Qc_of_Z 4) None))
          (PyNum (scaled (Qc_of_Z 2) (Some (Qc_of_Z 50))))
          PyNone PyNone PyNone,
        Demo.world_after "concrete").
Proof.
  refine (proj1 (C8_reduction_scaling (Assembly := unit) (Geometry := unit)
            _ _ _ _ _ _ _ _ _ _ _ _ _ _ _ _ _ _ _ _ _ _ _ Demo_concrete_selected)
            (Qc_of_Z 10) (Qc_of_Z 4) (Qc_of_Z 2)
            (Some (Qc_of_Z 150)) None (Some (Qc_of_Z 50))
            eq_refl eq_refl eq_refl _ _ _); by intros [=].
Defined.

(** The guard of line 215 on "membrane", whose water coefficient is 0: the
    reduction factors change nothing. *)
Example membrane_not_reduced :
  Demo.run_material "membrane" (num 50) (num 50) (num 50)
  = Demo.run_material "membrane" PyNone PyNone PyNone.
Proof. reflexivity. Qed.

(** ** Runs of the volumetric component and of the contract *)

(** C9, on the small model: a surface as geometry. *)
Lemma C9_geometry_type_error_witness :
  RunScript_Volumetric (info := Demo.info) (assemblies_api := Demo.assemblies)
    (PyStr "Slab") PyNone PyNone [Demo.Surface] PyNone PyNone PyNone
    Demo.material_inputs Demo.world
  = Ok (replicate 5 (OutVal (PyStr geometry_warning)),
        set_Component
          (AddRuntimeMessage RML.Warning geometry_warning
             (ghenv_Component
                (header_world (info := Demo.info) "1.02" component_name Demo.world)))
          (header_world (info := Demo.info) "1.02" component_name Demo.world)).
Proof.
  refine (proj1 (C9_geometry_type_error (info := Demo.info)
                   (assemblies_api := Demo.assemblies)
                   (PyStr "Slab") PyNone PyNone [Demo.Surface] PyNone PyNone PyNone
                   Demo.material_inputs Demo.world _
                   (Demo.entries_of Demo.raw_inputs) _ _)).
  - reflexivity.
  - reflexivity.
Defined.

(** C1, on the small model: 3 and 2 units of concrete with a wastage
    fraction of 1/20. *)
Lemma C1_initial_flows_witness :
  ∃ a',
    RunScript_Volumetric (info := Demo.info) (assemblies_api := Demo.assemblies)
      (PyStr "Slab") PyNone PyNone [Demo.Brep] PyNone PyNone PyNone
      Demo.material_inputs Demo.world
    = Ok ([OutAssembly a'; OutVal PyNone;
           OutVal (PyNum (Contract.Qc_sum
             ((λ e, Contract.coefficient_number e "energy" * Contract.Entry.quantity e
                    * (1 + Contract.effective PyNone (Contract.Entry.wastage e)))
                <$> Demo.entries_of Demo.raw_inputs)));
           OutVal (PyNum (Contract.Qc_sum
             ((λ e, Contract.coefficient_number e "water" * Contract.Entry.quantity e
                    * (1 + Contract.effective PyNone (Contract.Entry.wastage e)))
                <$> Demo.entries_of Demo.raw_inputs)));
           OutVal (PyNum (Contract.Qc_sum
             ((λ e, Contract.coefficient_number e "ghg" * Contract.Entry.quantity e
                    * (1 + Contract.effective PyNone (Contract.Entry.wastage e)))
                <$> Demo.entries_of Demo.raw_inputs)));
           OutVal PyNone; OutGeometry [Demo.Brep]],
          input_warnings [Demo.Brep] (Demo.entries_of Demo.raw_inputs)
            (header_world (info := Demo.info) "1.02" component_name Demo.world)).
Proof.
  destruct (C1_initial_flows (info := Demo.info) Demo.is_brep
              "A material without numeric coefficients was skipped"
              (λ _ raw w, Ok (Demo.entries_of raw, w))
              (PyStr "Slab") PyNone PyNone [Demo.Brep] PyNone PyNone PyNone
              Demo.material_inputs Demo.world
              (header_world (info := Demo.info) "1.02" component_name Demo.world)
              (Demo.entries_of Demo.raw_inputs))
    as [(a' & Hrun & _) _].
  - reflexivity.
  - reflexivity.
  - repeat constructor.
  - exists a'. exact Hrun.
Defined.

(** The energy total of that run: [10 × 3 × 21/20 + 10 × 2 × 21/20]. *)
Example Demo_energy_total :
  Contract.Qc_sum
    ((λ e, Contract.coefficient_number e "energy" * Contract.Entry.quantity e
           * (1 + Contract.effective PyNone (Contract.Entry.wastage e)))
       <$> Demo.entries_of Demo.raw_inputs)
  = Demo.Q_ 105 2.
Proof. apply Qc_is_canon. by vm_compute. Qed.

(** C2, on the small model: concrete with a service life of 25 years in a
    design life of 60 years is replaced [floor(60 / 25)] times. *)
Lemma C2_recurring_flow_witness :
  Contract.recurring_flow (Qc_of_Z 60) (Demo.assembly_of PyNone PyNone [])
    Demo.concrete_entry "energy"
  = Contract.initial_flow (Demo.assembly_of PyNone PyNone []) Demo.concrete_entry "energy"
    * Qc_of_Z (Z.max 0 (Qfloor (Qc_of_Z 60 / Qc_of_Z 25)%Qc)).
Proof.
  apply (proj1 (C2_recurring_flow (Qc_of_Z 60) (Demo.assembly_of PyNone PyNone [])
                  Demo.concrete_entry "energy")).
  reflexivity.
Defined.

Example Demo_replacements :
  Contract.replacements (Qc_of_Z 60) (Qc_of_Z 25) = 2%Z ∧
  Contract.replacements (Qc_of_Z 60) (Qc_of_Z 0) = 0%Z ∧
  Contract.replacements (Qc_of_Z (-60)) (Qc_of_Z 25) = 0%Z.
Proof. by vm_compute. Qed.


(** C5, on the small model: the timber has no GHG coefficient. *)
Lemma C5_skip_and_warn_witness :
  ∃ a' w',
    Contract.calculate_flows "skipped"
      (Demo.assembly_of PyNone PyNone [Demo.concrete_entry; Demo.timber_entry])
      Demo.world = Ok (a', w') ∧
    RuntimeMessages (ghenv_Component w') = [(RML.Warning, "skipped")].
Proof.
  destruct (C5_skip_and_warn Demo.is_brep "skipped"
              (λ _ raw w, Ok (Demo.entries_of raw, w))
              (Demo.assembly_of PyNone PyNone [Demo.concrete_entry; Demo.timber_entry])
              Demo.world) as (a' & w' & Hrun & _ & _ & Hmsg).
  exists a', w'. split; [exact Hrun|exact Hmsg].
Defined.

(** C6, on the small model: a wastage override of 1/10 and a service-life
    override of 50 years. *)
Lemma C6_assembly_override_witness :
  Contract.wastage_of (Demo.assembly_of (num 50) (PyNum (Demo.Q_ 1 10)) [Demo.concrete_entry])
    Demo.concrete_entry = Demo.Q_ 1 10 ∧
  Contract.service_life_of
    (Demo.assembly_of (num 50) (PyNum (Demo.Q_ 1 10)) [Demo.concrete_entry])
    Demo.concrete_entry = Qc_of_Z 50.
Proof.
  destruct (C6_assembly_override Demo.is_brep "skipped"
              [Demo.Brep] (PyStr "Slab") (num 50) (PyNum (Demo.Q_ 1 10)) PyNone
              [Demo.concrete_entry] units PyNone
              (Demo.assembly_of (num 50) (PyNum (Demo.Q_ 1 10)) [Demo.concrete_entry])
              eq_refl) as (Hw & _ & Hs & _).
  split; [by apply Hw|by apply Hs].
Defined.

(** The volumetric component on concrete and a timber without a GHG
    coefficient: the timber is skipped with a warning. *)
Example Demo_mixed_inputs :
  Demo.messages
    (RunScript_Volumetric (info := Demo.info) (assemblies_api := Demo.assemblies)
       (PyStr "Slab") PyNone PyNone [Demo.Brep] PyNone PyNone PyNone
       Demo.mixed_inputs Demo.world)
  = [(RML.Warning, "A material without numeric coefficients was skipped")].
Proof. by vm_compute. Qed.

(** ** Runs of the material component without a selection *)

Example Demo_unselected :
  Demo.messages
    (RunScript_Material (Assembly := unit) (Geometry := unit)
       (info := Demo.info) (materials_api := Demo.materials)
       (PyBool true) (PyStr "01: Concrete") PyNone PyNone PyNone PyNone PyNone PyNone
       PyNone PyNone PyNone PyNone PyNone Demo.world)
  = [(RML.Warning, warning)].
Proof. by vm_compute. Qed.

Example Demo_category_without_space :
  Demo.raised
    (RunScript_Material (Assembly := unit) (Geometry := unit)
       (info := Demo.info) (materials_api := Demo.materials)
       (PyBool false) (PyStr "a:b") PyNone PyNone PyNone PyNone PyNone PyNone
       PyNone PyNone PyNone PyNone PyNone Demo.world)
  = Some IndexError.
Proof. by vm_compute. Qed.

(** * Further properties of the two components *)

(** ** Category texts *)

Lemma contains_cons (sub : string) (c : ascii) (s : string) :
  contains sub (String c s) = String.prefix sub (String c s) || contains sub s.
Proof. reflexivity. Qed.

Lemma prefix_String (a b : ascii) (s1 s2 : string) :
  String.prefix (String a s1) (String b s2)
  = if ascii_dec a b then String.prefix s1 s2 else false.
Proof. reflexivity. Qed.

Lemma string_app_empty (s : string) : s +:+ "" = s.
Proof.
  induction s as [|c s IH]; [done|].
  change (String c (s +:+ "") = String c s). by rewrite IH.
Qed.

Lemma prefix_colon_space (s : string) :
  String.prefix ": " s = true → String.prefix ":" s = true.
Proof.
  destruct s as [|c s]; [done|]. rewrite !prefix_String.
  destruct (ascii_dec ":" c); [|done]. by destruct s.
Qed.

(** A text without [':'] has no [': ']. *)
Lemma contains_colon_space (s : string) :
  contains ":" s = false → contains ": " s = false.
Proof.
  induction s as [|c s IH]; [done|]. rewrite !contains_cons.
  intros [Hp Hs]%orb_false_elim. rewrite (IH Hs), orb_false_r.
  destruct (String.prefix ": " (String c s)) eqn:Hpre; [|done].
  apply prefix_colon_space in Hpre. congruence.
Qed.

(** A text without the separator is one piece. *)
Lemma split_go_none (sep cur s : string) :
  contains sep s = false → split_go sep 0 cur s = [cur +:+ s].
Proof.
  revert cur. induction s as [|c s IH]; intros cur Hs.
  - simpl. by rewrite string_app_empty.
  - rewrite contains_cons in Hs. apply orb_false_elim in Hs as [Hp Hs].
    cbn [split_go]. rewrite Hp, (IH _ Hs). f_equal.
    by rewrite string_app_assoc.
Qed.

Lemma split_none (sep s : string) : contains sep s = false → split sep s = [s].
Proof. intros Hs. unfold split. by rewrite split_go_none. Qed.

(** The first piece of a text that starts with [p] and [': '], for a [p]
    without [':']. *)
Lemma split_go_prefix (cur p r : string) :
  contains ":" p = false →
  split_go ": " 0 cur (p +:+ ": " +:+ r) = (cur +:+ p) :: split_go ": " 0 "" r.
Proof.
  revert cur. induction p as [|c p IH]; intros cur Hp.
  - change ("" +:+ ": " +:+ r) with (String ":" (String " " r)).
    assert (String.prefix ": " (String ":" (String " " r)) = true) as Hpre
      by (by destruct r).
    cbn [split_go]. rewrite Hpre. f_equal. by rewrite string_app_empty.
  - rewrite contains_cons in Hp. apply orb_false_elim in Hp as [Hc Hp].
    change (String c p +:+ ": " +:+ r) with (String c (p +:+ ": " +:+ r)).
    cbn [split_go].
    assert (String.prefix ": " (String c (p +:+ ": " +:+ r)) = false) as ->.
    { rewrite prefix_String in Hc |- *.
      destruct (ascii_dec ":" c); [by destruct p|done]. }
    rewrite (IH _ Hp). f_equal. by rewrite string_app_assoc.
Qed.

Lemma contains_app_colon (p r : string) : contains ":" (p +:+ ": " +:+ r) = true.
Proof.
  induction p as [|c p IH]; [done|].
  change (String c p +:+ ": " +:+ r) with (String c (p +:+ ": " +:+ r)).
  rewrite contains_cons, IH. apply orb_true_r.
Qed.

Lemma truthy_PyStr (s : string) : s ≠ "" → truthy (PyStr s) = true.
Proof. by destruct s. Qed.

Lemma contains_nonempty (sub s : string) : contains sub s = true → sub ≠ "" → s ≠ "".
Proof. intros H Hsub ->. by destruct sub. Qed.

Lemma normalise_category_plain (s : string) :
  contains ":" s = false → normalise_category (PyStr s) = Ok (PyStr s).
Proof.
  intros Hs. unfold normalise_category.
  destruct (truthy (PyStr s)); [|done]. simpl. by rewrite Hs.
Qed.

Lemma normalise_category_IndexError (s : string) :
  contains ":" s = true → contains ": " s = false →
  normalise_category (PyStr s) = Raise IndexError.
Proof.
  intros Hc Hs. unfold normalise_category.
  rewrite truthy_PyStr by (by eapply contains_nonempty). simpl.
  by rewrite Hc, (split_none _ _ Hs).
Qed.

(** X1.  Lines 144-148 on a category as the dropdown list gives it.  A text
    [p: r], where neither the number [p] nor the name [r] has a [':'],
    becomes [r], also when it comes as the first element of a list; and
    [r] itself stays [r], so the step can be repeated. *)
Theorem X1_category_prefix_removed (p r : string) (rest : list pyval) :
  contains ":" p = false → contains ":" r = false →
  normalise_category (PyStr (p +:+ ": " +:+ r)) = Ok (PyStr r) ∧
  normalise_category (PyList (PyStr (p +:+ ": " +:+ r) :: rest)) = Ok (PyStr r) ∧
  normalise_category (PyStr r) = Ok (PyStr r).
Proof.
  intros Hp Hr.
  assert (split ": " (p +:+ ": " +:+ r) = [p; r]) as Hsplit.
  { unfold split. rewrite split_go_prefix by done.
    by rewrite (split_go_none _ _ _ (contains_colon_space _ Hr)). }
  assert (truthy (PyStr (p +:+ ": " +:+ r)) = true) as Htrue by (by destruct p).
  split; [|split].
  - unfold normalise_category. rewrite Htrue. simpl.
    by rewrite contains_app_colon, Hsplit.
  - unfold normalise_category. simpl.
    by rewrite contains_app_colon, Hsplit.
  - by apply normalise_category_plain.
Qed.

Lemma X1_category_prefix_removed_witness :
  normalise_category (PyStr "01: Concrete") = Ok (PyStr "Concrete") ∧
  normalise_category (PyList [PyStr "01: Concrete"; PyStr "02: Timber"])
    = Ok (PyStr "Concrete") ∧
  normalise_category (PyStr "Concrete") = Ok (PyStr "Concrete").
Proof.
  apply (X1_category_prefix_removed "01" "Concrete" [PyStr "02: Timber"]); reflexivity.
Defined.

(** ** Values *)

Lemma py_eqb_refl (v : pyval) : py_eqb v v = true.
Proof.
  revert v. fix IH 1. intros [|b|q|s|l]; simpl.
  - done.
  - by rewrite bool_decide_eq_true_2.
  - by rewrite bool_decide_eq_true_2.
  - apply String.eqb_refl.
  - induction l as [|x l IHl]; [done|]. by rewrite IH, IHl.
Qed.

(** ** The start of a run of the material component *)

Section MaterialStart.
Context {DB Doc Assembly Entry Geometry : Type}.
Context {info : EpicInfo}.
Context {materials_api : EpicMaterials DB Doc}.

Abbreviation RunScript_Material' :=
  (RunScript_Material (DB := DB) (Doc := Doc) (Assembly := Assembly) (Geometry := Geometry)).

Lemma header_world_InstanceGuid (v n : string) (w : World DB) :
  InstanceGuid (ghenv_Component (header_world v n w)) = InstanceGuid (ghenv_Component w).
Proof. unfold header_world. by destruct (String.eqb v __version__). Qed.

Lemma header_world_Params_Input (v n : string) (w : World DB) :
  Params_Input (ghenv_Component (header_world v n w)) = Params_Input (ghenv_Component w).
Proof. unfold header_world. by destruct (String.eqb v __version__). Qed.

Lemma header_world_RuntimeMessages (v n : string) (w : World DB) :
  RuntimeMessages (ghenv_Component (header_world v n w))
  = (RuntimeMessages (ghenv_Component w) ++
     if String.eqb v __version__ then [] else [(RML.Remark, version_mismatch v)])%list.
Proof.
  unfold header_world. destruct (String.eqb v __version__); simpl; [|done].
  by rewrite app_nil_r.
Qed.

Lemma prepared_world_Component (material_id epic_help : pyval) (w : World DB) :
  ghenv_Component (prepared_world material_id epic_help w)
  = ghenv_Component (header_world "1.02" "EPiC Material" w).
Proof.
  unfold prepared_world. cbv zeta.
  by destruct (st_component _ !! _), (truthy epic_help).
Qed.

Lemma prepared_world_epic_db (material_id epic_help : pyval) (w : World DB) :
  st_epic_db (st (prepared_world material_id epic_help w)) = st_epic_db (st w).
Proof.
  unfold prepared_world. cbv zeta.
  by destruct (st_component _ !! _), (truthy epic_help).
Qed.

(** The sticky entries after lines 130-133: the entry of the component is
    the one it had, or the material of this run. *)
Lemma prepared_world_sticky (material_id epic_help : pyval) (w : World DB) :
  let component_id := InstanceGuid (ghenv_Component w) in
  st_component (st (prepared_world material_id epic_help w))
  = match st_component (st w) !! component_id with
    | Some _ => st_component (st w)
    | None => <[component_id := material_id]> (st_component (st w))
    end.
Proof.
  unfold prepared_world. cbv zeta. rewrite header_world_InstanceGuid.
  change (st (header_world "1.02" "EPiC Material" w)) with (st w).
  by destruct (st_component _ !! _), (truthy epic_help).
Qed.

Lemma prepared_world_entry (material_id epic_help : pyval) (w : World DB) :
  let component_id := InstanceGuid (ghenv_Component w) in
  st_component (st (prepared_world material_id epic_help w)) !! component_id
  = Some (default material_id (st_component (st w) !! component_id)).
Proof.
  cbv zeta. rewrite prepared_world_sticky. cbv zeta.
  destruct (st_component (st w) !! InstanceGuid (ghenv_Component w)) eqn:H; [done|].
  by rewrite lookup_insert_eq.
Qed.

Lemma prepared_world_opened (material_id epic_help : pyval) (w : World DB) :
  webbrowser_opened (prepared_world material_id epic_help w)
  = (webbrowser_opened w ++
     if truthy epic_help then ["https://bit.ly/EPiC_Database"] else [])%list.
Proof.
  unfold prepared_world. cbv zeta.
  destruct (st_component _ !! _), (truthy epic_help); simpl; by rewrite ?app_nil_r.
Qed.

(** Lines 119-137 cannot raise; the rest of [prepare] runs in the world
    they leave. *)
Lemma prepare_start
    (connect_button material_category material_id epic_help : pyval) (w : World DB) :
  prepare connect_button material_category material_id epic_help w
  = (epic_db ← load_epic_db;
     material_category ← lift (normalise_category material_category);
     generate_lists connect_button material_id material_category epic_db
       (InstanceGuid (ghenv_Component w));;
     mret (epic_db, material_category, InstanceGuid (ghenv_Component w)))
      (prepared_world material_id epic_help w).
Proof.
  unfold prepare, prepared_world, mbind, M_bind, bind.
  rewrite version_header_Ok. cbv beta iota zeta. unfold get. cbv beta iota.
  rewrite header_world_InstanceGuid.
  set (w0 := header_world "1.02" "EPiC Material" w). clearbody w0.
  unfold st_set, webbrowser_open, modify, mret, M_ret, ret.
  destruct (st_component (st w0) !! InstanceGuid (ghenv_Component w));
    destruct (truthy epic_help); reflexivity.
Qed.

Lemma load_epic_db_cached (w : World DB) (epic_db : DB) :
  st_epic_db (st w) = Some epic_db → load_epic_db w = Ok (epic_db, w).
Proof. intros H. unfold load_epic_db. by rewrite H. Qed.

(** Loading the database leaves the component and the other sticky entries
    as they are. *)
Lemma load_epic_db_inv (w w' : World DB) (epic_db : DB) :
  load_epic_db w = Ok (epic_db, w') →
  ghenv_Component w' = ghenv_Component w ∧
  st_component (st w') = st_component (st w) ∧
  st_epic_db (st w') = Some epic_db.
Proof.
  unfold load_epic_db. destruct (st_epic_db (st w)) as [db|] eqn:Hdb.
  - by intros [= <- <-].
  - simpl. destruct (EPiCDatabase DefaultAssemblyFolder); simpl; [|done].
    by intros [= <- <-].
Qed.

(** Lines 151-159 leave the world alone unless the button is on and the
    selection is missing; then the entry of the component is [None]. *)
Lemma generate_lists_inv
    (connect_button material_id material_category : pyval) (epic_db : DB)
    (component_id : string) (w w' : World DB) :
  generate_lists connect_button material_id material_category epic_db component_id w
    = Ok (tt, w') →
  if truthy connect_button && (negb (truthy material_id) || negb (truthy material_category))
  then st_component (st w') !! component_id = Some PyNone
  else w' = w.
Proof.
  unfold generate_lists. destruct (truthy connect_button); simpl; [|by intros [= <-]].
  destruct (negb (truthy material_id) || negb (truthy material_category));
    [|by intros [= <-]].
  intros H. apply bind_inv in H as ([] & w1 & _ & H).
  unfold st_set, modify in H. injection H as <-. simpl. by rewrite lookup_insert_eq.
Qed.

Lemma prepare_without_lists
    (connect_button material_category material_id epic_help category : pyval)
    (w : World DB) (epic_db : DB) :
  st_epic_db (st w) = Some epic_db →
  normalise_category material_category = Ok category →
  truthy connect_button && (negb (truthy material_id) || negb (truthy category)) = false →
  prepare connect_button material_category material_id epic_help w
  = Ok ((epic_db, category, InstanceGuid (ghenv_Component w)),
        prepared_world material_id epic_help w).
Proof.
  intros Hdb Hcat Hlists. rewrite prepare_start.
  unfold mbind, M_bind, bind, lift.
  rewrite (load_epic_db_cached _ epic_db) by (by rewrite prepared_world_epic_db).
  cbv beta iota. rewrite Hcat. cbv beta iota.
  unfold generate_lists.
  destruct (truthy connect_button); [|reflexivity].
  simpl in Hlists. by rewrite Hlists.
Qed.

Lemma prepare_category_raises
    (connect_button material_category material_id epic_help : pyval)
    (w : World DB) (epic_db : DB) (e : exn) :
  st_epic_db (st w) = Some epic_db →
  normalise_category material_category = Raise e →
  prepare connect_button material_category material_id epic_help w = Raise e.
Proof.
  intros Hdb Hcat. rewrite prepare_start.
  unfold mbind, M_bind, bind, lift.
  rewrite (load_epic_db_cached _ epic_db) by (by rewrite prepared_world_epic_db).
  cbv beta iota. by rewrite Hcat.
Qed.

(** X2.  A category text that has a [':'] but no [': '] stops every run, whatever
    the other inputs are: with the database loaded, [RunScript] raises
    [IndexError] at the split of line 148, for a text and for a list that
    starts with it. *)
Theorem X2_category_colon_IndexError
    (connect_button material_id comments _null wastage service_life _null2
     energy_reduction water_reduction ghg_reduction _null3 epic_help : pyval)
    (s : string) (rest : list pyval) (w : World DB) (epic_db : DB) :
  contains ":" s = true → contains ": " s = false →
  st_epic_db (st w) = Some epic_db →
  RunScript_Material' connect_button (PyStr s) material_id comments _null
    wastage service_life _null2 energy_reduction water_reduction ghg_reduction
    _null3 epic_help w = Raise IndexError ∧
  RunScript_Material' connect_button (PyList (PyStr s :: rest)) material_id comments _null
    wastage service_life _null2 energy_reduction water_reduction ghg_reduction
    _null3 epic_help w = Raise IndexError.
Proof.
  intros Hc Hs Hdb.
  pose proof (normalise_category_IndexError s Hc Hs) as Hraise.
  assert (normalise_category (PyList (PyStr s :: rest)) = Raise IndexError) as Hlist.
  { revert Hraise. unfold normalise_category.
    rewrite truthy_PyStr by (by eapply contains_nonempty). done. }
  split; unfold RunScript_Material; apply bind_Raise;
    by eapply prepare_category_raises.
Qed.

(** X3.  After lines 119-159 the sticky dictionary has an entry for the
    component.  The key is the [InstanceGuid] of the component.  When the
    button is on and the selection is missing the entry is [None]; when the
    button is off it is the entry the component had, or the material of
    this run if it had none.  When the material is in the selected
    category, lines 166-184 change nothing: once the queries have returned,
    the update of the sliders starts in the world lines 119-159 left, so
    the lookup of line 187 finds the key.  (When the material is not in the
    category, [recreate_material_list] of module [epic] runs in between;
    what it does to the dictionary is not known here.) *)
Theorem X3_sticky_entry_after_prepare
    (connect_button material_category material_id epic_help category : pyval)
    (w w1 : World DB) (epic_db : DB) (component_id : string) :
  prepare connect_button material_category material_id epic_help w
    = Ok ((epic_db, category, component_id), w1) →
  component_id = InstanceGuid (ghenv_Component w) ∧
  is_Some (st_component (st w1) !! component_id) ∧
  (truthy connect_button = true →
   truthy material_id = false ∨ truthy category = false →
   st_component (st w1) !! component_id = Some PyNone) ∧
  (truthy connect_button = false →
   st_component (st w1) !! component_id
   = Some (default material_id (st_component (st w) !! component_id))) ∧
  (∀ (s : string) (ids l : list pyval) (v : db_values) (shares : list (string * pyval)),
     category = PyStr s → dict_of_categories epic_db !! s = Some ids →
     existsb (py_eqb material_id) ids = true →
     query_list epic_db material_id material_fields = Ok l →
     unpack8 l = Ok v →
     query_process_shares epic_db material_id = Ok shares →
     select_material epic_db category material_id w1 = Ok (material_id, w1) ∧
     load_material epic_db category material_id component_id w1
     = (update_sliders epic_db material_id component_id;;
        mret (material_id, v, shares)) w1 ∧
     ∃ last : pyval, st_get component_id w1 = Ok (last, w1)).
Proof.
  rewrite prepare_start. intros H.
  apply bind_inv in H as (db & w2 & Hload & H).
  apply load_epic_db_inv in Hload as (_ & Hst & _).
  apply bind_inv in H as (cat & w3 & Hcat & H).
  apply lift_inv in Hcat as [_ ->].
  apply bind_inv in H as ([] & w4 & Hlists & H).
  injection H as <- <- <- <-.
  apply generate_lists_inv in Hlists.
  pose proof (prepared_world_entry material_id epic_help w) as Hentry.
  cbv zeta in Hentry. rewrite <- Hst in Hentry.
  assert (is_Some (st_component (st w4) !! InstanceGuid (ghenv_Component w)) ∧
          (truthy connect_button = true →
           truthy material_id = false ∨ truthy cat = false →
           st_component (st w4) !! InstanceGuid (ghenv_Component w) = Some PyNone) ∧
          (truthy connect_button = false →
           st_component (st w4) !! InstanceGuid (ghenv_Component w)
           = Some (default material_id
                     (st_component (st w) !! InstanceGuid (ghenv_Component w)))))
    as (Hsome & Hon & Hoff).
  { destruct (truthy connect_button); simpl in Hlists.
    - destruct (negb (truthy material_id) || negb (truthy cat)) eqn:Hmissing.
      + repeat split; [by rewrite Hlists|done|done].
      + subst w4. repeat split; [by rewrite Hentry| |done].
        intros _ [Hid|Hc]; [rewrite Hid in Hmissing|rewrite Hc in Hmissing];
          simpl in Hmissing; [done|]. by rewrite orb_true_r in Hmissing.
    - subst w4. repeat split; [by rewrite Hentry|done|by intros _]. }
  split; [done|]. split; [done|]. split; [done|]. split; [done|].
  intros s ids l v shares -> Hdict Hin Hl Hv Hshares.
  assert (select_material db (PyStr s) material_id w4 = Ok (material_id, w4)) as Hsel.
  { unfold select_material, materials_of_category. rewrite Hdict.
    rewrite (bind_Ok _ _ w4 w4 ids) by done. by rewrite Hin. }
  split; [done|]. split.
  - unfold load_material. rewrite (bind_Ok _ _ _ _ _ Hsel).
    rewrite (bind_Ok _ _ w4 w4 l) by (by rewrite Hl).
    rewrite (bind_Ok _ _ w4 w4 v) by (by rewrite Hv).
    by rewrite (bind_Ok _ _ w4 w4 shares) by (by rewrite Hshares).
  - destruct Hsome as [last Hlast]. exists last. unfold st_get. by rewrite Hlast.
Qed.

End MaterialStart.

Section MaterialRuns.
Context {DB Doc Assembly Entry Geometry : Type}.
Context {info : EpicInfo}.
Context {materials_api : EpicMaterials DB Doc}.

Abbreviation RunScript_Material' :=
  (RunScript_Material (DB := DB) (Doc := Doc) (Assembly := Assembly) (Geometry := Geometry)).

(** X4.  A run with the button off and without a selection, the database being
    loaded, calls nothing of module [epic] and cannot raise once the category
    text is accepted.  It returns the eleven warnings and the disclaimer and
    changes the host as follows: the name and nickname of the component are
    set, the runtime messages gain the version remark (on a version
    mismatch) and then the warning, the sticky dictionary gains the entry
    of the component if it had none, and the help page is opened if
    [epic_help] is set.  The inputs of the component and the loaded database
    are as before. *)
Theorem X4_unselected_run_effects
    (connect_button material_category material_id comments _null
     wastage service_life _null2
     energy_reduction water_reduction ghg_reduction _null3 epic_help category : pyval)
    (w : World DB) (epic_db : DB) :
  truthy connect_button = false →
  st_epic_db (st w) = Some epic_db →
  normalise_category material_category = Ok category →
  truthy material_id && truthy category = false →
  ∃ w' : World DB,
    RunScript_Material' connect_button material_category material_id comments _null
      wastage service_life _null2 energy_reduction water_reduction ghg_reduction
      _null3 epic_help w
    = Ok ((replicate 11 (OutVal (PyStr warning)) ++ [OutVal (PyStr DISCLAIMER)])%list, w') ∧
    Name (ghenv_Component w') = "EPiC Material" ∧
    NickName (ghenv_Component w') = "EPiC Material" ∧
    RuntimeMessages (ghenv_Component w')
    = (RuntimeMessages (ghenv_Component w) ++
       (if String.eqb "1.02" __version__ then []
        else [(RML.Remark, version_mismatch "1.02")]) ++
       [(RML.Warning, warning)])%list ∧
    Params_Input (ghenv_Component w') = Params_Input (ghenv_Component w) ∧
    st_epic_db (st w') = Some epic_db ∧
    st_component (st w')
    = match st_component (st w) !! InstanceGuid (ghenv_Component w) with
      | Some _ => st_component (st w)
      | None => <[InstanceGuid (ghenv_Component w) := material_id]> (st_component (st w))
      end ∧
    webbrowser_opened w'
    = (webbrowser_opened w ++
       if truthy epic_help then ["https://bit.ly/EPiC_Database"] else [])%list.
Proof.
  intros Hoff Hdb Hcat Hunsel.
  assert (prepare connect_button material_category material_id epic_help w
          = Ok ((epic_db, category, InstanceGuid (ghenv_Component w)),
                prepared_world material_id epic_help w)) as Hprep.
  { apply prepare_without_lists; [done|done|by rewrite Hoff]. }
  eexists. split.
  { unfold RunScript_Material, mbind, M_bind, bind.
    rewrite Hprep; cbv beta iota. rewrite Hunsel. reflexivity. }
  cbn [set_Component ghenv_Component st webbrowser_opened].
  rewrite prepared_world_Component, prepared_world_epic_db, prepared_world_opened.
  pose proof (prepared_world_sticky material_id epic_help w) as Hsticky.
  cbv zeta in Hsticky. rewrite Hsticky.
  cbn [AddRuntimeMessage Name NickName RuntimeMessages Params_Input].
  rewrite header_world_RuntimeMessages, header_world_Params_Input.
  repeat split; try done.
  by rewrite <- app_assoc.
Qed.

(** X6.  A selected category that the database does not know stops the run:
    with the database loaded and a material given, the lookup of line 167 in
    [dict_of_categories] raises [KeyError]. *)
Theorem X6_unknown_category_KeyError
    (connect_button material_category material_id comments _null
     wastage service_life _null2
     energy_reduction water_reduction ghg_reduction _null3 epic_help : pyval)
    (s : string) (w : World DB) (epic_db : DB) :
  st_epic_db (st w) = Some epic_db →
  truthy material_id = true →
  normalise_category material_category = Ok (PyStr s) → s ≠ "" →
  dict_of_categories epic_db !! s = None →
  RunScript_Material' connect_button material_category material_id comments _null
    wastage service_life _null2 energy_reduction water_reduction ghg_reduction
    _null3 epic_help w = Raise KeyError.
Proof.
  intros Hdb Hid Hcat Hs Hnone.
  pose proof (truthy_PyStr s Hs) as Htrue.
  unfold RunScript_Material, mbind, M_bind, bind.
  rewrite (prepare_without_lists _ _ _ _ (PyStr s) _ epic_db Hdb Hcat)
    by (rewrite Hid, Htrue; apply andb_false_r).
  cbv beta iota. rewrite Hid, Htrue. cbv beta iota.
  unfold load_material, select_material, materials_of_category, mbind, M_bind, bind, lift.
  by rewrite Hnone.
Qed.



Lemma select_material_no_source
    (epic_db : DB) (s : string) (ids : list pyval) (material_id legacy : pyval)
    (w : World DB) :
  dict_of_categories epic_db !! s = Some ids →
  existsb (py_eqb material_id) ids = false →
  _query_for_name_or_old_mat_id epic_db material_id = Ok legacy →
  Params_Input (ghenv_Component w) !! 2%nat = Some [] →
  select_material epic_db (PyStr s) material_id w = Raise IndexError.
Proof.
  intros Hdict Hout Hlegacy Hsrc.
  unfold select_material, materials_of_category.
  rewrite Hdict. rewrite (bind_Ok _ _ w w ids) by done.
  rewrite Hout. cbn [negb]. rewrite (bind_Ok _ _ w w legacy) by (by rewrite Hlegacy).
  assert (Sources 2 w = Ok ([], w)) as Hsources.
  { unfold Sources, index. by rewrite Hsrc. }
  destruct (truthy legacy); by rewrite (bind_Ok _ _ _ _ _ Hsources).
Qed.

(** X8.  A material that is not in the selected category needs a source at
    input 2: when that input holds its value without anything wired to it,
    line 172 or 176 takes [Sources[0]] of an empty list and the run raises
    [IndexError], whether or not the legacy lookup finds a replacement. *)
Theorem X8_no_source_IndexError
    (connect_button material_category material_id comments _null
     wastage service_life _null2
     energy_reduction water_reduction ghg_reduction _null3 epic_help legacy : pyval)
    (s : string) (ids : list pyval) (w : World DB) (epic_db : DB) :
  st_epic_db (st w) = Some epic_db →
  truthy material_id = true →
  normalise_category material_category = Ok (PyStr s) → s ≠ "" →
  dict_of_categories epic_db !! s = Some ids →
  existsb (py_eqb material_id) ids = false →
  _query_for_name_or_old_mat_id epic_db material_id = Ok legacy →
  Params_Input (ghenv_Component w) !! 2%nat = Some [] →
  RunScript_Material' connect_button material_category material_id comments _null
    wastage service_life _null2 energy_reduction water_reduction ghg_reduction
    _null3 epic_help w = Raise IndexError.
Proof.
  intros Hdb Hid Hcat Hs Hdict Hout Hlegacy Hsrc.
  pose proof (truthy_PyStr s Hs) as Htrue.
  unfold RunScript_Material.
  rewrite (bind_Ok _ _ _ _ _
             (prepare_without_lists connect_button _ _ epic_help (PyStr s) _ epic_db
                Hdb Hcat ltac:(rewrite Hid, Htrue; apply andb_false_r))).
  cbv beta iota. rewrite Hid, Htrue. cbv beta iota.
  apply bind_Raise. unfold load_material. apply bind_Raise.
  apply select_material_no_source with ids legacy; try done.
  by rewrite prepared_world_Component, header_world_Params_Input.
Qed.

End MaterialRuns.

(** X5.  The database is loaded once.  With the key ['epic_db'] in the sticky
    dictionary a run does not call [EPiCDatabase]: it is the same run
    whatever the loader would do.  Without the key, an exception of the
    loader ends the run, whatever the inputs are. *)
Theorem X5_database_loaded_once
    {DB Doc Assembly Geometry : Type} {info : EpicInfo}
    {materials_api : EpicMaterials DB Doc}
    (connect_button material_category material_id comments _null
     wastage service_life _null2
     energy_reduction water_reduction ghg_reduction _null3 epic_help : pyval)
    (w : World DB) :
  (∀ (epic_db : DB) (load : string → result DB),
     st_epic_db (st w) = Some epic_db →
     RunScript_Material (Assembly := Assembly) (Geometry := Geometry)
       (materials_api := with_EPiCDatabase load)
       connect_button material_category material_id comments _null
       wastage service_life _null2 energy_reduction water_reduction ghg_reduction
       _null3 epic_help w
     = RunScript_Material (Assembly := Assembly) (Geometry := Geometry)
         connect_button material_category material_id comments _null
         wastage service_life _null2 energy_reduction water_reduction ghg_reduction
         _null3 epic_help w) ∧
  (∀ e : exn,
     st_epic_db (st w) = None →
     EPiCDatabase DefaultAssemblyFolder = Raise e →
     RunScript_Material (Assembly := Assembly) (Geometry := Geometry)
       connect_button material_category material_id comments _null
       wastage service_life _null2 energy_reduction water_reduction ghg_reduction
       _null3 epic_help w = Raise e).
Proof.
  split.
  - intros epic_db load Hdb.
    assert (prepare (materials_api := with_EPiCDatabase load)
              connect_button material_category material_id epic_help w
            = prepare connect_button material_category material_id epic_help w) as Hprep.
    { rewrite (prepare_start (materials_api := with_EPiCDatabase load)), prepare_start.
      unfold mbind, M_bind, bind.
      rewrite (load_epic_db_cached (materials_api := with_EPiCDatabase load) _ epic_db)
        by (by rewrite prepared_world_epic_db).
      by rewrite (load_epic_db_cached _ epic_db) by (by rewrite prepared_world_epic_db). }
    unfold RunScript_Material, mbind, M_bind, bind. by rewrite Hprep.
  - intros e Hdb Hload. unfold RunScript_Material. apply bind_Raise.
    rewrite prepare_start. apply bind_Raise.
    unfold load_epic_db. rewrite prepared_world_epic_db, Hdb. simpl.
    by rewrite Hload.
Qed.

(** ** The sliders of the material component *)

Lemma truthy_PyNum (q : Qc) : q ≠ 0 → truthy (PyNum q) = true.
Proof. intros H. simpl. by rewrite bool_decide_eq_false_2. Qed.

(** X12.  Lines 243-247 on a slider whose maximum is at least 100.  A
    default of 0 or [None] leaves the
    slider as it is, so the value of the material selected before stays; a
    number [q] other than 0 becomes the value, and it is within the maximum
    afterwards: the maximum is kept for [q] up to 100 and becomes [q]
    above. *)
Theorem X12_ScheduleCallback_slider (obj : slider) (q m : Qc) :
  Maximum obj = PyNum m → Qc_of_Z 100 ≤ m →
  ScheduleCallback obj (num 0) = obj ∧
  ScheduleCallback obj PyNone = obj ∧
  (q ≠ 0 →
   ∃ m' : Qc,
     ScheduleCallback obj (PyNum q) = {| Maximum := PyNum m'; Value := PyNum q |} ∧
     q ≤ m' ∧
     (q ≤ Qc_of_Z 100 → m' = m) ∧
     (Qc_of_Z 100 < q → m' = q)).
Proof.
  intros Hmax Hm. split; [done|split; [done|]]. intros Hq.
  unfold ScheduleCallback. rewrite (truthy_PyNum q Hq).
  unfold py_gt_num. cbn [as_num].
  case_bool_decide as Hgt; cbn [Maximum Value].
  - exists q. repeat split; [apply Qcle_refl|].
    intros Hle. by apply Qcle_not_lt in Hle.
  - exists m. rewrite Hmax. apply Qcnot_lt_le in Hgt.
    repeat split; [by eapply Qcle_trans|]. intros Hlt. by apply Qcle_not_lt in Hgt.
Qed.

Lemma X12_ScheduleCallback_slider_witness :
  ∃ m' : Qc,
    ScheduleCallback {| Maximum := num 100; Value := num 0 |} (PyNum (Qc_of_Z 150))
    = {| Maximum := PyNum m'; Value := PyNum (Qc_of_Z 150) |} ∧
    Qc_of_Z 150 ≤ m'.
Proof.
  destruct (X12_ScheduleCallback_slider {| Maximum := num 100; Value := num 0 |}
              (Qc_of_Z 150) (Qc_of_Z 100) eq_refl (Qcle_refl _))
    as (_ & _ & H).
  destruct H as (m' & Hrun & Hle & _); [by intros [=]|].
  by exists m'.
Defined.

Section Sliders.
Context {DB Doc : Type}.
Context {materials_api : EpicMaterials DB Doc}.

(** X9.  The defaults the sliders are set to (lines 189-198) are well formed for
    every database.  A [TypeError] never leaves the block; when it returns,
    nothing of the host has changed, the wastage is a number, and the
    service life is 0 or a true value other than -1. *)
Theorem X9_slider_defaults (epic_db : DB) (material_id : pyval) (w : World DB) :
  db_wastage_and_service_life epic_db material_id w ≠ Raise TypeError ∧
  ∀ (epic_wastage epic_service_life : pyval) (w' : World DB),
    db_wastage_and_service_life epic_db material_id w
      = Ok ((epic_wastage, epic_service_life), w') →
    w' = w ∧
    (∃ q : Qc, epic_wastage = PyNum q) ∧
    (epic_service_life = num 0 ∨
     (truthy epic_service_life = true ∧ py_eqb epic_service_life (num (-1)) = false)).
Proof.
  unfold db_wastage_and_service_life, try_except_TypeError, py_sub, py_mul, arith,
    mbind, result_bind.
  destruct (query epic_db material_id "Wastage") as [wq|e].
  2: { split; [by destruct e|]. destruct e; try done.
       intros ? ? ? [= <- <- <-]. split; [done|]. split; [by eexists|by left]. }
  destruct (as_num wq) as [x|].
  2: { split; [done|]. intros ? ? ? [= <- <- <-].
       split; [done|]. split; [by eexists|by left]. }
  cbn [as_num num].
  destruct (query epic_db material_id "Service Life") as [sl|e].
  2: { split; [by destruct e|]. destruct e; try done.
       intros ? ? ? [= <- <- <-]. split; [done|]. split; [by eexists|by left]. }
  split; [done|]. intros ? ? ? [= <- <- <-].
  split; [done|]. split; [by eexists|].
  destruct (py_eqb sl (num (-1))) eqn:Heq; [by left|].
  destruct (truthy sl) eqn:Htrue; [by right|by left].
Qed.

(** X10.  The defaults for a stored wastage coefficient [stored] and a
    stored service life.  The wastage default is [(stored − 1) × 100]: it is
    0 for a coefficient of 1, positive above 1 and negative below.  The
    service life default is 0 when the service life is missing, -1 or 0,
    and the stored service life otherwise.  On the doubles of the script a
    coefficient of 1 gives exactly 0, while 1.05 gives 5.000000000000004
    and 1.1 gives 10.000000000000009: the percentage is the one the source
    comment names only up to rounding. *)
Theorem X10_defaults_from_database
    (epic_db : DB) (material_id : pyval) (w : World DB) (stored : Qc) (y : option Qc) :
  query epic_db material_id "Wastage" = Ok (PyNum stored) →
  query epic_db material_id "Service Life" = Ok (optional y) →
  (∃ p : Qc,
     db_wastage_and_service_life epic_db material_id w
     = Ok ((PyNum p,
            PyNum (match y with
                   | Some y => if bool_decide (y = Qc_of_Z (-1)) then 0 else y
                   | None => 0
                   end)), w) ∧
     p = (stored - 1) * Qc_of_Z 100 ∧
     (stored = 1 → p = 0) ∧ (1 < stored → 0 < p) ∧ (stored < 1 → p < 0)) ∧
  wastage_percent_in_doubles 1 = 0%float ∧
  wastage_percent_in_doubles 1.05 = 5.000000000000004%float ∧
  wastage_percent_in_doubles 1.1 = 10.000000000000009%float.
Proof.
  intros Hw Hsl. split; [|by repeat split].
  exists ((stored - 1) * Qc_of_Z 100). split; [|split; [done|]].
  - unfold db_wastage_and_service_life, try_except_TypeError, py_sub, py_mul, arith,
      mbind, result_bind.
    rewrite Hw. cbn [as_num num]. rewrite Hsl.
    replace (Qc_of_Z 1) with 1 by (by apply Qc_is_canon).
    assert (num 0 = PyNum 0) as -> by (unfold num; by rewrite Qc_of_Z_0).
    destruct y as [y|]; simpl; [|done].
    destruct (bool_decide (y = Qc_of_Z (-1))); simpl; [done|].
    case_bool_decide as Hy; simpl; [|done]. by rewrite Hy.
  - assert (0 < Qc_of_Z 100) as Hpos by done.
    split; [|split].
    + intros ->. ring.
    + intros Hgt. apply (proj1 (Qclt_minus_iff 1 stored)) in Hgt.
      rewrite <- (Qcmult_0_l (Qc_of_Z 100)). by apply Qcmult_lt_compat_r.
    + intros Hlt. apply (proj1 (Qclt_minus_iff stored 1)) in Hlt.
      rewrite <- (Qcmult_0_l (Qc_of_Z 100)). apply Qcmult_lt_compat_r; [done|].
      apply (proj2 (Qclt_minus_iff (stored - 1) 0)).
      by replace (0 + - (stored - 1)) with (1 + - stored) by ring.
Qed.

(** X11.  A material without a numeric wastage coefficient gets both defaults 0:
    the [TypeError] of the subtraction at line 192 is caught before the
    service life is asked for, so a service life the database does store is
    not used. *)
Theorem X11_no_wastage_no_service_life
    (epic_db : DB) (material_id stored : pyval) (w : World DB) :
  query epic_db material_id "Wastage" = Ok stored → as_num stored = None →
  db_wastage_and_service_life epic_db material_id w = Ok ((num 0, num 0), w).
Proof.
  intros Hw Hstored.
  unfold db_wastage_and_service_life, try_except_TypeError, py_sub, arith,
    mbind, result_bind.
  by rewrite Hw, Hstored.
Qed.

End Sliders.

(** X13.  The sliders follow a change of the selection only.  When
    [update_sliders] returns, the sticky entry of the component equals the
    material, and running it again on the world it left changes nothing and
    calls nothing of module [epic] (it is the same for every implementation
    of the module). *)
Theorem X13_update_sliders_once
    {DB Doc : Type} {materials_api : EpicMaterials DB Doc}
    (other : EpicMaterials DB Doc)
    (epic_db : DB) (material_id : pyval) (component_id : string) (w w' : World DB) :
  update_sliders epic_db material_id component_id w = Ok (tt, w') →
  (∃ last : pyval,
     st_component (st w') !! component_id = Some last ∧
     py_eqb material_id last = true) ∧
  update_sliders (materials_api := other) epic_db material_id component_id w'
  = Ok (tt, w').
Proof.
  intros H.
  assert (∃ last : pyval,
            st_component (st w') !! component_id = Some last ∧
            py_eqb material_id last = true) as Hlast.
  { unfold update_sliders in H.
    apply bind_inv in H as (last & w1 & Hget & H).
    unfold st_get in Hget.
    destruct (st_component (st w) !! component_id) as [last'|] eqn:Hentry; [|done].
    injection Hget as -> <-.
    destruct (py_eqb material_id last) eqn:Heq; simpl in H.
    - unfold mret, M_ret, ret in H. injection H as <-. by exists last.
    - apply bind_inv in H as ([wa sl] & w2 & _ & H).
      apply bind_inv in H as ([] & w3 & _ & H).
      apply bind_inv in H as ([] & w4 & _ & H).
      unfold st_set, modify in H. injection H as <-.
      exists material_id. simpl. by rewrite lookup_insert_eq, py_eqb_refl. }
  split; [done|]. destruct Hlast as (last & Hentry & Heq).
  unfold update_sliders.
  rewrite (bind_Ok _ _ w' w' last) by (unfold st_get; by rewrite Hentry).
  by rewrite Heq.
Qed.

(** ** The outputs of the material component *)

Section MaterialOutputs.
Context {DB Doc Assembly Entry Geometry : Type}.
Context {info : EpicInfo}.
Context {materials_api : EpicMaterials DB Doc}.

Abbreviation RunScript_Material' :=
  (RunScript_Material (DB := DB) (Doc := Doc) (Assembly := Assembly) (Geometry := Geometry)).

(** X15.  Every run that returns has twelve outputs, the last one the
    disclaimer.  Either the first eleven are the warning, or the first is a
    material object and the others repeat its attributes; the wastage and
    the service life of the object and of the outputs are the inputs of the
    component as they were given, not the defaults of the database, and
    the comments are the input too. *)
Theorem X15_twelve_outputs
    (connect_button material_category material_id comments _null
     wastage service_life _null2
     energy_reduction water_reduction ghg_reduction _null3 epic_help : pyval)
    (w w' : World DB) (outs : list (output Assembly Geometry)) :
  RunScript_Material' connect_button material_category material_id comments _null
    wastage service_life _null2 energy_reduction water_reduction ghg_reduction
    _null3 epic_help w = Ok (outs, w') →
  length outs = 12%nat ∧
  outs !! 11%nat = Some (OutVal (PyStr DISCLAIMER)) ∧
  (take 11 outs = replicate 11 (OutVal (PyStr warning)) ∨
   ∃ m : EPiCMaterial.t,
     outs = [OutMaterial m; OutVal PyNone;
             OutVal (EPiCMaterial.energy m); OutVal (EPiCMaterial.water m);
             OutVal (EPiCMaterial.ghg m); OutVal PyNone;
             OutVal (EPiCMaterial.doi m); OutVal (EPiCMaterial.density m);
             OutVal (EPiCMaterial.functional_unit m);
             OutVal wastage; OutVal service_life; OutVal (PyStr DISCLAIMER)] ∧
     EPiCMaterial.wastage m = wastage ∧
     EPiCMaterial.service_life m = service_life ∧
     EPiCMaterial.comments m = comments).
Proof.
  unfold RunScript_Material. intros H.
  apply bind_inv in H as ([[epic_db category] component_id] & w1 & _ & H).
  cbv beta iota in H.
  destruct (truthy material_id && truthy category).
  - apply bind_inv in H as ([[mid v] shares] & w2 & _ & H). cbv beta iota in H.
    apply bind_inv in H as ([[energy water] ghg] & w3 & _ & H). cbv beta iota zeta in H.
    unfold mret, M_ret, ret in H. injection H as <- <-.
    split; [done|split; [done|right]].
    match goal with |- ∃ m, OutMaterial ?x :: _ = _ ∧ _ => by exists x end.
  - apply bind_inv in H as ([] & w2 & _ & H).
    unfold mret, M_ret, ret in H. injection H as <- <-.
    split; [done|split; [done|by left]].
Qed.

End MaterialOutputs.

(** ** Further properties of the volumetric component *)

Lemma flatten_inputs_length (inputs : list (ghval * ghval)) :
  length (flatten_inputs inputs) = (2 * length inputs)%nat.
Proof.
  unfold flatten_inputs. induction inputs as [|[m q] inputs IH]; [done|].
  cbn [mbind list_bind app length]. rewrite IH. lia.
Qed.

Lemma flatten_inputs_lookup (inputs : list (ghval * ghval)) (i : nat) (m q : ghval) :
  inputs !! i = Some (m, q) →
  flatten_inputs inputs !! (2 * i)%nat = Some m ∧
  flatten_inputs inputs !! (2 * i + 1)%nat = Some q.
Proof.
  unfold flatten_inputs. revert i.
  induction inputs as [|[m' q'] inputs IH]; intros i Hi; [done|].
  destruct i as [|i].
  - by injection Hi as -> ->.
  - replace (2 * S i)%nat with (S (S (2 * i))) by lia. by apply IH.
Qed.

(** X16.  The loop of lines 112-125 over the local variables never raises and
    loses nothing: it returns the materials and quantities of the first
    twenty material inputs, each material followed by its quantity, in the
    order of the inputs; inputs after the twentieth are not read. *)
Theorem X16_material_inputs_collected (inputs : list (ghval * ghval)) :
  ∃ material_list : list ghval,
    get_materials (material_locals 1 inputs) (seq 1 20) = Ok material_list ∧
    length material_list = (2 * (length inputs `min` 20))%nat ∧
    ∀ (i : nat) (m q : ghval),
      (i < 20)%nat → inputs !! i = Some (m, q) →
      material_list !! (2 * i)%nat = Some m ∧
      material_list !! (2 * i + 1)%nat = Some q.
Proof.
  exists (flatten_inputs (take 20 inputs)).
  split; [apply get_materials_inputs|]. split.
  - rewrite flatten_inputs_length, length_take. lia.
  - intros i m q Hi Hin. apply flatten_inputs_lookup.
    by rewrite lookup_take_lt.
Qed.

Section VolumetricRuns.
Context {DB Assembly Entry Geometry : Type}.
Context {info : EpicInfo}.
Context {assemblies_api : EpicAssemblies DB Assembly Entry Geometry}.

(** Lines 101-128 of a run: the header, the loop and the sorting of the
    inputs. *)
Lemma RunScript_Volumetric_create_raises
    (name category comments : pyval) (geometry : list Geometry)
    (service_life_override wastage_override _null : pyval)
    (materials : list (ghval * ghval)) (w : World DB) (e : exn) :
  create_list_of_input_materials_and_qty units (flatten_inputs (take 20 materials))
    (header_world "1.02" component_name w) = Raise e →
  RunScript_Volumetric name category comments geometry
    service_life_override wastage_override _null materials w = Raise e.
Proof.
  intros Hcreate.
  unfold RunScript_Volumetric, mbind, M_bind, bind, lift.
  rewrite version_header_Ok; cbv beta iota.
  by rewrite get_materials_inputs, Hcreate.
Qed.

(** X17.  Only a [TypeError] of the constructor is turned into the geometry
    warning.  Any other exception of the constructor, and any exception of
    [create_list_of_input_materials_and_qty], ends the run: no output list
    is returned. *)
Theorem X17_constructor_exception_propagates
    (name category comments : pyval) (geometry : list Geometry)
    (service_life_override wastage_override _null : pyval)
    (materials : list (ghval * ghval)) (w : World DB) (e : exn) :
  (create_list_of_input_materials_and_qty units (flatten_inputs (take 20 materials))
     (header_world "1.02" component_name w) = Raise e →
   RunScript_Volumetric name category comments geometry
     service_life_override wastage_override _null materials w = Raise e) ∧
  (∀ (entries : list Entry) (w1 : World DB),
     create_list_of_input_materials_and_qty units (flatten_inputs (take 20 materials))
       (header_world "1.02" component_name w) = Ok (entries, w1) →
     EPiCAssembly geometry name service_life_override wastage_override comments
       entries units category = Raise e →
     e ≠ TypeError →
     RunScript_Volumetric name category comments geometry
       service_life_override wastage_override _null materials w = Raise e).
Proof.
  split; [apply RunScript_Volumetric_create_raises|].
  intros entries w1 Hcreate Hinit He.
  unfold RunScript_Volumetric, mbind, M_bind, bind, lift.
  rewrite version_header_Ok; cbv beta iota.
  rewrite get_materials_inputs, Hcreate; cbv beta iota.
  rewrite Hinit. by destruct e.
Qed.

(** X18.  The outputs are read from [assembly.flows['initial']].  When, after
    [calculate_flows], the assembly has no flows for the key ['initial'], or
    these lack one of ['energy'], ['water'] and ['ghg'], the run raises
    [KeyError] and returns nothing. *)
Theorem X18_missing_flow_KeyError
    (name category comments : pyval) (geometry : list Geometry)
    (service_life_override wastage_override _null : pyval)
    (materials : list (ghval * ghval))
    (w w1 w2 : World DB) (entries : list Entry) (a a' : Assembly) :
  create_list_of_input_materials_and_qty units (flatten_inputs (take 20 materials))
    (header_world "1.02" component_name w) = Ok (entries, w1) →
  EPiCAssembly geometry name service_life_override wastage_override comments
    entries units category = Ok a →
  calculate_flows a (input_warnings geometry entries w1) = Ok (a', w2) →
  (∀ d : gmap string pyval,
     flows a' !! "initial" = Some d →
     d !! "energy" = None ∨ d !! "water" = None ∨ d !! "ghg" = None) →
  RunScript_Volumetric name category comments geometry
    service_life_override wastage_override _null materials w = Raise KeyError.
Proof.
  intros Hcreate Hinit Hcalc Hmissing.
  unfold RunScript_Volumetric, mbind, M_bind, bind, lift.
  rewrite version_header_Ok; cbv beta iota.
  rewrite get_materials_inputs, Hcreate; cbv beta iota.
  rewrite Hinit. unfold input_warnings in Hcalc.
  unfold on_Component, modify, mret, M_ret, ret.
  assert (match flow_of a' "initial" "energy" with
          | Ok e =>
              match flow_of a' "initial" "water" with
              | Ok wa =>
                  match flow_of a' "initial" "ghg" with
                  | Ok g => False
                  | Raise x => x = KeyError
                  end
              | Raise x => x = KeyError
              end
          | Raise x => x = KeyError
          end) as Hflows.
  { unfold flow_of. destruct (flows a' !! "initial") as [d|]; [|done].
    destruct (Hmissing d eq_refl) as [H|[H|H]]; rewrite H;
      repeat (destruct (d !! _); try done). }
  destruct (bool_decide (geometry = [])); destruct (bool_decide (length entries < 1)%nat);
    cbv beta iota; cbv beta iota zeta in Hcalc; rewrite Hcalc; cbv beta iota;
    (destruct (flow_of a' "initial" "energy"); [|by subst]);
    (destruct (flow_of a' "initial" "water"); [|by subst]);
    (destruct (flow_of a' "initial" "ghg"); [done|by subst]).
Qed.

(** X19.  Missing inputs do not end a run.  Without geometry and without
    materials the component adds its two warnings, in this order, and
    still calls [calculate_flows]; with both present it adds none.  What
    follows is the same in each case: an exception of [calculate_flows] ends
    the run, and its result is output with the three initial flows. *)
Theorem X19_missing_inputs_warn_and_continue
    (name category comments : pyval) (geometry : list Geometry)
    (service_life_override wastage_override _null : pyval)
    (materials : list (ghval * ghval))
    (w w1 : World DB) (entries : list Entry) (a : Assembly) :
  create_list_of_input_materials_and_qty units (flatten_inputs (take 20 materials))
    (header_world "1.02" component_name w) = Ok (entries, w1) →
  EPiCAssembly geometry name service_life_override wastage_override comments
    entries units category = Ok a →
  ∃ warned : World DB,
    RuntimeMessages (ghenv_Component warned)
    = (RuntimeMessages (ghenv_Component w1) ++
       match geometry with
       | [] => [(RML.Warning, "No geometry is connected to the assembly")]
       | _ => []
       end ++
       match entries with
       | [] => [(RML.Warning,
                 "No input EPiC_Material inputs or material quantities have been found ")]
       | _ => []
       end)%list ∧
    st warned = st w1 ∧
    (∀ e : exn,
       calculate_flows a warned = Raise e →
       RunScript_Volumetric name category comments geometry
         service_life_override wastage_override _null materials w = Raise e) ∧
    (∀ (a' : Assembly) (w2 : World DB) (e wa g : pyval),
       calculate_flows a warned = Ok (a', w2) →
       flow_of a' "initial" "energy" = Ok e →
       flow_of a' "initial" "water" = Ok wa →
       flow_of a' "initial" "ghg" = Ok g →
       RunScript_Volumetric name category comments geometry
         service_life_override wastage_override _null materials w
       = Ok ([OutAssembly a'; OutVal PyNone; OutVal e; OutVal wa; OutVal g; OutVal PyNone;
              OutGeometry (output_geometry a')], w2)).
Proof.
  intros Hcreate Hinit. exists (input_warnings geometry entries w1).
  split; [|split; [|split]].
  - unfold input_warnings. destruct geometry, entries; simpl;
      by rewrite <- ?app_assoc, ?app_nil_r.
  - unfold input_warnings.
    by destruct (bool_decide (geometry = [])), (bool_decide (length entries < 1)%nat).
  - intros e Hcalc.
    unfold RunScript_Volumetric, mbind, M_bind, bind, lift.
    rewrite version_header_Ok; cbv beta iota.
    rewrite get_materials_inputs, Hcreate; cbv beta iota.
    rewrite Hinit. unfold input_warnings in Hcalc.
    unfold on_Component, modify, mret, M_ret, ret.
    destruct (bool_decide (geometry = []));
      destruct (bool_decide (length entries < 1)%nat);
      cbv beta iota; cbv beta iota zeta in Hcalc; by rewrite Hcalc.
  - intros a' w2 e wa g Hcalc He Hwa Hg.
    by eapply RunScript_Volumetric_success.
Qed.

End VolumetricRuns.

(** ** The process shares *)

Lemma mapM_result_Ok {A B} (f : A → result B) (l : list A) (ys : list B) :
  mapM_result f l = Ok ys → Forall2 (λ x y, f x = Ok y) l ys.
Proof.
  revert ys. induction l as [|x l IH]; intros ys; simpl.
  - intros [= <-]. constructor.
  - unfold mbind, result_bind. destruct (f x) as [y|] eqn:Hx; [|done].
    destruct (mapM_result f l) as [ys'|]; [|done].
    intros [= <-]. constructor; [done|by apply IH].
Qed.

Lemma mapM_result_Raise {A B} (f : A → result B) (l : list A) (x : A) (e : exn) :
  x ∈ l → f x = Raise e → ∃ e', mapM_result f l = Raise e'.
Proof.
  intros Hin Hx. induction Hin as [x l|x x' l Hin IH]; simpl.
  - rewrite Hx. by exists e.
  - unfold mbind, result_bind. destruct (f x') as [y|e1]; [|by exists e1].
    destruct (IH Hx) as [e' ->]. by exists e'.
Qed.

Section ProcessShares.
Context {DB Doc : Type}.
Context {info : EpicInfo}.
Context {materials_api : EpicMaterials DB Doc}.

(** X20.  The process shares of lines 183-184.  When the comprehension
    returns, it has one entry for each key of [DEFINED_FLOWS], in their
    order, and the entry of a flow is what the database returns for the
    field ['hybrid_process_proportion_' + flow]; when the query of one of
    the flows raises, no shares are returned. *)
Theorem X20_process_shares (epic_db : DB) (material_id : pyval) :
  (∀ shares : list (string * pyval),
     query_process_shares epic_db material_id = Ok shares →
     shares.*1 = DEFINED_FLOWS_keys ∧
     ∀ (flow : string) (v : pyval),
       (flow, v) ∈ shares →
       query epic_db material_id ("hybrid_process_proportion_" +:+ flow) = Ok v) ∧
  (∀ (flow : string) (e : exn),
     flow ∈ DEFINED_FLOWS_keys →
     query epic_db material_id ("hybrid_process_proportion_" +:+ flow) = Raise e →
     ∃ e' : exn, query_process_shares epic_db material_id = Raise e').
Proof.
  unfold query_process_shares. split.
  - intros shares Hshares. apply mapM_result_Ok in Hshares.
    induction Hshares as [|flow [flow' v] flows shares Hflow _ IH];
      [split; [done|by intros ? ? ?%elem_of_nil]|].
    unfold mbind, result_bind in Hflow.
    destruct (query epic_db material_id _) as [v'|] eqn:Hq; [|done].
    injection Hflow as <- <-. destruct IH as [IH1 IH2]. split.
    + by rewrite fmap_cons, IH1.
    + intros f x [[= -> ->]|Hin]%elem_of_cons; [done|by apply IH2].
  - intros flow e Hin Hq.
    apply (mapM_result_Raise _ _ flow e Hin).
    unfold mbind, result_bind. by rewrite Hq.
Qed.

End ProcessShares.

(** ** Further runs on the small database *)

Abbreviation Demo_RunScript_Material :=
  (RunScript_Material (info := Demo.info) (materials_api := Demo.materials)
     (Assembly := unit) (Geometry := unit)).

(** X2, on the small database: a category text without the space. *)
Lemma X2_category_colon_IndexError_witness :
  Demo_RunScript_Material (PyBool true) (PyStr "Concrete:20MPa") (PyStr "concrete")
    PyNone PyNone PyNone PyNone PyNone PyNone PyNone PyNone PyNone PyNone
    (Demo.session Demo.wired ∅) = Raise IndexError.
Proof.
  refine (proj1 (X2_category_colon_IndexError (info := Demo.info)
                   (materials_api := Demo.materials) _ _ _ _ _ _ _ _ _ _ _ _
                   "Concrete:20MPa" [] _ Demo.the_database _ _ _)); reflexivity.
Defined.

(** X3, on the small database: the first run of a component, with
    "concrete" of the category "Concrete" selected. *)
Lemma X3_sticky_entry_after_prepare_witness :
  is_Some (st_component (st (Demo.world_prepared "concrete")) !! "7f3a") ∧
  ∃ last : pyval,
    st_get "7f3a" (Demo.world_prepared "concrete")
    = Ok (last, Demo.world_prepared "concrete").
Proof.
  destruct (X3_sticky_entry_after_prepare (info := Demo.info)
              (materials_api := Demo.materials)
              (PyBool true) (PyStr "01: Concrete") (PyStr "concrete") PyNone
              (PyStr "Concrete") Demo.world (Demo.world_prepared "concrete")
              Demo.the_database "7f3a" eq_refl)
    as (_ & Hsome & _ & _ & Hfound).
  split; [exact Hsome|].
  exact (proj2 (proj2 (Hfound "Concrete" [PyStr "concrete"; PyStr "membrane"]
                         [num 10; num 4; num 2; PyStr "m³"; PyStr "Concrete 20 MPa";
                          PyStr "10.26188/concrete"; PyStr "Concrete"; num 2400]
                         _ Demo.no_shares eq_refl eq_refl eq_refl eq_refl eq_refl eq_refl))).
Defined.

(** X4, on the small database: nothing connected, the database loaded. *)
Lemma X4_unselected_run_effects_witness :
  ∃ w' : World Demo.database,
    Demo_RunScript_Material PyNone PyNone PyNone
      PyNone PyNone PyNone PyNone PyNone PyNone PyNone PyNone PyNone PyNone
      (Demo.session Demo.wired ∅)
    = Ok ((replicate 11 (OutVal (PyStr warning)) ++
           [OutVal (PyStr "Use at your own risk")])%list, w') ∧
    RuntimeMessages (ghenv_Component w') = [(RML.Warning, warning)] ∧
    st_component (st w') = {[ "7f3a" := PyNone ]}.
Proof.
  destruct (X4_unselected_run_effects (info := Demo.info) (materials_api := Demo.materials)
              (Assembly := unit) (Geometry := unit)
              PyNone PyNone PyNone PyNone PyNone PyNone PyNone PyNone PyNone PyNone
              PyNone PyNone PyNone PyNone (Demo.session Demo.wired ∅) Demo.the_database
              eq_refl eq_refl eq_refl eq_refl)
    as (w' & Hrun & _ & _ & Hmessages & _ & _ & Hsticky & _).
  exists w'. split; [exact Hrun|]. split; [exact Hmessages|exact Hsticky].
Defined.

(** X5, on the small database: a loader that fails is not called. *)
Lemma X5_database_loaded_once_witness :
  RunScript_Material (info := Demo.info) (Assembly := unit) (Geometry := unit)
    (materials_api := with_EPiCDatabase (materials_api := Demo.materials)
                        (λ _, Raise (OtherError "no database")))
    (PyBool true) (PyStr "01: Concrete") (PyStr "concrete")
    PyNone PyNone PyNone PyNone PyNone PyNone PyNone PyNone PyNone PyNone
    (Demo.session Demo.wired ∅)
  = Demo_RunScript_Material (PyBool true) (PyStr "01: Concrete") (PyStr "concrete")
      PyNone PyNone PyNone PyNone PyNone PyNone PyNone PyNone PyNone PyNone
      (Demo.session Demo.wired ∅).
Proof.
  refine (proj1 (X5_database_loaded_once (info := Demo.info)
                   (materials_api := Demo.materials) _ _ _ _ _ _ _ _ _ _ _ _ _ _)
            Demo.the_database _ _).
  reflexivity.
Defined.

(** X6, on the small database, which has no category "Timber". *)
Lemma X6_unknown_category_KeyError_witness :
  Demo_RunScript_Material (PyBool true) (PyStr "02: Timber") (PyStr "concrete")
    PyNone PyNone PyNone PyNone PyNone PyNone PyNone PyNone PyNone PyNone
    (Demo.session Demo.wired ∅) = Raise KeyError.
Proof.
  refine (X6_unknown_category_KeyError (info := Demo.info) (materials_api := Demo.materials)
            _ _ _ _ _ _ _ _ _ _ _ _ _ "Timber" _ Demo.the_database _ _ _ _ _);
    try reflexivity.
  intros [=].
Defined.


(** X8, on the small database: "timber" is not in the category "Concrete",
    and nothing is wired to the inputs. *)
Lemma X8_no_source_IndexError_witness :
  Demo_RunScript_Material (PyBool true) (PyStr "01: Concrete") (PyStr "timber")
    PyNone PyNone PyNone PyNone PyNone PyNone PyNone PyNone PyNone PyNone
    (Demo.session (replicate 7 []) ∅) = Raise IndexError.
Proof.
  refine (X8_no_source_IndexError (info := Demo.info) (materials_api := Demo.materials)
            _ _ _ _ _ _ _ _ _ _ _ _ _ PyNone "Concrete"
            [PyStr "concrete"; PyStr "membrane"] _ Demo.the_database _ _ _ _ _ _ _ _);
    try reflexivity.
  intros [=].
Defined.

(** X9, on the small database: the defaults of "concrete", whose service
    life is stored as -1. *)
Lemma X9_slider_defaults_witness :
  Demo.world = Demo.world ∧
  (∃ q : Qc, PyNum ((Demo.Q_ 21 20 - Qc_of_Z 1) * Qc_of_Z 100) = PyNum q) ∧
  (num 0 = num 0 ∨ (truthy (num 0) = true ∧ py_eqb (num 0) (num (-1)) = false)).
Proof.
  apply (proj2 (X9_slider_defaults (materials_api := Demo.materials)
                  Demo.the_database (PyStr "concrete") Demo.world)).
  reflexivity.
Defined.

(** X10, on the small database: "concrete" has the wastage coefficient
    21/20 and the service life -1. *)
Lemma X10_defaults_from_database_witness :
  ∃ p : Qc,
    db_wastage_and_service_life (materials_api := Demo.materials)
      Demo.the_database (PyStr "concrete") Demo.world
    = Ok ((PyNum p, PyNum 0), Demo.world) ∧
    0 < p.
Proof.
  destruct (proj1 (X10_defaults_from_database (materials_api := Demo.materials)
                     Demo.the_database (PyStr "concrete") Demo.world (Demo.Q_ 21 20)
                     (Some (Qc_of_Z (-1))) eq_refl eq_refl))
    as (p & Hrun & _ & _ & Hpositive & _).
  exists p. split; [exact Hrun|]. by apply Hpositive.
Defined.

(** X11, on the small database: "membrane" has no wastage coefficient. *)
Lemma X11_no_wastage_no_service_life_witness :
  db_wastage_and_service_life (materials_api := Demo.materials)
    Demo.the_database (PyStr "membrane") Demo.world
  = Ok ((num 0, num 0), Demo.world).
Proof.
  apply (X11_no_wastage_no_service_life (materials_api := Demo.materials)
           Demo.the_database (PyStr "membrane") PyNone); reflexivity.
Defined.

(** X13, on the small database: sliders at inputs 5 and 6, and a component
    whose list was just generated. *)
Lemma X13_update_sliders_once_witness :
  update_sliders (materials_api := Demo.materials) Demo.the_database (PyStr "concrete") "7f3a"
    (Demo.world_updated "concrete" (Demo.session Demo.wired {[ "7f3a" := PyNone ]}))
  = Ok (tt, Demo.world_updated "concrete" (Demo.session Demo.wired {[ "7f3a" := PyNone ]})).
Proof.
  refine (proj2 (X13_update_sliders_once (materials_api := Demo.materials) Demo.materials
                   Demo.the_database (PyStr "concrete") "7f3a"
                   (Demo.session Demo.wired {[ "7f3a" := PyNone ]}) _ _)).
  reflexivity.
Defined.

(** X15, on the small database: the run on "concrete". *)
Lemma X15_twelve_outputs_witness :
  ∃ outs : list (output unit unit),
    Demo.run_material "concrete" PyNone PyNone PyNone = Ok (outs, Demo.world_after "concrete") ∧
    length outs = 12%nat ∧
    outs !! 11%nat = Some (OutVal (PyStr "Use at your own risk")).
Proof.
  pose (outs :=
          material_outputs (info := Demo.info) (Assembly := unit) (Geometry := unit)
            (PyStr "concrete")
            {| db_energy := num 10; db_water := num 4; db_ghg := num 2;
               db_functional_unit := PyStr "m³"; db_name := PyStr "Concrete 20 MPa";
               db_doi := PyStr "10.26188/concrete"; db_category := PyStr "Concrete";
               db_density := num 2400 |}
            Demo.no_shares (num 10) (num 4) (num 2) PyNone PyNone PyNone).
  assert (Demo.run_material "concrete" PyNone PyNone PyNone
          = Ok (outs, Demo.world_after "concrete")) as Hrun
    by reflexivity.
  exists outs. split; [exact Hrun|].
  destruct (X15_twelve_outputs (info := Demo.info) (materials_api := Demo.materials)
              (PyBool true) (PyStr "01: Concrete") (PyStr "concrete")
              PyNone PyNone PyNone PyNone PyNone PyNone PyNone PyNone PyNone PyNone
              Demo.world (Demo.world_after "concrete") outs Hrun) as (Hlen & Hlast & _).
  by split.
Defined.

(** X20, on the small database, which stores no process shares. *)
Lemma X20_process_shares_witness :
  Demo.no_shares.*1 = ["energy"; "water"; "ghg"] ∧
  ∀ (flow : string) (v : pyval),
    (flow, v) ∈ Demo.no_shares →
    Demo.query_field Demo.the_database (PyStr "concrete")
      ("hybrid_process_proportion_" +:+ flow) = Ok v.
Proof.
  apply (proj1 (X20_process_shares (info := Demo.info) (materials_api := Demo.materials)
                  Demo.the_database (PyStr "concrete"))).
  reflexivity.
Defined.

(** ** Further runs of the volumetric component *)

(** X17: a constructor that raises [KeyError]. *)
Lemma X17_constructor_exception_propagates_witness :
  RunScript_Volumetric (info := Demo.info)
    (assemblies_api := Demo.plain_assemblies (Raise KeyError))
    (PyStr "Slab") PyNone PyNone [tt] PyNone PyNone PyNone
    Demo.material_inputs Demo.world = Raise KeyError.
Proof.
  refine (proj2 (X17_constructor_exception_propagates (info := Demo.info)
                   (assemblies_api := Demo.plain_assemblies (Raise KeyError))
                   _ _ _ _ _ _ _ _ _ KeyError) Demo.raw_inputs _ _ _ _).
  - reflexivity.
  - reflexivity.
  - intros [=].
Defined.

(** X18: an assembly whose initial flows have no ['ghg']. *)
Lemma X18_missing_flow_KeyError_witness :
  RunScript_Volumetric (info := Demo.info)
    (assemblies_api :=
       Demo.plain_assemblies
         (Ok {[ "initial" := {[ "energy" := num 30; "water" := num 12 ]} ]}))
    (PyStr "Slab") PyNone PyNone [tt] PyNone PyNone PyNone
    Demo.material_inputs Demo.world = Raise KeyError.
Proof.
  refine (X18_missing_flow_KeyError (info := Demo.info)
            (assemblies_api :=
               Demo.plain_assemblies
                 (Ok {[ "initial" := {[ "energy" := num 30; "water" := num 12 ]} ]}))
            _ _ _ _ _ _ _ _ _ _ _ Demo.raw_inputs _ _ _ _ _ _).
  - reflexivity.
  - reflexivity.
  - reflexivity.
  - intros d Hd. right. right.
    change (flows _ !! "initial") with
      (({[ "initial" := {[ "energy" := num 30; "water" := num 12 ]} ]}
          : gmap string (gmap string pyval)) !! "initial") in Hd.
    rewrite lookup_singleton_eq in Hd. by injection Hd as <-.
Defined.

(** X19: a run with nothing connected. *)
Lemma X19_missing_inputs_warn_and_continue_witness :
  ∃ warned : World Demo.database,
    RuntimeMessages (ghenv_Component warned)
    = [(RML.Warning, "No geometry is connected to the assembly");
       (RML.Warning,
        "No input EPiC_Material inputs or material quantities have been found ")] ∧
    RunScript_Volumetric (info := Demo.info)
      (assemblies_api :=
         Demo.plain_assemblies
           (Ok {[ "initial" := {[ "energy" := num 0; "water" := num 0; "ghg" := num 0 ]} ]}))
      PyNone PyNone PyNone [] PyNone PyNone PyNone [] Demo.world
    = Ok ([OutAssembly
             {[ "initial" := {[ "energy" := num 0; "water" := num 0; "ghg" := num 0 ]} ]};
           OutVal PyNone; OutVal (num 0); OutVal (num 0); OutVal (num 0); OutVal PyNone;
           OutGeometry []], warned).
Proof.
  destruct (X19_missing_inputs_warn_and_continue (info := Demo.info)
              (assemblies_api :=
                 Demo.plain_assemblies
                   (Ok {[ "initial" :=
                            {[ "energy" := num 0; "water" := num 0; "ghg" := num 0 ]} ]}))
              PyNone PyNone PyNone [] PyNone PyNone PyNone [] Demo.world
              (header_world (info := Demo.info) "1.02" component_name Demo.world)
              [] _ eq_refl eq_refl)
    as (warned & Hmessages & _ & _ & Hrun).
  exists warned. split; [exact Hmessages|].
  apply Hrun; reflexivity.
Defined.
